(** * ADW webhook trigger: a shallow embedding of [adws/adw_triggers/trigger_webhook.py]

    The development models the two functions of the webhook receiver,
    [find_latest_adw_id_in_issue] and [github_webhook], as programs of a small
    state-and-exception monad over an explicit world (the persisted run
    states, the trace of external calls, the counter of generated
    identifiers). The helpers imported from [adw_modules] are not part of
    the sources at hand: they are fields of an environment record [env], and
    every theorem holds for every environment.

    Conventions.
    - A Python [str] is the [string] of the bytes of its UTF-8 encoding.
      A character is a lead byte with its continuation bytes; the
      characters a program tests for are ASCII but for whitespace, which
      is Python's ([str.isspace], the class [\s] of [re], what [str.strip]
      removes): the ASCII ones and the encodings of two and three bytes of
      the others. [str.lower] is modelled on the ASCII range; no non-ASCII
      character lowercases to one of [a], [d], [w], [_], so the trigger
      test ["adw_" in body.lower()] is exact on such strings.
    - [Optional[str]] is [option string] and an optional integer is
      [option Z], with [None] for Python's [None]; truthiness is written
      out ([py_truthy], [py_truthy_int]).
    - The payload is typed by the fields the handler reads, each with the
      kinds of value a GitHub payload has for it; a body may be missing,
      [null] or a text.
    - An exception is an instance of [Exception], which is what the two
      [except] clauses catch; [SystemExit] and the like are not modelled.
    - [print] and the calls on the logger object write to the console and to
      the log file only; they are left out of the model. *)

From Stdlib Require Import String Ascii ZArith List Bool Lia.
From Stdlib Require Floats.SpecFloat.
From stdpp Require Import base option list gmap strings pretty.
Import ListNotations.

Local Open Scope string_scope.
Local Open Scope list_scope.

(* ===================================================================== *)
(** ** Python values and string operations *)
(* ===================================================================== *)

(** [bool(v)] for an [Optional[str]]: [None] and [""] are falsy. *)
Definition py_truthy (v : option string) : bool :=
  match v with
  | Some (String _ _) => true
  | _ => false
  end.

(** [bool(v)] for an optional integer: [None] and [0] are falsy. *)
Definition py_truthy_int (v : option Z) : bool :=
  match v with
  | Some z => negb (z =? 0)%Z
  | None => false
  end.

(** [str(v)] and the f-string rendering of an optional integer. *)
Definition py_str_int (v : option Z) : string :=
  match v with
  | Some z => pretty z
  | None => "None"
  end.

(** The f-string rendering [{v}] of an [Optional[str]]. *)
Definition py_format (v : option string) : string :=
  match v with
  | Some s => s
  | None => "None"
  end.

(** [needle in hay] on strings. *)
Fixpoint str_in (needle hay : string) : bool :=
  String.prefix needle hay ||
  match hay with
  | EmptyString => false
  | String _ hay' => str_in needle hay'
  end.

Definition ascii_lower (c : ascii) : ascii :=
  let n := nat_of_ascii c in
  if (65 <=? n)%nat && (n <=? 90)%nat then ascii_of_nat (n + 32) else c.

(** [s.lower()]. *)
Fixpoint str_lower (s : string) : string :=
  match s with
  | EmptyString => EmptyString
  | String c s' => String (ascii_lower c) (str_lower s')
  end.

(** [s[:n]], on the ASCII strings it is applied to (the identifiers
    recovered from comments, of hexadecimal digits and dashes). *)
Fixpoint str_take (n : nat) (s : string) : string :=
  match n, s with
  | S n', String c s' => String c (str_take n' s')
  | _, _ => EmptyString
  end.

(** Python's whitespace characters, by code point: those [str.isspace]
    accepts, which are the class [\s] of [re] on a [str] and what
    [str.strip] removes. *)
Definition py_isspace (cp : N) : bool :=
  ((0x09 <=? cp) && (cp <=? 0x0D))%N || ((0x1C <=? cp) && (cp <=? 0x20))%N
  || (cp =? 0x85)%N || (cp =? 0xA0)%N || (cp =? 0x1680)%N
  || ((0x2000 <=? cp) && (cp <=? 0x200A))%N
  || (cp =? 0x2028)%N || (cp =? 0x2029)%N || (cp =? 0x202F)%N
  || (cp =? 0x205F)%N || (cp =? 0x3000)%N.

(** A continuation byte of UTF-8 (0x80-0xBF). *)
Definition is_continuation (c : ascii) : bool :=
  let n := nat_of_ascii c in (128 <=? n)%nat && (n <=? 191)%nat.

(** The code point of a character of two bytes (U+0080 to U+07FF) and of
    one of three bytes (U+0800 to U+FFFF) of UTF-8; [None] for bytes that
    are no such character. *)
Definition utf8_2 (c1 c2 : ascii) : option N :=
  let n1 := N_of_ascii c1 in
  if ((0xC2 <=? n1) && (n1 <=? 0xDF))%N && is_continuation c2
  then Some ((n1 - 0xC0) * 64 + (N_of_ascii c2 - 0x80))%N
  else None.

Definition utf8_3 (c1 c2 c3 : ascii) : option N :=
  let n1 := N_of_ascii c1 in
  let cp := ((n1 - 0xE0) * 4096 + (N_of_ascii c2 - 0x80) * 64
             + (N_of_ascii c3 - 0x80))%N in
  if ((0xE0 <=? n1) && (n1 <=? 0xEF))%N && is_continuation c2
     && is_continuation c3 && (0x800 <=? cp)%N
  then Some cp
  else None.

(** A whitespace character of one byte: tab, newline, vertical tab, form
    feed, carriage return, the four separators 0x1c-0x1f, and space. *)
Definition is_space (c : ascii) : bool :=
  let n := nat_of_ascii c in
  ((9 <=? n)%nat && (n <=? 13)%nat) || ((28 <=? n)%nat && (n <=? 32)%nat).

(** A whitespace character of two bytes (U+0085, U+00A0) and of three
    (U+1680, U+2000 to U+200A, U+2028, U+2029, U+202F, U+205F, U+3000).
    No whitespace character takes four. *)
Definition is_space2 (c1 c2 : ascii) : bool :=
  match utf8_2 c1 c2 with
  | Some cp => py_isspace cp
  | None => false
  end.

Definition is_space3 (c1 c2 c3 : ascii) : bool :=
  match utf8_3 c1 c2 c3 with
  | Some cp => py_isspace cp
  | None => false
  end.

(** The number of bytes of the whitespace character a string starts with,
    0 when it starts with none. *)
Definition space_width (s : list ascii) : nat :=
  match s with
  | c1 :: s1 =>
      if is_space c1 then 1
      else match s1 with
           | c2 :: s2 =>
               if is_space2 c1 c2 then 2
               else match s2 with
                    | c3 :: _ => if is_space3 c1 c2 c3 then 3 else 0
                    | [] => 0
                    end
           | [] => 0
           end
  | [] => 0
  end.

(** A string of whitespace characters only (possibly none). *)
Fixpoint all_space (u : list ascii) : bool :=
  match u with
  | [] => true
  | c1 :: u1 =>
      if is_space c1 then all_space u1
      else match u1 with
           | c2 :: u2 =>
               if is_space2 c1 c2 then all_space u2
               else match u2 with
                    | c3 :: u3 => is_space3 c1 c2 c3 && all_space u3
                    | [] => false
                    end
           | [] => false
           end
  end.

(** [os.path.join(a, b)] on POSIX paths: an absolute [b] replaces [a]. *)
Definition path_join (a b : string) : string :=
  if String.prefix "/" b then b
  else match a with
       | EmptyString => b
       | _ => if String.eqb (substring (String.length a - 1) 1 a) "/"
              then a +:+ b else a +:+ "/" +:+ b
       end.

(* ===================================================================== *)
(** ** Regular expressions: the fragment of [re] the patterns use *)
(* ===================================================================== *)

(** Abstract syntax. [Chr] and [Cls] are an ASCII character and a class of
    ASCII characters; [Spaces] is the greedy [\s*]; [Grp] is the (single)
    capturing group; a non-capturing group [(?:...)] is plain nesting. *)
Inductive regex : Type :=
| Eps
| Chr (c : ascii)
| Cls (p : ascii -> bool)
| Cat (r1 r2 : regex)
| Alt (r1 r2 : regex)
| Spaces
| Grp (r : regex).

(** A literal string. *)
Fixpoint lit (s : string) : regex :=
  match s with
  | EmptyString => Eps
  | String c s' => Cat (Chr c) (lit s')
  end.

(** [r{n}]. *)
Fixpoint rep (n : nat) (r : regex) : regex :=
  match n with
  | O => Eps
  | S n' => Cat r (rep n' r)
  end.

(** Concatenation of a list of pieces. *)
Definition re_seq (rs : list regex) : regex := fold_right Cat Eps rs.

(** Alternation [r1|r2|...|rn], tried left to right. *)
Fixpoint re_alt (r : regex) (rs : list regex) : regex :=
  match rs with
  | [] => r
  | r' :: rs' => Alt r (re_alt r' rs')
  end.

Section Backtracking.
Context {R : Type}.

(** Greedy [\s*] followed by the continuation [k]: take one more
    whitespace character (of one, two or three bytes) when the rest still
    matches, give it back otherwise. *)
Fixpoint exec_spaces (k : list ascii -> option R) (s : list ascii) : option R :=
  match s with
  | c1 :: s1 =>
      if is_space c1 then
        match exec_spaces k s1 with
        | Some x => Some x
        | None => k s
        end
      else
        match s1 with
        | c2 :: s2 =>
            if is_space2 c1 c2 then
              match exec_spaces k s2 with
              | Some x => Some x
              | None => k s
              end
            else
              match s2 with
              | c3 :: s3 =>
                  if is_space3 c1 c2 c3 then
                    match exec_spaces k s3 with
                    | Some x => Some x
                    | None => k s
                    end
                  else k s
              | [] => k s
              end
        | [] => k s
        end
  | [] => k s
  end.

(** The backtracking matcher of [re], in continuation-passing style: [exec
    r s g k] matches [r] at the head of [s] and passes the rest of the input
    and the capture to [k]; when [k] fails the next alternative is tried, in
    the priority order of [re] (left alternative first, longest repetition
    first). *)
Fixpoint exec (r : regex) (s : list ascii) (g : option (list ascii))
    (k : list ascii -> option (list ascii) -> option R) : option R :=
  match r with
  | Eps => k s g
  | Chr c =>
      match s with
      | c' :: s' => if Ascii.eqb c c' then k s' g else None
      | [] => None
      end
  | Cls p =>
      match s with
      | c' :: s' => if p c' then k s' g else None
      | [] => None
      end
  | Cat r1 r2 => exec r1 s g (fun s' g' => exec r2 s' g' k)
  | Alt r1 r2 =>
      match exec r1 s g k with
      | Some x => Some x
      | None => exec r2 s g k
      end
  | Spaces => exec_spaces (fun s' => k s' g) s
  | Grp r1 =>
      exec r1 s g
        (fun s' _ => k s' (Some (take (length s - length s') s)))
  end.

End Backtracking.

(** A match object; only [group(1)] is read by the program. *)
Record re_match : Type := Match { group1 : option string }.

(** [re.match(r, s)]: a match anchored at the start of [s]. *)
Definition re_match_at (r : regex) (s : list ascii) : option re_match :=
  exec r s None
    (fun _ g => Some (Match (string_of_list_ascii <$> g))).

(** [re.search] on the string: the match at the leftmost position that
    has one. The positions of the bytes are tried; the patterns start with
    an ASCII character, which no byte inside a character of several bytes
    is, so a match starts at a character. *)
Fixpoint re_search_from (r : regex) (s : list ascii) : option re_match :=
  match re_match_at r s with
  | Some m => Some m
  | None =>
      match s with
      | [] => None
      | _ :: s' => re_search_from r s'
      end
  end.

(** [re.search(r, s)]. *)
Definition re_search (r : regex) (s : string) : option re_match :=
  re_search_from r (list_ascii_of_string s).

(** [[a-f0-9]]. *)
Definition is_hex_lower (c : ascii) : bool :=
  let n := nat_of_ascii c in
  ((48 <=? n)%nat && (n <=? 57)%nat) || ((97 <=? n)%nat && (n <=? 102)%nat).

Definition dquote : ascii := "034"%char.

(** [[a-f0-9]{8}(?:-[a-f0-9]{4}){3}-[a-f0-9]{12}], the part every pattern
    captures. *)
Definition uuid_re : regex :=
  re_seq [ rep 8 (Cls is_hex_lower);
           rep 3 (Cat (Chr "-") (rep 4 (Cls is_hex_lower)));
           Chr "-";
           rep 12 (Cls is_hex_lower) ].

(** Pattern 1, the JSON state: the field name [adw_id] in double quotes, a
    colon, [\s*], and the identifier in double quotes. *)
Definition json_pattern : regex :=
  re_seq [ Chr dquote; lit "adw_id"; Chr dquote; Chr ":"; Spaces;
           Chr dquote; Grp uuid_re; Chr dquote ].

(** Pattern 2, the explicit mention: [adw_id:\s*(<uuid>)]. *)
Definition explicit_pattern : regex :=
  re_seq [ lit "adw_id:"; Spaces; Grp uuid_re ].

(** Pattern 3, the comment prefix:
    [(<uuid>)_(?:ops|sdlc_planner|sdlc_implementor|adw_classifier):]. *)
Definition prefix_pattern : regex :=
  re_seq [ Grp uuid_re; Chr "_";
           re_alt (lit "ops")
             [ lit "sdlc_planner"; lit "sdlc_implementor"; lit "adw_classifier" ];
           Chr ":" ].

(** The list the inner loop walks, in its order of preference. *)
Definition patterns : list regex :=
  [ json_pattern; explicit_pattern; prefix_pattern ].

(** The 8-4-4-4-12 shape, checked character by character: position [i] holds
    a dash when [i] is 8, 13, 18 or 23 and a lowercase hex digit otherwise,
    and there are 36 positions. *)
Fixpoint uuid_from (i : nat) (l : list ascii) : bool :=
  match l with
  | [] => (i =? 36)%nat
  | c :: l' =>
      (if (i =? 8)%nat || (i =? 13)%nat || (i =? 18)%nat || (i =? 23)%nat
       then Ascii.eqb c "-" else is_hex_lower c)
      && uuid_from (S i) l'
  end.

Definition is_uuid (s : string) : bool := uuid_from 0 (list_ascii_of_string s).

(* ===================================================================== *)
(** ** Requests, responses, the world and the environment *)
(* ===================================================================== *)

(** Exceptions, all of them subclasses of [Exception]: the two the handler
    itself can raise on a [None] body, and whatever a helper raises. *)
Inductive exn : Type :=
| AttributeError
| TypeError
| Raised (name : string).

(** The outcome of a call: an exception or a value. *)
Abbreviation result A := (exn + A)%type.

(** A JSON field that may be missing, [null], or present. *)
Inductive field (A : Type) : Type :=
| Absent
| Null
| Val (a : A).
Arguments Absent {A}.
Arguments Null {A}.
Arguments Val {A} a.

(** [d.get(key, default)]: the default stands in for a missing key only; a
    [null] is returned as [None]. *)
Definition get_default {A : Type} (f : field A) (d : A) : option A :=
  match f with
  | Absent => Some d
  | Null => None
  | Val a => Some a
  end.

(** The [issue] object of a payload: its [number] ([None] when missing or
    null) and its [body], which GitHub sends as [null] for an issue opened
    without a description. *)
Record issue_obj : Type := Issue {
  i_number : option Z;
  i_body : field string
}.

(** The [comment] object of a payload. *)
Record comment_obj : Type := Comment {
  c_body : field string
}.

(** The parsed payload, typed by the fields the handler reads: [action]
    ([None] when missing), [issue] and [comment] ([None] when missing, read
    as [{}]). *)
Record payload : Type := Payload {
  p_action : option string;
  p_issue : option issue_obj;
  p_comment : option comment_obj
}.

(** A request: the [X-GitHub-Event] header ([None] when missing) and what
    [await request.json()] gives, a payload or an exception. *)
Record request : Type := Request {
  x_github_event : option string;
  json : result payload
}.

(** JSON values of a response body. *)
Inductive jval : Type :=
| JNull
| JInt (z : Z)
| JStr (s : string).

Definition jint (v : option Z) : jval :=
  match v with Some z => JInt z | None => JNull end.

Definition jstr (v : option string) : jval :=
  match v with Some s => JStr s | None => JNull end.

(** A response body: the dict the handler returns, keys in source order. *)
Abbreviation response := (list (string * jval)).

(** The data of one run state: field name to value, [None] for [null]. *)
Abbreviation state_data := (gmap string (option string)).

(** External calls that returned, in the order they were made. *)
Inductive event : Type :=
| IssueComment (issue_id text : string)
| StateSaved (adw_id : string) (data : state_data) (step : string)
| LoggerSetup (adw_id name : string)
| Popen (cmd : list string) (cwd : string).

(** The world a request runs in: the persisted run states keyed by run
    identifier, the trace of external calls, and how many identifiers
    [make_adw_id] has drawn. *)
Record world : Type := World {
  store : gmap string state_data;
  trace : list event;
  drawn : nat
}.

(** The helpers of [adw_modules] and the operating system, as the handler
    sees them. Each call returns a value or raises. *)
Record env : Type := Env {
  (** [make_adw_id()]: the identifier of the n-th draw. *)
  env_make_adw_id : nat -> string;
  (** [extract_adw_info(text, temp_id)]: the classifier, giving the pair
      (workflow, adw_id). *)
  env_extract_adw_info : string -> string -> result (option string * option string);
  (** [extract_repo_path()]. *)
  env_extract_repo_path : result (option string);
  (** [fetch_issue_comments(repo_path, issue_number)]: comments, newest
      first; each comment a dict of string fields. *)
  env_fetch_issue_comments : string -> option Z -> result (list (gmap string string));
  (** [make_issue_comment(issue_id, text)]. *)
  env_make_issue_comment : string -> string -> result unit;
  (** [setup_logger(adw_id, name)]. *)
  env_setup_logger : string -> string -> result unit;
  (** [subprocess.Popen(cmd, cwd=...)]. *)
  env_popen : list string -> string -> result unit;
  (** Reading and writing the state file of a run. *)
  env_state_read : string -> result unit;
  env_state_write : string -> result unit;
  (** [os.path.dirname] of the script's directory, and of that. *)
  adws_dir : string;
  repo_root : string
}.

(* ===================================================================== *)
(** ** The monad: state passing with exceptions *)
(* ===================================================================== *)

Definition M (A : Type) : Type := world -> result A * world.

Definition ret {A : Type} (a : A) : M A := fun w => (inr a, w).

Definition bind {A B : Type} (m : M A) (f : A -> M B) : M B :=
  fun w =>
    match m w with
    | (inr a, w') => f a w'
    | (inl e, w') => (inl e, w')
    end.

(** [raise e]. *)
Definition raise {A : Type} (e : exn) : M A := fun w => (inl e, w).

(** [try: m  except Exception as e: h e]. The effects [m] had before it
    raised stay. *)
Definition try_except {A : Type} (m : M A) (h : exn -> M A) : M A :=
  fun w =>
    match m w with
    | (inl e, w') => h e w'
    | (inr a, w') => (inr a, w')
    end.

(** The outcome of an external call. *)
Definition call {A : Type} (r : result A) : M A := fun w => (r, w).

(** The persisted run states, read and written. *)
Definition read_store : M (gmap string state_data) :=
  fun w => (inr (store w), w).

Definition write_store (st : gmap string state_data) : M unit :=
  fun w => (inr tt, World st (trace w) (drawn w)).

(** Record an external call that returned. *)
Definition emit (ev : event) : M unit :=
  fun w => (inr tt, World (store w) (trace w ++ [ev]) (drawn w)).

#[global] Instance M_ret : MRet M := @ret.
#[global] Instance M_bind : MBind M := fun A B f m => bind m f.

(** The Popen calls of a trace: command and working directory. *)
Definition launched (tr : list event) : list (list string * string) :=
  omap (fun ev => match ev with Popen cmd cwd => Some (cmd, cwd) | _ => None end) tr.

(** The state saves of a trace. *)
Definition saves (tr : list event) : list (string * state_data) :=
  omap (fun ev => match ev with StateSaved i d _ => Some (i, d) | _ => None end) tr.

(** The value under a key of a response body. *)
Fixpoint resp_get (k : string) (r : response) : option jval :=
  match r with
  | [] => None
  | (k', v) :: r' => if String.eqb k k' then Some v else resp_get k r'
  end.

(** The status of a response as a flag: accepted or not. *)
Definition is_accepted (r : response) : bool :=
  match resp_get "status" r with
  | Some (JStr s) => String.eqb s "accepted"
  | _ => false
  end.

Section Program.
Variable E : env.

(** [make_adw_id()]: the next draw. *)
Definition make_adw_id : M string :=
  fun w => (inr (env_make_adw_id E (drawn w)),
            World (store w) (trace w) (S (drawn w))).

Definition extract_adw_info (text temp_id : string)
  : M (option string * option string) :=
  call (env_extract_adw_info E text temp_id).

Definition extract_repo_path : M (option string) :=
  call (env_extract_repo_path E).

Definition fetch_issue_comments (repo_path : string) (issue_number : option Z)
  : M (list (gmap string string)) :=
  call (env_fetch_issue_comments E repo_path issue_number).

Definition make_issue_comment (issue_id text : string) : M unit :=
  call (env_make_issue_comment E issue_id text) ;;
  emit (IssueComment issue_id text).

Definition setup_logger (adw_id name : string) : M unit :=
  call (env_setup_logger E adw_id name) ;;
  emit (LoggerSetup adw_id name).

Definition subprocess_Popen (cmd : list string) (cwd : string) : M unit :=
  call (env_popen E cmd cwd) ;;
  emit (Popen cmd cwd).

(** Modelled from the spec: the class [ADWState] of [adw_modules/state.py]
    is not among the sources. The spec has one persisted record per run
    identifier, and has the guard check "whether a record already exists
    with a non-empty branch name": constructing [ADWState(adw_id)] gives the
    persisted record of [adw_id] when there is one, and the minimal data
    [{adw_id}] otherwise. *)
Definition ADWState (adw_id : string) : M state_data :=
  call (env_state_read E adw_id) ;;
  st ← read_store;
  mret (default {[ "adw_id" := Some adw_id ]} (st !! adw_id)).

(** Modelled from the spec: [state.update] with keyword arguments, the "dictionary
    merge" of the spec: each keyword argument is set in the data, the other
    fields stay. *)
Definition state_update (kwargs : list (string * string)) (data : state_data)
  : state_data :=
  foldl (fun d kv => <[ kv.1 := Some kv.2 ]> d) data kwargs.

(** Modelled from the spec: [state.save(step)] persists the data as the
    record of its run identifier. *)
Definition state_save (adw_id : string) (data : state_data) (step : string)
  : M unit :=
  call (env_state_write E adw_id) ;;
  st ← read_store;
  write_store (<[ adw_id := data ]> st) ;;
  emit (StateSaved adw_id data step).

(* ===================================================================== *)
(** ** [find_latest_adw_id_in_issue] *)
(* ===================================================================== *)

(** The inner loop (lines 106-111) on one comment body: the first pattern
    of the list that [re.search] finds gives the match. *)
Fixpoint first_pattern_match (ps : list regex) (comment_body : string)
  : option re_match :=
  match ps with
  | [] => None
  | pattern :: ps' =>
      match re_search pattern comment_body with
      | Some m => Some m
      | None => first_pattern_match ps' comment_body
      end
  end.

(** The outer loop (lines 102-114) over the comments, newest first: the
    first comment with a match ends the search with [match.group(1)]; with
    no match anywhere the function falls through to [return None]. *)
Fixpoint scan_comments (comments : list (gmap string string)) : option string :=
  match comments with
  | [] => None
  | comment :: rest =>
      let comment_body := default "" (comment !! "body") in
      match first_pattern_match patterns comment_body with
      | Some m => group1 m
      | None => scan_comments rest
      end
  end.

(** Lines 77-118. *)
Definition find_latest_adw_id_in_issue (issue_number : option Z)
  : M (option string) :=
  try_except
    (repo_path ← extract_repo_path;
     match repo_path with
     | Some (String _ _ as path) =>
         comments ← fetch_issue_comments path issue_number;
         match comments with
         | [] => mret None
         | _ :: _ => mret (scan_comments comments)
         end
     | _ => mret None
     end)
    (fun _ => mret None).

(* ===================================================================== *)
(** ** [github_webhook] *)
(* ===================================================================== *)

Definition ADW_BOT_IDENTIFIER : string := "[ADW-BOT]".

Definition AVAILABLE_WORKFLOWS : list string :=
  [ "adw_plan"; "adw_build"; "adw_test"; "adw_plan_build"; "adw_plan_build_test" ].

Definition nl : string := String "010"%char EmptyString.

(** The three glyphs of the comment texts, by the bytes the source file
    holds for them. *)
Definition glyph_of (bytes : list nat) : string :=
  string_of_list_ascii (map ascii_of_nat bytes).
Definition glyph_bulb : string := glyph_of [239; 163; 191; 195; 188; 195; 173; 194; 176].
Definition glyph_cross : string := glyph_of [226; 128; 154; 195; 185; 195; 165].
Definition glyph_robot : string := glyph_of [239; 163; 191; 195; 188; 194; 167; 195; 177].

(** The comment of lines 191-193. *)
Definition auto_detected_text (provided_adw_id : string) : string :=
  ADW_BOT_IDENTIFIER +:+ " " +:+ glyph_bulb +:+ " **Auto-detected ADW ID**: `"
    +:+ provided_adw_id +:+ "`" +:+ nl +:+ nl
  +:+ "Found this ID from previous comments in this issue. Proceeding with `adw_build`..."
    +:+ nl +:+ nl
  +:+ "_" +:+ glyph_bulb +:+ " Tip: You can always specify the ID explicitly with `adw_build "
    +:+ str_take 8 provided_adw_id +:+ "`_".

(** The comment of lines 203-212. *)
Definition missing_id_text : string :=
  ADW_BOT_IDENTIFIER +:+ " " +:+ glyph_cross +:+ " **Missing ADW ID**" +:+ nl +:+ nl
  +:+ "`adw_build` requires an ADW ID to know which plan to continue from." +:+ nl +:+ nl
  +:+ "**Usage:**" +:+ nl
  +:+ "- `adw_build <adw_id>` (e.g., `adw_build 75de9bea`)" +:+ nl
  +:+ "- Or: `adw_build: description` with `adw_id: <adw_id>` on a separate line" +:+ nl +:+ nl
  +:+ "**Finding the ADW ID:**" +:+ nl
  +:+ "Look for the " +:+ String dquote "Final planning state" +:+ String dquote
        " comment from the planning phase, "
  +:+ "or any comment with `adw_id: ...` in it." +:+ nl +:+ nl
  +:+ "**Alternative:**" +:+ nl
  +:+ "Use `adw_plan_build` instead - it creates a new plan and builds it automatically!".

(** The comment of lines 250-253. *)
Definition detected_text (workflow adw_id trigger_reason : string) : string :=
  ADW_BOT_IDENTIFIER +:+ " " +:+ glyph_robot +:+ " ADW Webhook: Detected `"
    +:+ workflow +:+ "` workflow request" +:+ nl +:+ nl
  +:+ "Starting workflow with ID: `" +:+ adw_id +:+ "`" +:+ nl
  +:+ "Reason: " +:+ trigger_reason +:+ nl +:+ nl
  +:+ "Logs will be available at: `agents/" +:+ adw_id +:+ "/" +:+ workflow +:+ "/`".

(** The local variables of the handler that outlive the classification. *)
Record locals : Type := Locals {
  l_event_type : string;
  l_action : string;
  l_issue_number : option Z;
  l_workflow : option string;
  l_provided_adw_id : option string;
  l_trigger_reason : string;
  l_content_to_check : string
}.

(** [v == s] for an [Optional[str]] [v]. *)
Definition py_eq (v : option string) (s : string) : bool :=
  match v with
  | Some s' => String.eqb s' s
  | None => false
  end.

(** Lines 125-175: the event type, the payload, and the classification of
    the issue body or of the comment body. [.lower()] on a [None] body
    raises [AttributeError]; the marker test [in] on a [None] body raises
    [TypeError]. *)
Definition classify_event (req : request) : M locals :=
  let event_type := default "" (x_github_event req) in
  payload ← call (json req);
  let action := default "" (p_action payload) in
  let issue := default (Issue None Absent) (p_issue payload) in
  let issue_number := i_number issue in
  if String.eqb event_type "issues" && String.eqb action "opened"
     && py_truthy_int issue_number then
    match get_default (i_body issue) "" with
    | None => raise AttributeError
    | Some issue_body =>
        if str_in "adw_" (str_lower issue_body) then
          temp_id ← make_adw_id;
          '(workflow, provided_adw_id) ← extract_adw_info issue_body temp_id;
          mret (Locals event_type action issue_number workflow provided_adw_id
                  (if py_truthy workflow
                   then "New issue with " +:+ py_format workflow +:+ " workflow"
                   else "")
                  issue_body)
        else
          mret (Locals event_type action issue_number None None "" issue_body)
    end
  else if String.eqb event_type "issue_comment" && String.eqb action "created"
          && py_truthy_int issue_number then
    let comment := default (Comment Absent) (p_comment payload) in
    match get_default (c_body comment) "" with
    | None => raise TypeError
    | Some comment_body =>
        if str_in ADW_BOT_IDENTIFIER comment_body then
          mret (Locals event_type action issue_number None None "" comment_body)
        else if str_in "adw_" (str_lower comment_body) then
          temp_id ← make_adw_id;
          '(workflow, provided_adw_id) ← extract_adw_info comment_body temp_id;
          mret (Locals event_type action issue_number workflow provided_adw_id
                  (if py_truthy workflow
                   then "Comment with " +:+ py_format workflow +:+ " workflow"
                   else "")
                  comment_body)
        else
          mret (Locals event_type action issue_number None None "" comment_body)
    end
  else
    mret (Locals event_type action issue_number None None "" "").

(** [try: make_issue_comment(...)  except Exception: print(...)]. *)
Definition try_issue_comment (issue_id text : string) : M unit :=
  try_except (make_issue_comment issue_id text) (fun _ => mret tt).

(** Lines 176-217: [adw_build] without an identifier looks one up in the
    issue's comments; with none found the workflow is dropped. *)
Definition resolve_adw_id (l : locals) : M locals :=
  if py_eq (l_workflow l) "adw_build" && negb (py_truthy (l_provided_adw_id l)) then
    detected_adw_id ← find_latest_adw_id_in_issue (l_issue_number l);
    if py_truthy detected_adw_id then
      try_issue_comment (py_str_int (l_issue_number l))
        (auto_detected_text (py_format detected_adw_id)) ;;
      mret (Locals (l_event_type l) (l_action l) (l_issue_number l)
              (l_workflow l) detected_adw_id
              (l_trigger_reason l) (l_content_to_check l))
    else
      try_issue_comment (py_str_int (l_issue_number l)) missing_id_text ;;
      mret (Locals (l_event_type l) (l_action l) (l_issue_number l)
              None (l_provided_adw_id l)
              (l_trigger_reason l) (l_content_to_check l))
  else mret l.

(** [state.data.get(key)]. *)
Definition data_get (data : state_data) (key : string) : option string :=
  match data !! key with
  | Some v => v
  | None => None
  end.

(** Lines 225-238: with an identifier provided, the state is initialised
    only when its data has no branch name yet. *)
Definition init_state (provided_adw_id : string) (issue_number : option Z)
  : M unit :=
  state ← ADWState provided_adw_id;
  if negb (py_truthy (data_get state "branch_name")) then
    state_save provided_adw_id
      (state_update [ ("adw_id", provided_adw_id);
                      ("issue_number", py_str_int issue_number) ] state)
      "webhook_trigger"
  else mret tt.

(** The dict of lines 281-289. *)
Definition accepted_response (issue_number : option Z)
    (adw_id workflow trigger_reason : string) : response :=
  [ ("status", JStr "accepted");
    ("issue", jint issue_number);
    ("adw_id", JStr adw_id);
    ("workflow", JStr workflow);
    ("message", JStr ("ADW " +:+ workflow +:+ " workflow triggered for issue #"
                        +:+ py_str_int issue_number));
    ("reason", JStr trigger_reason);
    ("logs", JStr ("agents/" +:+ adw_id +:+ "/" +:+ workflow +:+ "/")) ].

(** The dict of lines 292-295. *)
Definition ignored_response (event_type action : string) : response :=
  [ ("status", JStr "ignored");
    ("reason", JStr ("Not a triggering event (event=" +:+ event_type
                       +:+ ", action=" +:+ action +:+ ")")) ].

(** The dict of lines 300-303. *)
Definition error_response : response :=
  [ ("status", JStr "error");
    ("message", JStr "Internal error processing webhook") ].

(** The command of line 264. *)
Definition workflow_cmd (workflow : string) (issue_number : option Z)
    (adw_id : string) : list string :=
  [ "uv"; "run"; path_join (adws_dir E) (workflow +:+ ".py");
    py_str_int issue_number; adw_id ].

(** Lines 219-295. *)
Definition dispatch (l : locals) : M response :=
  if py_truthy (l_workflow l) then
    let workflow := py_format (l_workflow l) in
    adw_id ← (if py_truthy (l_provided_adw_id l)
              then mret (py_format (l_provided_adw_id l))
              else make_adw_id);
    (if py_truthy (l_provided_adw_id l)
     then init_state (py_format (l_provided_adw_id l)) (l_issue_number l)
     else mret tt) ;;
    setup_logger adw_id "webhook_trigger" ;;
    try_issue_comment (py_str_int (l_issue_number l))
      (detected_text workflow adw_id (l_trigger_reason l)) ;;
    subprocess_Popen (workflow_cmd workflow (l_issue_number l) adw_id) (repo_root E) ;;
    mret (accepted_response (l_issue_number l) adw_id workflow (l_trigger_reason l))
  else
    mret (ignored_response (l_event_type l) (l_action l)).

(** The identifier a dispatch runs under: the provided one, or a fresh
    draw. *)
Definition dispatch_adw_id (l : locals) (w : world) : string :=
  if py_truthy (l_provided_adw_id l) then py_format (l_provided_adw_id l)
  else env_make_adw_id E (drawn w).

(** The handler up to the dispatch: the locals once the workflow and the
    identifier are resolved (lines 125-217). *)
Definition resolve_request (req : request) : M locals :=
  l ← classify_event req;
  resolve_adw_id l.

(** The [try] block of the handler (lines 125-295), without the top-level
    [except]: what can still raise. *)
Definition github_webhook_try (req : request) : M response :=
  l ← resolve_request req;
  dispatch l.

(** The handler, lines 122-303: everything runs under the top-level [try],
    whose [except Exception] answers with the error dict. *)
Definition github_webhook (req : request) : M response :=
  try_except (github_webhook_try req) (fun _ => mret error_response).

End Program.

(** What the framework sends: status 200 with the returned dict as JSON
    body, and status 500 for an exception that leaves the handler. *)
Record http_response : Type := Http {
  status_code : nat;
  content : response
}.

(** The route [POST /gh-webhook]. *)
Definition post_gh_webhook (E : env) (req : request) (w : world)
  : http_response * world :=
  match github_webhook E req w with
  | (inr body, w') => (Http 200 body, w')
  | (inl _, w') => (Http 500 [], w')
  end.

(* ===================================================================== *)
(** ** Specification-side notions *)
(* ===================================================================== *)

(** The words a regular expression matches, declaratively. *)
Fixpoint matches (r : regex) (u : list ascii) : Prop :=
  match r with
  | Eps => u = []
  | Chr c => u = [c]
  | Cls p => exists c, u = [c] /\ p c = true
  | Cat r1 r2 => exists u1 u2, u = u1 ++ u2 /\ matches r1 u1 /\ matches r2 u2
  | Alt r1 r2 => matches r1 u \/ matches r2 u
  | Spaces => all_space u = true
  | Grp r1 => matches r1 u
  end.

(** A regular expression that sets the capture on every path. *)
Fixpoint captures (r : regex) : bool :=
  match r with
  | Cat r1 r2 => captures r1 || captures r2
  | Alt r1 r2 => captures r1 && captures r2
  | Grp _ => true
  | _ => false
  end.

(** Every capturing group of [r] encloses a sub-expression whose words
    satisfy [P]. *)
Fixpoint groups_in (P : list ascii -> Prop) (r : regex) : Prop :=
  match r with
  | Cat r1 r2 | Alt r1 r2 => groups_in P r1 /\ groups_in P r2
  | Grp r1 => (forall u, matches r1 u -> P u) /\ groups_in P r1
  | _ => True
  end.

(** A capture, when set, satisfies [P]. *)
Definition capture_is (P : list ascii -> Prop) (g : option (list ascii)) : Prop :=
  match g with
  | Some u => P u
  | None => True
  end.

(** No pattern of the list is found in the body of the comment. *)
Definition no_match (c : gmap string string) : Prop :=
  forall p, In p patterns -> re_search p (default "" (c !! "body")) = None.

(** The body of the event a request carries, as the handler reads it: the
    issue body of an [issues] event and the comment body otherwise; [None]
    for a [null]. *)
Definition event_body (req : request) (p : payload) : option string :=
  if String.eqb (default "" (x_github_event req)) "issues"
  then get_default (i_body (default (Issue None Absent) (p_issue p))) ""
  else get_default (c_body (default (Comment Absent) (p_comment p))) "".

(** The two type/action pairs that trigger. *)
Definition triggering_pair (event_type action : string) : bool :=
  (String.eqb event_type "issues" && String.eqb action "opened")
  || (String.eqb event_type "issue_comment" && String.eqb action "created").

(** The ways identifier recovery can fail before it scans a comment: the
    repository path is missing ([None] or empty), its lookup raises, or
    fetching the comments raises. *)
Inductive recovery_failure (E : env) (issue_number : option Z) : Prop :=
| repo_path_missing (p : option string) :
    env_extract_repo_path E = inr p -> py_truthy p = false ->
    recovery_failure E issue_number
| repo_path_raises (e : exn) :
    env_extract_repo_path E = inl e ->
    recovery_failure E issue_number
| fetch_raises (path : string) (e : exn) :
    env_extract_repo_path E = inr (Some path) ->
    env_fetch_issue_comments E path issue_number = inl e ->
    recovery_failure E issue_number.


(** The keys of a response body, in order. *)
Definition keys (r : response) : list string := map fst r.

(** The three shapes of a response body. *)
Inductive response_shape (r : response) : Prop :=
| shape_accepted :
    keys r = [ "status"; "issue"; "adw_id"; "workflow"; "message"; "reason"; "logs" ] ->
    resp_get "status" r = Some (JStr "accepted") ->
    response_shape r
| shape_ignored (reason : string) :
    r = [ ("status", JStr "ignored"); ("reason", JStr reason) ] ->
    response_shape r
| shape_error (message : string) :
    r = [ ("status", JStr "error"); ("message", JStr message) ] ->
    response_shape r.

(* ===================================================================== *)
(** ** Example environments and requests *)
(* ===================================================================== *)

Definition uuid_a : string := "75de9bea-0000-4abc-9def-0123456789ab".
Definition uuid_b : string := "0badcafe-1111-4abc-8def-ba9876543210".

(** Comments of an issue, newest first: a plain remark, a planner comment
    carrying [uuid_b] as prefix and [uuid_a] as explicit mention, and an
    older state dump carrying [uuid_a]. *)
Definition example_comments : list (gmap string string) :=
  [ {[ "body" := "looks good, adw_id: 75de9bea" ]};
    {[ "body" := uuid_b +:+ "_sdlc_planner: plan ready, adw_id: " +:+ uuid_a ]};
    {[ "body" := "{" +:+ String dquote "adw_id" +:+ String dquote ": "
                   +:+ String dquote uuid_a +:+ String dquote "}" ]} ].

(** Modelled from the spec: [extract_adw_info] of
    [adw_modules/workflow_ops.py] is not among the sources. The spec gives
    its answer on two bodies (section 8): ["adw_build 75de9bea"] is the
    build workflow with explicit identifier [75de9bea], and ["please run
    adw_plan_build for this"] is the plan+build workflow with no
    identifier. This classifier gives those two answers, the build
    workflow without identifier on a bare ["adw_build"], and no workflow on
    any other text. *)
Definition example_classifier (text temp_id : string)
  : result (option string * option string) :=
  if String.eqb text "adw_build 75de9bea" then inr (Some "adw_build", Some "75de9bea")
  else if String.eqb text "please run adw_plan_build for this"
       then inr (Some "adw_plan_build", None)
  else if String.eqb text "adw_build" then inr (Some "adw_build", None)
  else inr (None, None).

(** Modelled from the spec: [extract_adw_info] of
    [adw_modules/workflow_ops.py] is not among the sources, and the spec
    says of it only that it produces "a workflow selector and an optional
    explicit run identifier extracted from the same text", with the
    example (section 8) that the body ["adw_build 75de9bea"] gives the
    build workflow with explicit identifier [75de9bea]. An environment
    follows the example when its classifier, called with the given
    temporary identifier, gives this answer on this body. *)
Definition reads_example_as_build (E : env) (temp_id : string) : Prop :=
  env_extract_adw_info E "adw_build 75de9bea" temp_id
  = inr (Some "adw_build", Some "75de9bea").

(** An environment in which every helper succeeds. *)
Definition example_env : env :=
  {| env_make_adw_id := fun n => "a1b2c3d" +:+ pretty n;
     env_extract_adw_info := example_classifier;
     env_extract_repo_path := inr (Some "owner/repo");
     env_fetch_issue_comments := fun _ _ => inr example_comments;
     env_make_issue_comment := fun _ _ => inr tt;
     env_setup_logger := fun _ _ => inr tt;
     env_popen := fun _ _ => inr tt;
     env_state_read := fun _ => inr tt;
     env_state_write := fun _ => inr tt;
     adws_dir := "/srv/app/adws";
     repo_root := "/srv/app" |}.

(** The same with an issue that has no comment carrying an identifier. *)
Definition example_env_no_id : env :=
  {| env_make_adw_id := env_make_adw_id example_env;
     env_extract_adw_info := example_classifier;
     env_extract_repo_path := inr (Some "owner/repo");
     env_fetch_issue_comments :=
       fun _ _ => inr [ {[ "body" := "looks good, adw_id: 75de9bea" ]} ];
     env_make_issue_comment := fun _ _ => inr tt;
     env_setup_logger := fun _ _ => inr tt;
     env_popen := fun _ _ => inr tt;
     env_state_read := fun _ => inr tt;
     env_state_write := fun _ => inr tt;
     adws_dir := "/srv/app/adws";
     repo_root := "/srv/app" |}.

(** The same with a comment fetch that raises. *)
Definition example_env_fetch_fails : env :=
  {| env_make_adw_id := env_make_adw_id example_env;
     env_extract_adw_info := example_classifier;
     env_extract_repo_path := inr (Some "owner/repo");
     env_fetch_issue_comments := fun _ _ => inl (Raised "RuntimeError");
     env_make_issue_comment := fun _ _ => inr tt;
     env_setup_logger := fun _ _ => inr tt;
     env_popen := fun _ _ => inr tt;
     env_state_read := fun _ => inr tt;
     env_state_write := fun _ => inr tt;
     adws_dir := "/srv/app/adws";
     repo_root := "/srv/app" |}.

(** The same as [example_env] with a [Popen] that raises. *)
Definition example_env_popen_fails : env :=
  {| env_make_adw_id := env_make_adw_id example_env;
     env_extract_adw_info := example_classifier;
     env_extract_repo_path := inr (Some "owner/repo");
     env_fetch_issue_comments := fun _ _ => inr example_comments;
     env_make_issue_comment := fun _ _ => inr tt;
     env_setup_logger := fun _ _ => inr tt;
     env_popen := fun _ _ => inl (Raised "FileNotFoundError");
     env_state_read := fun _ => inr tt;
     env_state_write := fun _ => inr tt;
     adws_dir := "/srv/app/adws";
     repo_root := "/srv/app" |}.

(** A world with nothing persisted. *)
Definition empty_world : world := World ∅ [] 0.


(** A comment created on issue 7 with the given body. *)
Definition comment_created (body : field string) : request :=
  Request (Some "issue_comment")
    (inr (Payload (Some "created") (Some (Issue (Some 7%Z) (Val "Add login")))
            (Some (Comment body)))).

(** The created comment on issue [n] with body ["adw_build 75de9bea"]. *)
Definition build_comment (n : Z) (issue_body : field string) : request :=
  Request (Some "issue_comment")
    (inr (Payload (Some "created") (Some (Issue (Some n) issue_body))
            (Some (Comment (Val "adw_build 75de9bea"))))).

(** Issue 7 opened with the given body. *)
Definition issue_opened (body : field string) : request :=
  Request (Some "issues")
    (inr (Payload (Some "opened") (Some (Issue (Some 7%Z) body)) None)).

(** A push event: no issue, no action. *)
Definition push_event : request :=
  Request (Some "push") (inr (Payload None None None)).

(** A request whose body is not JSON. *)
Definition broken_request : request :=
  Request (Some "issues") (inl (Raised "JSONDecodeError")).

(* ===================================================================== *)
(** ** [health] *)
(* ===================================================================== *)

(** [s.lstrip()]: the string without the whitespace characters it starts
    with. *)
Fixpoint lstrip (l : list ascii) : list ascii :=
  match l with
  | c1 :: l1 =>
      if is_space c1 then lstrip l1
      else match l1 with
           | c2 :: l2 =>
               if is_space2 c1 c2 then lstrip l2
               else match l2 with
                    | c3 :: l3 => if is_space3 c1 c2 c3 then lstrip l3 else l
                    | [] => l
                    end
           | [] => l
           end
  | [] => []
  end.

(** The same from the end, on the reversed string: the bytes of a
    character come last byte first. *)
Fixpoint lstrip_reversed (l : list ascii) : list ascii :=
  match l with
  | c1 :: l1 =>
      if is_space c1 then lstrip_reversed l1
      else match l1 with
           | c2 :: l2 =>
               if is_space2 c2 c1 then lstrip_reversed l2
               else match l2 with
                    | c3 :: l3 =>
                        if is_space3 c3 c2 c1 then lstrip_reversed l3 else l
                    | [] => l
                    end
           | [] => l
           end
  | [] => []
  end.

(** [s.rstrip()]. *)
Definition rstrip (l : list ascii) : list ascii := rev (lstrip_reversed (rev l)).

(** [s.strip()]. *)
Definition py_strip (s : string) : string :=
  string_of_list_ascii (rstrip (lstrip (list_ascii_of_string s))).

(** [s.split('\n')]: the pieces between the newlines, at least one. *)
Fixpoint py_split_nl (s : string) : list string :=
  match s with
  | EmptyString => [ EmptyString ]
  | String c s' =>
      if Ascii.eqb c "010" then EmptyString :: py_split_nl s'
      else match py_split_nl s' with
           | piece :: pieces => String c piece :: pieces
           | [] => [ String c EmptyString ]
           end
  end.

Fixpoint drop_continuation (s : string) : string :=
  match s with
  | String c s' => if is_continuation c then drop_continuation s' else s
  | EmptyString => EmptyString
  end.

(** [s[1:]]: the string without its first character, a character being a
    lead byte with its continuation bytes. *)
Definition drop_char (s : string) : string :=
  match s with
  | String _ s' => drop_continuation s'
  | EmptyString => EmptyString
  end.

(** [s[n:]]. *)
Definition py_drop (n : nat) (s : string) : string := Nat.iter n drop_char s.

(** The three headings the loop looks for, by the bytes the source file
    holds for their glyphs (lines 343, 347, 351). *)
Definition WARNINGS_HEADING : string :=
  glyph_of [226; 128; 154; 195; 182; 226; 128; 160; 195; 148; 226; 136; 143; 195; 168]
  +:+ "  Warnings:".
Definition ERRORS_HEADING : string := glyph_cross +:+ " Errors:".
Definition NEXT_STEPS_HEADING : string :=
  glyph_of [239; 163; 191; 195; 188; 195; 172; 195; 185] +:+ " Next Steps:".

(** The loop of lines 342-357 from a given state: the two capture flags and
    the two lists collected so far. A heading line switches the flags and is
    not looked at further ([continue]); the next-steps line ends the loop
    ([break]); any other line is appended, without its first two
    characters, to the list of the section being captured when it starts
    (after stripping) with a dash. *)
Fixpoint scan_health_lines (output_lines : list string)
    (capturing_warnings capturing_errors : bool) (warnings errors : list string)
  : list string * list string :=
  match output_lines with
  | [] => (warnings, errors)
  | line :: rest =>
      if str_in WARNINGS_HEADING line then
        scan_health_lines rest true false warnings errors
      else if str_in ERRORS_HEADING line then
        scan_health_lines rest false true warnings errors
      else if str_in NEXT_STEPS_HEADING line then
        (warnings, errors)
      else if capturing_warnings && String.prefix "-" (py_strip line) then
        scan_health_lines rest capturing_warnings capturing_errors
          (warnings ++ [ py_drop 2 (py_strip line) ]) errors
      else if capturing_errors && String.prefix "-" (py_strip line) then
        scan_health_lines rest capturing_warnings capturing_errors
          warnings (errors ++ [ py_drop 2 (py_strip line) ])
      else
        scan_health_lines rest capturing_warnings capturing_errors warnings errors
  end.

(** Lines 332-357: the lines of the stripped output, scanned from the
    initial state. *)
Definition parse_health_output (stdout : string) : list string * list string :=
  scan_health_lines (py_split_nl (py_strip stdout)) false false [] [].

(** How [subprocess.run] ends, as [health] sees it: the process completed
    (output, error output, return code), the timeout of 30 seconds
    expired, or another exception with its message [str(e)]. *)
Inductive run_outcome : Type :=
| Completed (stdout stderr : string) (returncode : Z)
| TimeoutExpired
| RunFailed (message : string).

(** JSON values of the health answer. *)
Inductive hval : Type :=
| HStr (s : string)
| HBool (b : bool)
| HList (items : list string)
| HObj (fields : list (string * hval)).

(** The command of lines 313-317. *)
Definition health_check_cmd (adws : string) : list string :=
  [ "uv"; "run"; path_join (path_join adws "adw_tests") "health_check.py" ].

(** The endpoint [GET /health], lines 307-381. [run] is [subprocess.run]
    with the captured output as text, given the command and the working
    directory; [adws] is the directory above the script's. *)
Definition health (run : list string -> string -> run_outcome) (adws : string)
  : list (string * hval) :=
  match run (health_check_cmd adws) adws with
  | Completed stdout stderr returncode =>
      let is_healthy := (returncode =? 0)%Z in
      let '(warnings, errors) := parse_health_output stdout in
      [ ("status", HStr (if is_healthy then "healthy" else "unhealthy"));
        ("service", HStr "adw-webhook-trigger");
        ("health_check",
         HObj [ ("success", HBool is_healthy);
                ("warnings", HList warnings);
                ("errors", HList errors);
                ("details", HStr "Run health_check.py directly for full report") ]) ]
  | TimeoutExpired =>
      [ ("status", HStr "unhealthy");
        ("service", HStr "adw-webhook-trigger");
        ("error", HStr "Health check timed out") ]
  | RunFailed message =>
      [ ("status", HStr "unhealthy");
        ("service", HStr "adw-webhook-trigger");
        ("error", HStr ("Health check failed: " +:+ message)) ]
  end.

(** The value under a key of a health answer or of an object in it. *)
Fixpoint hget (k : string) (fields : list (string * hval)) : option hval :=
  match fields with
  | [] => None
  | (k', v) :: fields' => if String.eqb k k' then Some v else hget k fields'
  end.

(** A line that is none of the three headings. *)
Definition plain_line (line : string) : bool :=
  negb (str_in WARNINGS_HEADING line) && negb (str_in ERRORS_HEADING line)
  && negb (str_in NEXT_STEPS_HEADING line).

(** A line that, stripped, starts with a dash, and the item it lists. *)
Definition is_dash_line (line : string) : bool := String.prefix "-" (py_strip line).
Definition item_of (line : string) : string := py_drop 2 (py_strip line).

(** The items of the dash lines among some lines, in order. *)
Definition items_of (lines : list string) : list string :=
  map item_of (List.filter is_dash_line lines).

(** An example output of the health check script. *)
Definition example_health_output : string :=
  "ADW health check" +:+ nl
  +:+ "- not an item: no section yet" +:+ nl
  +:+ WARNINGS_HEADING +:+ nl
  +:+ "   - GitHub token close to expiry  " +:+ nl
  +:+ "   details follow" +:+ nl
  +:+ ERRORS_HEADING +:+ nl
  +:+ "   - uv not found" +:+ nl
  +:+ "   - gh not authenticated" +:+ nl
  +:+ NEXT_STEPS_HEADING +:+ nl
  +:+ "   - install uv" +:+ nl.

(* ===================================================================== *)
(** ** [test_workflow_integration.py]: the tester *)
(* ===================================================================== *)

(** A Python [float]: a binary64 number of the IEEE 754 specification, in
    the format-independent form of the standard library ([prec] 53, [emax]
    1024). *)
Abbreviation py_float := SpecFloat.spec_float.

(** [float(n)] for a natural number, [a / b] and [a * b]. *)
Definition py_float_of_nat (n : nat) : py_float :=
  SpecFloat.binary_normalize 53 1024 (Z.of_nat n) 0 false.
Definition py_truediv (a b : py_float) : py_float := SpecFloat.SFdiv 53 1024 a b.
Definition py_fmul (a b : py_float) : py_float := SpecFloat.SFmul 53 1024 a b.

(** The integer nearest to [num / den] (for [den > 0]), ties to even. *)
Definition round_half_even (num den : Z) : Z :=
  let q := (num / den)%Z in
  let r := (num mod den)%Z in
  if (2 * r <? den)%Z then q
  else if (den <? 2 * r)%Z then (q + 1)%Z
  else if Z.even q then q else (q + 1)%Z.

(** [f"{x:.1f}"]: the decimal with one digit after the point nearest to
    the exact value of the float, ties to even. *)
Definition format_1f (x : py_float) : string :=
  match x with
  | SpecFloat.S754_zero s => (if s then "-" else "") +:+ "0.0"
  | SpecFloat.S754_finite s m e =>
      let tenths :=
        match e with
        | Zneg p => round_half_even (10 * Zpos m) (Z.pow 2 (Zpos p))
        | _ => (10 * Zpos m * Z.pow 2 e)%Z
        end in
      (if s then "-" else "")
      +:+ pretty (tenths / 10)%Z +:+ "." +:+ pretty (tenths mod 10)%Z
  | SpecFloat.S754_infinity s => if s then "-inf" else "inf"
  | SpecFloat.S754_nan => "nan"
  end.

(** The [summary] of a report (lines 346-351). *)
Record summary : Type := Summary {
  total_tests : nat;
  passed_tests : nat;
  failed_tests : nat;
  success_rate : string
}.

(** A report (lines 338-352). *)
Record report : Type := Report {
  test_execution_time : string;
  report_results : gmap string bool;
  python_version : string;
  working_directory : string;
  report_project_root : string;
  report_summary : summary
}.

(** The state of a tester: [self.test_results], the summary last logged by
    [run_all_tests] (lines 402-405), and a clock that numbers the calls to
    the outside, so that a call may answer differently each time. *)
Record tester : Type := Tester {
  test_results : gmap string bool;
  logged_summary : option summary;
  clock : nat
}.

(** How the imports of lines 99-106 end: done, [ImportError], or another
    exception. *)
Inductive import_outcome : Type :=
| Imported
| ImportFailed
| ImportRaised (e : exn).

(** What the tester calls outside of the file, each call numbered by the
    clock: the helpers of [adw_modules], processes, the file system, the
    time. A loaded state is [None] or the data of an [ADWState]. *)
Record tester_env : Type := TesterEnv {
  te_project_root : string;
  te_script_dir : string;
  (** [subprocess.run(['gh', 'auth', 'status'])]: the return code. *)
  te_gh_auth_status : nat -> result Z;
  te_check_claude_installed : nat -> result (option string);
  te_import_adw_modules : nat -> import_outcome;
  te_get_repo_url : nat -> result (option string);
  te_ensure_adw_id : nat -> string -> result string;
  (** [ADWState.load(adw_id, logger)]. *)
  te_state_load : nat -> string -> result (option state_data);
  (** Lines 147-159 and 162: the mock user and issue, and their dump. *)
  te_mock_issue : nat -> result unit;
  (** [state.save(step)] of a loaded state. *)
  te_state_save : nat -> string -> string -> result unit;
  te_getcwd : nat -> result string;
  te_path_exists : nat -> string -> bool;
  (** [subprocess.run(['git', 'status'], cwd=...)]: the return code. *)
  te_git_status : nat -> string -> result Z;
  te_make_adw_id : nat -> result string;
  (** Lines 230-236: a new state of the identifier, updated and saved. *)
  te_state_create : nat -> string -> result unit;
  (** [subprocess.run([sys.executable, script], cwd=...)]: the output and
      the error output. *)
  te_run_script : nat -> string -> string -> result (string * string);
  (** [open(path).read()]. *)
  te_read_text : nat -> string -> result string;
  te_strftime : nat -> string;
  te_sys_version : string;
  (** Lines 392-393: writing the report file. *)
  te_write_report : nat -> report -> result unit
}.

(** The monad of the tester: state passing with exceptions. *)
Definition TM (A : Type) : Type := tester -> result A * tester.

Definition tm_ret {A : Type} (a : A) : TM A := fun st => (inr a, st).

Definition tm_bind {A B : Type} (m : TM A) (f : A -> TM B) : TM B :=
  fun st =>
    match m st with
    | (inr a, st') => f a st'
    | (inl e, st') => (inl e, st')
    end.

Definition tm_raise {A : Type} (e : exn) : TM A := fun st => (inl e, st).

(** [try: m  except Exception as e: h e]. *)
Definition tm_try {A : Type} (m : TM A) (h : exn -> TM A) : TM A :=
  fun st =>
    match m st with
    | (inl e, st') => h e st'
    | (inr a, st') => (inr a, st')
    end.

(** A call to the outside: answered at the current tick, which it uses
    up. *)
Definition tm_call {A : Type} (f : nat -> A) : TM A :=
  fun st => (inr (f (clock st)),
             Tester (test_results st) (logged_summary st) (S (clock st))).

(** A call to the outside that may raise. *)
Definition tm_call_result {A : Type} (f : nat -> result A) : TM A :=
  fun st => (f (clock st),
             Tester (test_results st) (logged_summary st) (S (clock st))).

(** [self.test_results[key] = value]. *)
Definition record_result (key : string) (value : bool) : TM unit :=
  fun st => (inr tt,
             Tester (<[ key := value ]> (test_results st)) (logged_summary st)
                    (clock st)).

(** Reading [self.test_results]. *)
Definition get_results : TM (gmap string bool) :=
  fun st => (inr (test_results st), st).

(** The four log lines of the summary (lines 402-405). *)
Definition log_summary (s : summary) : TM unit :=
  fun st => (inr tt, Tester (test_results st) (Some s) (clock st)).

#[global] Instance TM_ret : MRet TM := @tm_ret.
#[global] Instance TM_bind : MBind TM := fun A B f m => tm_bind m f.

(** The success rate of line 350:
    [f"{(passed / max(total, 1)) * 100:.1f}%"]. *)
Definition success_rate_of (passed total : nat) : string :=
  format_1f (py_fmul (py_truediv (py_float_of_nat passed)
                                 (py_float_of_nat (Nat.max total 1)))
                     (py_float_of_nat 100))
  +:+ "%".

(** The summary of some results (lines 346-351): the number of entries,
    of truthy ones and of falsy ones, and the rate. *)
Definition summary_of (results : gmap string bool) : summary :=
  let values := (map_to_list results).*2 in
  let passed := length (List.filter (fun r => r) values) in
  Summary (length values) passed
          (length (List.filter negb values))
          (success_rate_of passed (length values)).

Section TesterProgram.
Variable T : tester_env.

(** [generate_test_report], lines 334-354. [os.getcwd()] may raise. The
    report holds the dict of the results itself, not a copy; its value
    here is the one at the call, which is what is written and logged,
    since [run_all_tests] records nothing after the call, and the report
    made in [test_documentation_and_reporting] is dropped. *)
Definition generate_test_report : TM report :=
  timestamp ← tm_call (te_strftime T);
  results ← get_results;
  cwd ← tm_call_result (te_getcwd T);
  mret (Report timestamp results (te_sys_version T) cwd (te_project_root T)
          (summary_of results)).

(** [test_environment_setup], lines 79-125. *)
Definition test_environment_setup : TM bool :=
  tm_try
    (returncode ← tm_call_result (te_gh_auth_status T);
     if negb (returncode =? 0)%Z then mret false
     else
       claude_error ← tm_call_result (te_check_claude_installed T);
       if py_truthy claude_error then mret false
       else
         imported ← tm_call (te_import_adw_modules T);
         match imported with
         | ImportFailed => mret false
         | ImportRaised e => tm_raise e
         | Imported =>
             checked ← tm_try
                         (tm_call_result (te_get_repo_url T) ;; mret true)
                         (fun _ => mret false);
             if checked : bool then
               record_result "environment_setup" true ;; mret true
             else mret false
         end)
    (fun _ => record_result "environment_setup" false ;; mret false).

(** [test_core_workflow_components], lines 127-172. *)
Definition test_core_workflow_components : TM bool :=
  tm_try
    (adw_id ← tm_call_result (fun n => te_ensure_adw_id T n "999");
     state ← tm_call_result (fun n => te_state_load T n adw_id);
     match state with
     | None => mret false
     | Some _ =>
         tm_call_result (te_mock_issue T) ;;
         tm_call_result
           (fun n => te_state_save T n adw_id "test_core_workflow_components") ;;
         record_result "core_workflow_components" true ;;
         mret true
     end)
    (fun _ => record_result "core_workflow_components" false ;; mret false).

(** [test_working_directory_fix], lines 174-218. *)
Definition test_working_directory_fix : TM bool :=
  tm_try
    (tm_call_result (te_getcwd T) ;;
     exists_adws ← tm_call
       (fun n => te_path_exists T n (path_join (te_project_root T) "adws"));
     if negb exists_adws then mret false
     else
       git_ok ← tm_try
                  (returncode ← tm_call_result
                     (fun n => te_git_status T n (te_project_root T));
                   mret (returncode =? 0)%Z)
                  (fun _ => mret false);
       if git_ok : bool then
         record_result "working_directory_fix" true ;; mret true
       else mret false)
    (fun _ => record_result "working_directory_fix" false ;; mret false).

(** [test_pipeline_functionality], lines 220-268. *)
Definition test_pipeline_functionality : TM bool :=
  tm_try
    (test_adw_id ← tm_call_result (te_make_adw_id T);
     tm_call_result (fun n => te_state_create T n test_adw_id) ;;
     loaded_state ← tm_call_result (fun n => te_state_load T n test_adw_id);
     match loaded_state with
     | None => mret false
     | Some data =>
         if negb (py_eq (data_get data "issue_number") "998") then mret false
         else
           handled ← tm_try
                       (tm_call_result (fun n => te_state_load T n "invalid_id") ;;
                        mret true)
                       (fun _ => mret false);
           if handled : bool then
             record_result "pipeline_functionality" true ;; mret true
           else mret false
     end)
    (fun _ => record_result "pipeline_functionality" false ;; mret false).

(** [test_adw_plan_build_script], lines 270-299. *)
Definition test_adw_plan_build_script : TM bool :=
  tm_try
    (let script_path := path_join (te_script_dir T) "adw_plan_build.py" in
     exists_script ← tm_call (fun n => te_path_exists T n script_path);
     if negb exists_script then mret false
     else
       '(stdout, stderr) ← tm_call_result
          (fun n => te_run_script T n script_path (te_script_dir T));
       if str_in "Usage:" stdout || str_in "Usage:" stderr then
         record_result "adw_plan_build_script" true ;; mret true
       else
         record_result "adw_plan_build_script" false ;; mret false)
    (fun _ => record_result "adw_plan_build_script" false ;; mret false).

(** [test_documentation_and_reporting], lines 301-332. The report is a
    dict of four entries, hence truthy. *)
Definition test_documentation_and_reporting : TM bool :=
  tm_try
    (let readme_path := path_join (te_script_dir T) "README.md" in
     exists_readme ← tm_call (fun n => te_path_exists T n readme_path);
     (if exists_readme : bool
      then tm_call_result (fun n => te_read_text T n readme_path) ;; mret tt
      else mret tt) ;;
     generate_test_report ;;
     record_result "documentation_and_reporting" true ;;
     mret true)
    (fun _ => record_result "documentation_and_reporting" false ;; mret false).

(** The list of lines 360-367. *)
Definition test_methods : list (string * TM bool) :=
  [ ("Environment Setup", test_environment_setup);
    ("Core Workflow Components", test_core_workflow_components);
    ("Working Directory Fix", test_working_directory_fix);
    ("Pipeline Functionality", test_pipeline_functionality);
    ("ADW Plan Build Script", test_adw_plan_build_script);
    ("Documentation and Reporting", test_documentation_and_reporting) ].

(** The loop of lines 371-385: a test that returns a falsy value or raises
    clears [all_passed]; the loop goes on either way. *)
Fixpoint run_tests (methods : list (string * TM bool)) (all_passed : bool)
  : TM bool :=
  match methods with
  | [] => mret all_passed
  | (_, test_method) :: rest =>
      passed ← tm_try test_method (fun _ => mret false);
      run_tests rest (if passed : bool then all_passed else false)
  end.

(** [run_all_tests], lines 356-412. *)
Definition run_all_tests : TM bool :=
  all_passed ← run_tests test_methods true;
  report ← generate_test_report;
  tm_try (tm_call_result (fun n => te_write_report T n report))
         (fun _ => mret tt) ;;
  log_summary (report_summary report) ;;
  mret all_passed.




End TesterProgram.


(** The keys the six tests record under, in the order of the tests. *)
Definition test_keys : list string :=
  [ "environment_setup"; "core_workflow_components"; "working_directory_fix";
    "pipeline_functionality"; "adw_plan_build_script";
    "documentation_and_reporting" ].

(** A test records under a key: from any state it returns (it never
    raises), and it leaves the results as they were but for the key, which
    holds what it returned, or, when it returned [False], possibly
    nothing new. *)
Definition records_under (key : string) (test_method : TM bool) : Prop :=
  forall st, exists b st',
    test_method st = (inr b, st')
    /\ logged_summary st' = logged_summary st
    /\ (test_results st' = <[ key := b ]> (test_results st)
        \/ (b = false /\ test_results st' = test_results st)).

(** A tester as [__init__] leaves it. *)
Definition fresh_tester : tester := Tester ∅ None 0.

(** A tester with one test passed and one failed. *)
Definition example_tester : tester :=
  Tester {[ "environment_setup" := true; "adw_plan_build_script" := false ]}
         None 0.

(** An environment in which every check succeeds. *)
Definition example_tester_env : tester_env :=
  {| te_project_root := "/srv/app";
     te_script_dir := "/srv/app/adws";
     te_gh_auth_status := fun _ => inr 0%Z;
     te_check_claude_installed := fun _ => inr None;
     te_import_adw_modules := fun _ => Imported;
     te_get_repo_url := fun _ => inr (Some "https://github.com/owner/repo");
     te_ensure_adw_id := fun _ _ => inr "a1b2c3d4";
     te_state_load := fun _ adw_id =>
       if String.eqb adw_id "invalid_id" then inr None
       else inr (Some {[ "adw_id" := Some adw_id; "issue_number" := Some "998" ]});
     te_mock_issue := fun _ => inr tt;
     te_state_save := fun _ _ _ => inr tt;
     te_getcwd := fun _ => inr "/srv/app/adws";
     te_path_exists := fun _ _ => true;
     te_git_status := fun _ _ => inr 0%Z;
     te_make_adw_id := fun _ => inr "e5f6a7b8";
     te_state_create := fun _ _ => inr tt;
     te_run_script := fun _ _ _ => inr ("Usage: adw_plan_build.py <issue>", "");
     te_read_text := fun _ _ => inr "ADW";
     te_strftime := fun _ => "2025-01-01 00:00:00";
     te_sys_version := "3.12.0";
     te_write_report := fun _ _ => inr tt |}.

(** The same, with [gh] not authenticated. *)
Definition example_tester_env_no_gh : tester_env :=
  {| te_project_root := "/srv/app";
     te_script_dir := "/srv/app/adws";
     te_gh_auth_status := fun _ => inr 1%Z;
     te_check_claude_installed := te_check_claude_installed example_tester_env;
     te_import_adw_modules := te_import_adw_modules example_tester_env;
     te_get_repo_url := te_get_repo_url example_tester_env;
     te_ensure_adw_id := te_ensure_adw_id example_tester_env;
     te_state_load := te_state_load example_tester_env;
     te_mock_issue := te_mock_issue example_tester_env;
     te_state_save := te_state_save example_tester_env;
     te_getcwd := te_getcwd example_tester_env;
     te_path_exists := te_path_exists example_tester_env;
     te_git_status := te_git_status example_tester_env;
     te_make_adw_id := te_make_adw_id example_tester_env;
     te_state_create := te_state_create example_tester_env;
     te_run_script := te_run_script example_tester_env;
     te_read_text := te_read_text example_tester_env;
     te_strftime := te_strftime example_tester_env;
     te_sys_version := te_sys_version example_tester_env;
     te_write_report := te_write_report example_tester_env |}.

(* ===================================================================== *)
(** ** Further notions: the comments of a trace *)
(* ===================================================================== *)

(** The comments posted on a trace: issue and text. *)
Definition comments_posted (tr : list event) : list (string * string) :=
  omap (fun ev => match ev with IssueComment i t => Some (i, t) | _ => None end) tr.

(** A created comment with the given text, on any issue. *)
Definition is_created_comment (req : request) (text : string) : Prop :=
  x_github_event req = Some "issue_comment" /\
  exists p c, json req = inr p /\ p_action p = Some "created" /\
              p_comment p = Some c /\ c_body c = Val text.

(** A comment of the handler: posted on the given issue, and starting with
    the bot marker. *)
Definition own_comment (issue_number : option Z) (c : string * string) : Prop :=
  c.1 = py_str_int issue_number /\ String.prefix ADW_BOT_IDENTIFIER c.2 = true.

(** The agent names of pattern 3. *)
Definition agent_names : list string :=
  [ "ops"; "sdlc_planner"; "sdlc_implementor"; "adw_classifier" ].

(** The no-break space U+00A0 and the ideographic space U+3000, as
    encoded. *)
Definition no_break_space : string := glyph_of [194; 160].
Definition ideographic_space : string := glyph_of [227; 128; 128].

(** Two comments, newest first: the newest mentions [uuid_b] after a
    no-break space, the older [uuid_a] after a space. *)
Definition example_comments_nbsp : list (gmap string string) :=
  [ {[ "body" := "adw_id:" +:+ no_break_space +:+ uuid_b ]};
    {[ "body" := "adw_id: " +:+ uuid_a ]} ].

(** An output of the health check script whose dash lines are indented
    with, or followed by, a no-break space. *)
Definition example_health_output_nbsp : string :=
  WARNINGS_HEADING +:+ nl
  +:+ no_break_space +:+ "- first" +:+ nl
  +:+ "- plain" +:+ no_break_space.

(** The three ways a text mentions an identifier, as the patterns are
    written: the JSON field with the identifier in double quotes, the
    explicit mention, each with any run of (ASCII) whitespace after the
    colon, and the identifier as prefix of an agent name. *)
Inductive mention (id : string) : string -> Prop :=
| mention_json (ws : string) :
    forallb is_space (list_ascii_of_string ws) = true ->
    mention id (String dquote "adw_id" +:+ String dquote ":" +:+ ws
                  +:+ String dquote id +:+ String dquote "")
| mention_explicit (ws : string) :
    forallb is_space (list_ascii_of_string ws) = true ->
    mention id ("adw_id:" +:+ ws +:+ id)
| mention_prefix (agent : string) :
    In agent agent_names ->
    mention id (id +:+ "_" +:+ agent +:+ ":").

Example search_json :
  re_search json_pattern
    ("{" +:+ String dquote "adw_id" +:+ String dquote ":  " +:+
     String dquote "75de9bea-0000-4abc-9def-0123456789ab" +:+ String dquote "}")
  = Some (Match (Some "75de9bea-0000-4abc-9def-0123456789ab")).
Proof. vm_compute. reflexivity. Qed.

Example search_explicit_short :
  re_search explicit_pattern "adw_id: 75de9bea" = None.
Proof. vm_compute. reflexivity. Qed.

(** Whitespace that is not ASCII counts for [\s]: the identifier after a
    no-break space and an ideographic space is found, and of two comments
    the newest, which has it after a no-break space, gives the
    identifier. *)
Example search_explicit_nbsp :
  re_search explicit_pattern
    ("adw_id:" +:+ no_break_space +:+ ideographic_space +:+ uuid_b)
  = Some (Match (Some uuid_b)).
Proof. vm_compute. reflexivity. Qed.

Example scan_comments_nbsp : scan_comments example_comments_nbsp = Some uuid_b.
Proof. vm_compute. reflexivity. Qed.

(** A dagger (U+2020), whose encoding shares two bytes with whitespace
    characters, is not whitespace. *)
Example search_explicit_dagger :
  re_search explicit_pattern ("adw_id:" +:+ glyph_of [226; 128; 160] +:+ uuid_b)
  = None.
Proof. vm_compute. reflexivity. Qed.

Example search_prefix :
  re_search prefix_pattern "x 75de9bea-0000-4abc-9def-0123456789ab_sdlc_planner: done"
  = Some (Match (Some "75de9bea-0000-4abc-9def-0123456789ab")).
Proof. vm_compute. reflexivity. Qed.

Ltac unfold_monad :=
  unfold mbind, M_bind, bind, mret, M_ret, ret, call, emit, try_except, raise,
    read_store, write_store in *.

(** *** Whitespace characters *)

(** The one-byte whitespace is Python's whitespace below 128. *)
Lemma is_space_isspace c :
  is_space c = py_isspace (N_of_ascii c) && (N_of_ascii c <? 128)%N.
Proof. destruct c as [[] [] [] [] [] [] [] []]; vm_compute; reflexivity. Qed.

(** A whitespace character of one byte is ASCII, one of two or three bytes
    starts with a lead byte: the three do not overlap. *)
Lemma is_space2_lead c1 c2 : is_space2 c1 c2 = true -> is_space c1 = false.
Proof.
  unfold is_space2, utf8_2. intros H.
  destruct c1 as [[] [] [] [] [] [] [] []]; try reflexivity;
    vm_compute in H; discriminate.
Qed.

Lemma is_space3_lead c1 c2 c3 :
  is_space3 c1 c2 c3 = true -> is_space c1 = false /\ is_space2 c1 c2 = false.
Proof.
  unfold is_space3, utf8_3, is_space2, utf8_2. intros H.
  destruct c1 as [[] [] [] [] [] [] [] []];
    first [ split; reflexivity
          | cbn [N_of_ascii N_of_digits N.add N.mul N.leb N.compare andb
                   Pos.compare Pos.compare_cont] in H; discriminate ].
Qed.

(** Case analysis along [space_width]: the first three bytes and the three
    tests, each goal closed by computation. *)
Ltac space_cases s :=
  let c1 := fresh "c" in let c2 := fresh "c" in let c3 := fresh "c" in
  destruct s as [|c1 s]; [done|];
  cbn [space_width all_space lstrip exec_spaces app] in *;
  destruct (is_space c1) eqn:?; [done|];
  destruct s as [|c2 s]; [done|]; cbn [app] in *;
  destruct (is_space2 c1 c2) eqn:?; [done|];
  destruct s as [|c3 s]; [done|]; cbn [app] in *;
  destruct (is_space3 c1 c2 c3) eqn:?; done.

Lemma space_width_le s : space_width s <= length s.
Proof.
  destruct s as [|c1 [|c2 [|c3 s]]]; cbn [space_width length];
    repeat case_match; lia.
Qed.

Lemma space_width_nil s : space_width s <> 0 -> s <> [].
Proof. by destruct s. Qed.

Lemma space_width_app s v :
  space_width s <> 0 -> space_width (s ++ v) = space_width s.
Proof.
  intros H. space_cases s.
Qed.

Lemma space_width_take s :
  space_width (take (space_width s) s) = space_width s.
Proof.
  destruct s as [|c1 s]; [done|]. cbn [space_width].
  destruct (is_space c1) eqn:H1; [cbn; by rewrite H1|].
  destruct s as [|c2 s]; [done|].
  destruct (is_space2 c1 c2) eqn:H2; [cbn; by rewrite H1, H2|].
  destruct s as [|c3 s]; [done|].
  destruct (is_space3 c1 c2 c3) eqn:H3; [cbn; by rewrite H1, H2, H3|done].
Qed.

Lemma all_space_eq u :
  all_space u =
  match space_width u with
  | 0 => match u with [] => true | _ => false end
  | n => all_space (drop n u)
  end.
Proof.
  space_cases u.
Qed.

Lemma lstrip_eq l :
  lstrip l =
  match space_width l with
  | 0 => l
  | n => lstrip (drop n l)
  end.
Proof.
  space_cases l.
Qed.

(** Induction along the whitespace characters a string starts with. *)
Lemma spaces_ind (P : list ascii -> Prop) :
  (forall s, space_width s = 0 -> P s) ->
  (forall s, space_width s <> 0 -> P (drop (space_width s) s) -> P s) ->
  forall s, P s.
Proof.
  intros H0 Hn s.
  remember (length s) as n eqn:Hlen. revert s Hlen.
  induction n as [n IH] using lt_wf_ind. intros s ->.
  destruct (space_width s) as [|m] eqn:Hw; [by apply H0|].
  apply Hn; [lia|]. rewrite Hw.
  apply (IH (length (drop (S m) s))); [|reflexivity].
  pose proof (space_width_le s). rewrite length_drop. lia.
Qed.

(** A whitespace character in front of a string of whitespace. *)
Lemma all_space_step s u :
  space_width s <> 0 ->
  all_space (take (space_width s) s ++ u) = all_space u.
Proof.
  intros Hw. pose proof (space_width_le s) as Hle.
  rewrite all_space_eq, space_width_app by (by rewrite space_width_take).
  rewrite space_width_take.
  destruct (space_width s) as [|n] eqn:Hn; [done|].
  rewrite drop_app_length'; [reflexivity|]. rewrite length_take. lia.
Qed.

(** ASCII whitespace is whitespace. *)
Lemma forallb_all_space u : forallb is_space u = true -> all_space u = true.
Proof.
  induction u as [|c u IH]; [reflexivity|]. cbn [forallb all_space].
  intros [Hc Hu]%andb_true_iff. rewrite Hc. by apply IH.
Qed.

Section MatcherSoundness.
Context {R : Type}.

Lemma exec_spaces_eq (k : list ascii -> option R) s :
  exec_spaces k s =
  match space_width s with
  | 0 => k s
  | n => match exec_spaces k (drop n s) with
         | Some x => Some x
         | None => k s
         end
  end.
Proof.
  space_cases s.
Qed.

Lemma exec_spaces_sound (k : list ascii -> option R) s x :
  exec_spaces k s = Some x ->
  exists u s', s = u ++ s' /\ all_space u = true /\ k s' = Some x.
Proof.
  revert x. induction s as [s H0|s Hn IH] using spaces_ind; intros x;
    rewrite exec_spaces_eq.
  - rewrite H0. intros Hk. exists [], s. auto.
  - destruct (space_width s) as [|n] eqn:Hw; [done|].
    destruct (exec_spaces k (drop (S n) s)) as [y|] eqn:Hm.
    + intros [= ->]. destruct (IH x eq_refl) as (u & s' & Hs & Hu & Hk).
      exists (take (S n) s ++ u), s'. split; [|split; [|exact Hk]].
      * by rewrite <- app_assoc, <- Hs, take_drop.
      * rewrite <- Hw, all_space_step by lia. exact Hu.
    + intros Hk. exists [], s. auto.
Qed.

Lemma exec_sound (P : list ascii -> Prop) r :
  groups_in P r ->
  forall s g (k : list ascii -> option (list ascii) -> option R) x,
    capture_is P g ->
    exec r s g k = Some x ->
    exists u s' g',
      s = u ++ s' /\ matches r u /\ capture_is P g' /\ k s' g' = Some x.
Proof.
  induction r as [ | c | p | r1 IH1 r2 IH2 | r1 IH1 r2 IH2 | | r1 IH1 ];
    simpl; intros Hg s g k x Hc H.
  - exists [], s, g. auto.
  - destruct s as [|c' s]; [discriminate|].
    destruct (Ascii.eqb c c') eqn:Heq; [|discriminate].
    apply Ascii.eqb_eq in Heq; subst c'. exists [c], s, g. auto.
  - destruct s as [|c' s]; [discriminate|].
    destruct (p c') eqn:Hp; [|discriminate].
    exists [c'], s, g. eauto 6.
  - destruct Hg as [Hg1 Hg2].
    destruct (IH1 Hg1 _ _ _ _ Hc H) as (u1 & s1 & g1 & -> & Hm1 & Hc1 & H1).
    destruct (IH2 Hg2 _ _ _ _ Hc1 H1) as (u2 & s2 & g2 & -> & Hm2 & Hc2 & H2).
    exists (u1 ++ u2), s2, g2. rewrite <- app_assoc. eauto 8.
  - destruct Hg as [Hg1 Hg2].
    destruct (exec r1 s g k) as [y|] eqn:H1.
    + inversion H; subst y.
      destruct (IH1 Hg1 _ _ _ _ Hc H1) as (u & s' & g' & ? & ? & ? & ?).
      exists u, s', g'. auto.
    + destruct (IH2 Hg2 _ _ _ _ Hc H) as (u & s' & g' & ? & ? & ? & ?).
      exists u, s', g'. auto.
  - apply exec_spaces_sound in H as (u & s' & -> & Hu & Hk).
    exists u, s', g. auto.
  - destruct Hg as [HP Hg1].
    destruct (IH1 Hg1 _ _ _ _ Hc H) as (u & s' & g' & -> & Hm & _ & Hk).
    rewrite length_app, Nat.add_sub, take_app_length in Hk.
    exists u, s', (Some u). simpl. auto.
Qed.

End MatcherSoundness.

(** The words of the identifier expression have the 8-4-4-4-12 shape. *)
Lemma matches_uuid_shape u : matches uuid_re u -> uuid_from 0 u = true.
Proof.
  unfold uuid_re, re_seq. cbn [fold_right rep matches]. intros H.
  repeat match goal with
         | H : exists _, _ |- _ => destruct H
         | H : _ /\ _ |- _ => destruct H
         end.
  subst. cbn [app uuid_from Nat.eqb orb].
  repeat match goal with
         | H : is_hex_lower _ = true |- _ => rewrite H; clear H
         end.
  reflexivity.
Qed.

Lemma uuid_from_length l : forall i, uuid_from i l = true -> i + length l = 36.
Proof.
  induction l as [|c l IH]; simpl; intros i H.
  - apply Nat.eqb_eq in H. lia.
  - apply andb_true_iff in H as [_ H]. apply IH in H. lia.
Qed.

Lemma string_length_list (s : string) :
  String.length s = length (list_ascii_of_string s).
Proof. induction s; simpl; congruence. Qed.

Lemma is_uuid_length s : is_uuid s = true -> String.length s = 36.
Proof.
  unfold is_uuid. intros H. apply uuid_from_length in H.
  rewrite string_length_list. lia.
Qed.

Lemma patterns_groups p :
  In p patterns -> groups_in (fun u => uuid_from 0 u = true) p.
Proof.
  unfold patterns. simpl.
  intros [<- | [<- | [<- | []]]]; cbn; repeat split;
    auto using matches_uuid_shape.
Qed.

(** What a pattern captures is an identifier of the full shape. *)
Lemma re_search_uuid p s m id :
  In p patterns -> re_search p s = Some m -> group1 m = Some id ->
  is_uuid id = true.
Proof.
  intros Hp. unfold re_search. generalize (list_ascii_of_string s). intros l.
  induction l as [|c l IH]; simpl; intros H Hid.
  - destruct (re_match_at p []) eqn:Hm; [|discriminate].
    inversion H; subst. clear H. unfold re_match_at in Hm.
    eapply exec_sound in Hm as (u & s' & g' & _ & _ & Hc & Hk);
      [|apply patterns_groups, Hp|exact I].
    inversion Hk; subst m. simpl in Hid. destruct g' as [v|]; [|discriminate].
    inversion Hid; subst id. unfold is_uuid.
    rewrite list_ascii_of_string_of_list_ascii. exact Hc.
  - destruct (re_match_at p (c :: l)) eqn:Hm; [|auto].
    inversion H; subst. clear H. unfold re_match_at in Hm.
    eapply exec_sound in Hm as (u & s' & g' & _ & _ & Hc & Hk);
      [|apply patterns_groups, Hp|exact I].
    inversion Hk; subst m. simpl in Hid. destruct g' as [v|]; [|discriminate].
    inversion Hid; subst id. unfold is_uuid.
    rewrite list_ascii_of_string_of_list_ascii. exact Hc.
Qed.

Lemma exec_spaces_continues {R : Type} (k : list ascii -> option R) s x :
  exec_spaces k s = Some x -> exists s', k s' = Some x.
Proof.
  intros H. apply exec_spaces_sound in H as (_ & s' & _ & _ & H). eauto.
Qed.

Lemma exec_captures {R : Type} r :
  forall s g (k : list ascii -> option (list ascii) -> option R) x,
    exec r s g k = Some x ->
    exists s' g', k s' g' = Some x /\
                  (captures r || bool_decide (is_Some g) = true -> is_Some g').
Proof.
  induction r as [ | c | p | r1 IH1 r2 IH2 | r1 IH1 r2 IH2 | | r1 IH1 ];
    simpl; intros s g k x H.
  - exists s, g. split; [done|]. intros Hg. by apply bool_decide_eq_true in Hg.
  - destruct s as [|c' s]; [done|]. destruct (Ascii.eqb c c'); [|done].
    exists s, g. split; [done|]. intros Hg. by apply bool_decide_eq_true in Hg.
  - destruct s as [|c' s]; [done|]. destruct (p c'); [|done].
    exists s, g. split; [done|]. intros Hg. by apply bool_decide_eq_true in Hg.
  - apply IH1 in H as (s1 & g1 & H & Hc1).
    apply IH2 in H as (s2 & g2 & H & Hc2).
    exists s2, g2. split; [done|]. intros Hg. apply Hc2.
    destruct (captures r2); [done|]. simpl. apply bool_decide_eq_true, Hc1.
    by rewrite orb_false_r in Hg.
  - destruct (exec r1 s g k) as [y|] eqn:H1.
    + inversion H; subst y. apply IH1 in H1 as (s' & g' & H1 & Hc).
      exists s', g'. split; [done|]. intros Hg. apply Hc.
      destruct (captures r1); [done|]. by rewrite andb_false_l in Hg.
    + apply IH2 in H as (s' & g' & H & Hc).
      exists s', g'. split; [done|]. intros Hg. apply Hc.
      destruct (captures r2); [done|]. by rewrite andb_false_r in Hg.
  - apply exec_spaces_continues in H as (s' & H).
    exists s', g. split; [done|]. intros Hg. by apply bool_decide_eq_true in Hg.
  - apply IH1 in H as (s' & g' & H & _). eauto.
Qed.

(** A match of one of the three patterns has its group set. *)
Lemma re_search_group p s m :
  In p patterns -> re_search p s = Some m -> is_Some (group1 m).
Proof.
  intros Hp. unfold re_search. generalize (list_ascii_of_string s). intros l.
  assert (Hc : captures p = true).
  { unfold patterns in Hp. simpl in Hp.
    destruct Hp as [<- | [<- | [<- | []]]]; reflexivity. }
  assert (Hat : forall l, re_match_at p l = Some m -> is_Some (group1 m)).
  { intros l' H. unfold re_match_at in H.
    apply exec_captures in H as (s' & g' & H & Hg). rewrite Hc in Hg.
    destruct (Hg eq_refl) as [u ->]. inversion H. simpl. eauto. }
  induction l as [|c l IH]; simpl; intros H.
  - destruct (re_match_at p []) eqn:Hm; [|done]. inversion H; subst. eauto.
  - destruct (re_match_at p (c :: l)) eqn:Hm; [|auto].
    inversion H; subst. eauto.
Qed.

(* ===================================================================== *)
(** ** The two loops of identifier recovery *)
(* ===================================================================== *)

Lemma first_pattern_match_found ps q1 p q2 s m :
  ps = q1 ++ p :: q2 ->
  Forall (fun p' => re_search p' s = None) q1 ->
  re_search p s = Some m ->
  first_pattern_match ps s = Some m.
Proof.
  intros -> Hq Hp. induction Hq as [|p' q1 Hp' _ IH]; simpl.
  - by rewrite Hp.
  - by rewrite Hp'.
Qed.

Lemma first_pattern_match_none ps s :
  Forall (fun p => re_search p s = None) ps -> first_pattern_match ps s = None.
Proof.
  induction 1 as [|p ps Hp _ IH]; simpl; [done|]. by rewrite Hp.
Qed.

Lemma first_pattern_match_in ps s m :
  first_pattern_match ps s = Some m ->
  exists p, In p ps /\ re_search p s = Some m.
Proof.
  induction ps as [|p ps IH]; simpl; [done|].
  destruct (re_search p s) as [m'|] eqn:Hp.
  - intros [= ->]. eauto.
  - intros H. destruct (IH H) as (p' & ? & ?). eauto.
Qed.

Lemma no_match_first c :
  no_match c -> first_pattern_match patterns (default "" (c !! "body")) = None.
Proof.
  intros H. apply first_pattern_match_none, Forall_forall.
  intros p Hp. apply H. by apply list_elem_of_In.
Qed.

Lemma scan_comments_cons c cs :
  scan_comments (c :: cs) =
  match first_pattern_match patterns (default "" (c !! "body")) with
  | Some m => group1 m
  | None => scan_comments cs
  end.
Proof. reflexivity. Qed.

Lemma scan_comments_found pre c post m :
  Forall no_match pre ->
  first_pattern_match patterns (default "" (c !! "body")) = Some m ->
  scan_comments (pre ++ c :: post) = group1 m.
Proof.
  intros Hpre Hm.
  induction Hpre as [|c' pre Hc' _ IH]; cbn [app]; rewrite scan_comments_cons.
  - by rewrite Hm.
  - by rewrite (no_match_first _ Hc').
Qed.

Lemma scan_comments_none comments :
  Forall no_match comments -> scan_comments comments = None.
Proof.
  induction 1 as [|c cs Hc _ IH]; [done|].
  rewrite scan_comments_cons. by rewrite (no_match_first _ Hc).
Qed.

Lemma scan_comments_uuid comments id :
  scan_comments comments = Some id -> is_uuid id = true.
Proof.
  induction comments as [|c cs IH]; [done|]. rewrite scan_comments_cons.
  destruct (first_pattern_match patterns (default "" (c !! "body"))) as [m|] eqn:Hm;
    [|exact IH].
  intros Hid. apply first_pattern_match_in in Hm as (p & Hp & Hs).
  eapply re_search_uuid; eauto.
Qed.

Section Recovery.
Variable E : env.

(** What recovery computes, with the [try] resolved. *)
Lemma find_latest_run issue_number w :
  find_latest_adw_id_in_issue E issue_number w =
  (inr match env_extract_repo_path E with
       | inr (Some (String _ _ as path)) =>
           match env_fetch_issue_comments E path issue_number with
           | inr comments => scan_comments comments
           | inl _ => None
           end
       | _ => None
       end, w).
Proof.
  unfold find_latest_adw_id_in_issue, extract_repo_path, fetch_issue_comments.
  unfold_monad.
  destruct (env_extract_repo_path E) as [e|[[|a path]|]]; try reflexivity.
  destruct (env_fetch_issue_comments E _ issue_number) as [e|[|c cs]];
    reflexivity.
Qed.

(** C3. On a non-empty list of comments, newest first, recovery returns the
    identifier captured in the first comment of the list that matches any
    of the three patterns, by the first of the patterns (JSON field,
    explicit mention, prefixed label, in this order) that matches this
    comment; it returns none when no comment matches any pattern. *)
Theorem newest_match_is_returned issue_number w path comments :
  env_extract_repo_path E = inr (Some path) ->
  py_truthy (Some path) = true ->
  env_fetch_issue_comments E path issue_number = inr comments ->
  comments <> [] ->
  patterns = [ json_pattern; explicit_pattern; prefix_pattern ] /\
  (forall pre c post q1 p q2 m,
      comments = pre ++ c :: post ->
      Forall no_match pre ->
      patterns = q1 ++ p :: q2 ->
      Forall (fun p' => re_search p' (default "" (c !! "body")) = None) q1 ->
      re_search p (default "" (c !! "body")) = Some m ->
      exists id,
        group1 m = Some id /\
        find_latest_adw_id_in_issue E issue_number w = (inr (Some id), w)) /\
  (Forall no_match comments ->
   find_latest_adw_id_in_issue E issue_number w = (inr None, w)).
Proof.
  intros Hrepo Hpath Hfetch Hne. split; [reflexivity|].
  assert (Hrun : find_latest_adw_id_in_issue E issue_number w
                 = (inr (scan_comments comments), w)).
  { rewrite find_latest_run, Hrepo. destruct path; [discriminate|].
    by rewrite Hfetch. }
  rewrite Hrun. split.
  - intros pre c post q1 p q2 m -> Hpre Hps Hq1 Hm.
    destruct (re_search_group p (default "" (c !! "body")) m) as [id Hid];
      [rewrite Hps; apply in_elt|exact Hm|].
    exists id. split; [exact Hid|].
    erewrite scan_comments_found; [by rewrite Hid|exact Hpre|].
    eapply first_pattern_match_found; eauto.
  - intros Hall. by rewrite scan_comments_none.
Qed.

(** C8. Identifier recovery never raises and has no effect on the world;
    when the repository path is missing, or its lookup or the fetch of the
    comments raises, it returns none. *)
Theorem recovery_failure_is_none issue_number w :
  (exists r, find_latest_adw_id_in_issue E issue_number w = (inr r, w)) /\
  (recovery_failure E issue_number ->
   find_latest_adw_id_in_issue E issue_number w = (inr None, w)).
Proof.
  rewrite find_latest_run. split; [eauto|].
  intros [p Hp Hf | e He | path e Hp He].
  - rewrite Hp. by destruct p as [[|]|].
  - by rewrite He.
  - rewrite Hp. destruct path; [done|]. by rewrite He.
Qed.

(** C9. An identifier that recovery returns has the full 8-4-4-4-12 shape of
    lowercase hex digits, 36 characters in all; it is never a bare
    8-character identifier such as 75de9bea. *)
Theorem recovered_id_is_uuid issue_number w w' id :
  find_latest_adw_id_in_issue E issue_number w = (inr (Some id), w') ->
  is_uuid id = true /\
  String.length id = 36 /\
  (forall short, String.length short = 8 -> id <> short).
Proof.
  rewrite find_latest_run. intros H.
  assert (Hu : is_uuid id = true).
  { destruct (env_extract_repo_path E) as [e|[[|a path]|]]; try discriminate.
    destruct (env_fetch_issue_comments E _ issue_number) as [e|cs];
      [discriminate|].
    inversion H. eapply scan_comments_uuid; eauto. }
  pose proof (is_uuid_length _ Hu) as Hl.
  repeat split; [exact Hu|exact Hl|].
  intros short Hs ->. lia.
Qed.

End Recovery.

(* ===================================================================== *)
(** ** The phases of the handler *)
(* ===================================================================== *)

Lemma launched_app tr1 tr2 : launched (tr1 ++ tr2) = launched tr1 ++ launched tr2.
Proof. apply omap_app. Qed.

Lemma saves_app tr1 tr2 : saves (tr1 ++ tr2) = saves tr1 ++ saves tr2.
Proof. apply omap_app. Qed.

(** Destruct the innermost scrutinee of a [match] in a term. *)
Ltac case_inner t :=
  lazymatch t with
  | context [match ?x with _ => _ end] => case_inner x
  | _ => destruct t eqn:?
  end.

Ltac case_goal :=
  match goal with
  | |- context [match ?x with _ => _ end] => case_inner x
  end.

Ltac case_hyp H :=
  match type of H with
  | context [match ?x with _ => _ end] => case_inner x
  end.

Ltac trace_simpl :=
  cbn [store trace drawn fst snd] in *;
  rewrite ?launched_app, ?saves_app, ?app_nil_r in *;
  cbn [launched saves omap list_omap app] in *;
  rewrite ?app_nil_r in *.

Section Phases.
Variable E : env.

(** The handler with its [try] resolved: an exception of any phase gives the
    error dict, and the effects made so far stay. *)
Lemma github_webhook_unfold req w :
  github_webhook E req w =
  match github_webhook_try E req w with
  | (inr r, w') => (inr r, w')
  | (inl _, w') => (inr error_response, w')
  end.
Proof.
  unfold github_webhook, github_webhook_try. unfold_monad.
  repeat case_goal; reflexivity.
Qed.

Lemma github_webhook_try_unfold req w :
  github_webhook_try E req w =
  match resolve_request E req w with
  | (inr l, w') => dispatch E l w'
  | (inl e, w') => (inl e, w')
  end.
Proof.
  unfold github_webhook_try, resolve_request. unfold_monad.
  repeat case_goal; reflexivity.
Qed.

Lemma resolve_request_unfold req w :
  resolve_request E req w =
  match classify_event E req w with
  | (inr l, w') => resolve_adw_id E l w'
  | (inl e, w') => (inl e, w')
  end.
Proof. reflexivity. Qed.

(** Posting a comment under [try]: it never raises, and it adds at most the
    comment to the trace. *)
Lemma try_issue_comment_run issue_id text w :
  try_issue_comment E issue_id text w =
  (inr tt,
   match env_make_issue_comment E issue_id text with
   | inr _ => World (store w) (trace w ++ [IssueComment issue_id text]) (drawn w)
   | inl _ => w
   end).
Proof.
  unfold try_issue_comment, make_issue_comment. unfold_monad.
  destruct (env_make_issue_comment E issue_id text) as [e|[]]; reflexivity.
Qed.

Lemma try_issue_comment_frame issue_id text w :
  exists w', try_issue_comment E issue_id text w = (inr tt, w') /\
             store w' = store w /\ drawn w' = drawn w /\
             launched (trace w') = launched (trace w) /\
             saves (trace w') = saves (trace w).
Proof.
  rewrite try_issue_comment_run. eexists. split; [reflexivity|].
  destruct (env_make_issue_comment E issue_id text); trace_simpl; auto.
Qed.

(** Classification writes no state and calls nothing that is traced. *)
Lemma classify_event_frame req w r w' :
  classify_event E req w = (r, w') -> store w' = store w /\ trace w' = trace w.
Proof.
  unfold classify_event, make_adw_id, extract_adw_info. unfold_monad.
  intros H. repeat case_hyp H; inversion H; subst; auto.
Qed.

(** The fields classification copies from the request. *)
Lemma classify_event_fields req w l w' p :
  json req = inr p ->
  classify_event E req w = (inr l, w') ->
  l_event_type l = default "" (x_github_event req) /\
  l_action l = default "" (p_action p) /\
  l_issue_number l = i_number (default (Issue None Absent) (p_issue p)).
Proof.
  unfold classify_event, make_adw_id, extract_adw_info. unfold_monad.
  intros -> H. repeat case_hyp H; inversion H; subst; auto.
Qed.

(** Resolution never raises, writes no state and launches nothing; it keeps
    the event type, the action and the issue number. *)
Lemma resolve_adw_id_frame l w :
  exists l' w',
    resolve_adw_id E l w = (inr l', w') /\
    store w' = store w /\
    launched (trace w') = launched (trace w) /\
    saves (trace w') = saves (trace w) /\
    l_event_type l' = l_event_type l /\
    l_action l' = l_action l /\
    l_issue_number l' = l_issue_number l.
Proof.
  unfold resolve_adw_id.
  destruct (py_eq (l_workflow l) "adw_build" && negb (py_truthy (l_provided_adw_id l))).
  - unfold mbind, M_bind, bind. rewrite find_latest_run.
    match goal with |- context [py_truthy ?r] => destruct (py_truthy r) end;
      rewrite try_issue_comment_run; unfold mret, M_ret, ret;
      do 2 eexists; (split; [reflexivity|]);
      destruct (env_make_issue_comment E _ _); trace_simpl; auto 10.
  - unfold mret, M_ret, ret. eauto 10.
Qed.

(** With no workflow there is nothing to resolve. *)
Lemma resolve_adw_id_no_workflow l w :
  py_truthy (l_workflow l) = false -> resolve_adw_id E l w = (inr l, w).
Proof.
  unfold resolve_adw_id. intros H.
  destruct (l_workflow l) as [[|a s]|]; try discriminate; reflexivity.
Qed.

(** With no workflow the answer is the ignored dict, and nothing happens. *)
Lemma dispatch_no_workflow l w :
  py_truthy (l_workflow l) = false ->
  dispatch E l w = (inr (ignored_response (l_event_type l) (l_action l)), w).
Proof. unfold dispatch. intros ->. reflexivity. Qed.

End Phases.

Section Dispatch.
Variable E : env.

(** The state guard with its calls resolved: the record of the identifier is
    read; with a branch name in it nothing is written; without one the
    record is saved with the identifier and the issue number set. *)
Lemma init_state_run adw_id issue_number w :
  init_state E adw_id issue_number w =
  match env_state_read E adw_id with
  | inl e => (inl e, w)
  | inr _ =>
      let state := default {[ "adw_id" := Some adw_id ]} (store w !! adw_id) in
      if py_truthy (data_get state "branch_name") then (inr tt, w)
      else
        let state' := state_update [ ("adw_id", adw_id);
                                     ("issue_number", py_str_int issue_number) ]
                        state in
        match env_state_write E adw_id with
        | inl e => (inl e, w)
        | inr _ =>
            (inr tt,
             World (<[ adw_id := state' ]> (store w))
                   (trace w ++ [StateSaved adw_id state' "webhook_trigger"])
                   (drawn w))
        end
  end.
Proof.
  unfold init_state, ADWState, state_save. unfold_monad.
  destruct (env_state_read E adw_id) as [e|[]]; [reflexivity|].
  cbn zeta.
  destruct (py_truthy (data_get (default _ (store w !! adw_id)) "branch_name"));
    cbn [negb]; [reflexivity|].
  destruct (env_state_write E adw_id) as [e|[]]; reflexivity.
Qed.

(** The guard launches nothing and draws no identifier. *)
Lemma init_state_frame adw_id issue_number w r w' :
  init_state E adw_id issue_number w = (r, w') ->
  launched (trace w') = launched (trace w) /\ drawn w' = drawn w.
Proof.
  rewrite init_state_run. cbn zeta. intros H.
  repeat case_hyp H; inversion H; subst; trace_simpl; auto.
Qed.


(** What the dispatch of a workflow launches: nothing when a step raises,
    and the one command of the workflow when it answers. *)
Lemma dispatch_launch l w r w' :
  py_truthy (l_workflow l) = true ->
  dispatch E l w = (r, w') ->
  (exists e, r = inl e /\ launched (trace w') = launched (trace w)) \/
  (r = inr (accepted_response (l_issue_number l) (dispatch_adw_id E l w)
              (py_format (l_workflow l)) (l_trigger_reason l)) /\
   launched (trace w') =
     launched (trace w) ++
     [ (workflow_cmd E (py_format (l_workflow l)) (l_issue_number l)
          (dispatch_adw_id E l w), repo_root E) ]).
Proof.
  unfold dispatch, dispatch_adw_id. intros ->.
  unfold mbind, M_bind, bind.
  destruct (py_truthy (l_provided_adw_id l)).
  - unfold mret at 1, M_ret, ret.
    destruct (init_state E _ _ w) as [[e|[]] w1] eqn:Hi;
      apply init_state_frame in Hi as [Hl _].
    { intros [= <- <-]. left. eauto. }
    unfold setup_logger, subprocess_Popen, try_issue_comment, make_issue_comment.
    rewrite <- Hl. unfold_monad.
    intros H. repeat case_hyp H; inversion H; subst; trace_simpl; eauto.
  - unfold make_adw_id at 1. unfold mret at 1, M_ret, ret.
    unfold setup_logger, subprocess_Popen, try_issue_comment, make_issue_comment.
    unfold_monad.
    intros H. repeat case_hyp H; inversion H; subst; trace_simpl; eauto.
Qed.

(** What the dispatch does to the persisted states: with no identifier
    provided, or with no workflow, nothing; with one provided, what the
    guard does. *)
Lemma dispatch_store l w r w' :
  dispatch E l w = (r, w') ->
  if py_truthy (l_workflow l) && py_truthy (l_provided_adw_id l) then
    exists ri wi,
      init_state E (py_format (l_provided_adw_id l)) (l_issue_number l) w = (ri, wi) /\
      store w' = store wi /\ saves (trace w') = saves (trace wi)
  else store w' = store w /\ saves (trace w') = saves (trace w).
Proof.
  unfold dispatch. destruct (py_truthy (l_workflow l)); cbn [andb].
  - unfold mbind, M_bind, bind.
    destruct (py_truthy (l_provided_adw_id l)).
    + unfold mret at 1, M_ret, ret.
      destruct (init_state E _ _ w) as [[e|[]] w1] eqn:Hi.
      { intros [= <- <-]. eauto. }
      unfold setup_logger, subprocess_Popen, try_issue_comment, make_issue_comment.
      unfold_monad.
      intros H. exists (inr tt), w1. split; [reflexivity|].
      repeat case_hyp H; inversion H; subst; trace_simpl; auto.
    + unfold make_adw_id at 1. unfold mret at 1, M_ret, ret.
      unfold setup_logger, subprocess_Popen, try_issue_comment, make_issue_comment.
      unfold_monad.
      intros H. repeat case_hyp H; inversion H; subst; trace_simpl; auto.
  - intros [= <- <-]. auto.
Qed.

End Dispatch.

Section Handler.
Variable E : env.

(** A classified workflow comes with its reason, of one of two forms. *)
Lemma classify_event_reason req w l w' :
  classify_event E req w = (inr l, w') ->
  py_truthy (l_workflow l) = true ->
  l_trigger_reason l = "New issue with " +:+ py_format (l_workflow l) +:+ " workflow" \/
  l_trigger_reason l = "Comment with " +:+ py_format (l_workflow l) +:+ " workflow".
Proof.
  unfold classify_event, make_adw_id, extract_adw_info. unfold_monad.
  intros H. repeat case_hyp H; inversion H; subst; cbn [l_workflow l_trigger_reason];
    intros Hw; try discriminate; try congruence; auto.
Qed.

(** A workflow that survives resolution is the classified one, with its
    reason. *)
Lemma resolve_adw_id_workflow l w l' w' :
  resolve_adw_id E l w = (inr l', w') ->
  py_truthy (l_workflow l') = true ->
  l_workflow l' = l_workflow l /\ l_trigger_reason l' = l_trigger_reason l.
Proof.
  unfold resolve_adw_id.
  destruct (py_eq (l_workflow l) "adw_build" && negb (py_truthy (l_provided_adw_id l))).
  - unfold mbind, M_bind, bind. rewrite find_latest_run.
    match goal with |- context [py_truthy ?r] => destruct (py_truthy r) end;
      rewrite try_issue_comment_run; unfold mret, M_ret, ret;
      intros [= <- <-]; cbn; intros; try discriminate; auto.
  - intros [= <- <-]. auto.
Qed.

(** Up to the dispatch the handler writes no state and launches nothing. *)
Lemma resolve_request_frame req w r w1 :
  resolve_request E req w = (r, w1) ->
  store w1 = store w /\
  launched (trace w1) = launched (trace w) /\
  saves (trace w1) = saves (trace w).
Proof.
  rewrite resolve_request_unfold.
  destruct (classify_event E req w) as [[e|l] w0] eqn:Hc;
    apply classify_event_frame in Hc as [Hs Ht].
  - intros [= <- <-]. rewrite Ht. auto.
  - destruct (resolve_adw_id_frame E l w0) as (l' & w2 & -> & ? & ? & ? & _).
    intros [= <- <-]. rewrite <- Hs, <- Ht. auto.
Qed.



(** C2. When a request is classified as [adw_build] without an identifier
    and recovery over the issue's comments gives none, the handler answers
    with the ignored dict and launches no process (and writes no state). *)
Theorem build_without_id_is_ignored req w l w1 found w2 :
  classify_event E req w = (inr l, w1) ->
  l_workflow l = Some "adw_build" ->
  py_truthy (l_provided_adw_id l) = false ->
  find_latest_adw_id_in_issue E (l_issue_number l) w1 = (inr found, w2) ->
  py_truthy found = false ->
  exists w',
    github_webhook E req w
    = (inr (ignored_response (l_event_type l) (l_action l)), w') /\
    resp_get "status" (ignored_response (l_event_type l) (l_action l))
    = Some (JStr "ignored") /\
    launched (trace w') = launched (trace w) /\
    store w' = store w.
Proof.
  intros Hc Hwf Hpid Hfind Hnone.
  rewrite github_webhook_unfold, github_webhook_try_unfold,
    resolve_request_unfold, Hc.
  apply classify_event_frame in Hc as [Hs Ht].
  unfold resolve_adw_id. rewrite Hwf, Hpid. cbn [py_eq String.eqb Ascii.eqb Bool.eqb andb negb].
  unfold mbind, M_bind, bind. rewrite Hfind, Hnone, try_issue_comment_run.
  unfold mret, M_ret, ret. rewrite dispatch_no_workflow by reflexivity.
  cbn [l_event_type l_action].
  rewrite find_latest_run in Hfind. inversion Hfind; subst w2.
  eexists. split; [reflexivity|]. split; [reflexivity|].
  destruct (env_make_issue_comment E _ _); trace_simpl; rewrite ?Ht; auto.
Qed.

(** C4. A created comment whose body contains the bot marker is answered
    with the ignored dict, whatever else the body contains: the answer is
    not an acceptance, no process is launched, and the world is as
    before. *)
Theorem bot_comment_never_dispatches req w p c body :
  x_github_event req = Some "issue_comment" ->
  json req = inr p ->
  p_action p = Some "created" ->
  p_comment p = Some c ->
  c_body c = Val body ->
  str_in ADW_BOT_IDENTIFIER body = true ->
  exists r w',
    github_webhook E req w = (inr r, w') /\
    r = ignored_response "issue_comment" "created" /\
    is_accepted r = false /\
    launched (trace w') = launched (trace w) /\
    w' = w.
Proof.
  intros Hev Hjs Hact Hcm Hbody Hbot.
  assert (Hc : exists l, classify_event E req w = (inr l, w) /\
                         l_workflow l = None /\
                         l_event_type l = "issue_comment" /\
                         l_action l = "created").
  { unfold classify_event. rewrite Hev, Hjs. unfold_monad.
    rewrite Hact, Hcm. cbn [default from_option id String.eqb Ascii.eqb Bool.eqb andb].
    destruct (py_truthy_int _).
    - rewrite Hbody. cbn [get_default]. rewrite Hbot. eauto.
    - eauto. }
  destruct Hc as (l & Hc & Hwf & Het & Hac).
  rewrite github_webhook_unfold, github_webhook_try_unfold,
    resolve_request_unfold, Hc.
  rewrite resolve_adw_id_no_workflow, dispatch_no_workflow by (by rewrite Hwf).
  rewrite Het, Hac. eauto 10.
Qed.

End Handler.

Section Answers.
Variable E : env.

(** C5. The handler answers every request with status 200 and a JSON body
    of one of three shapes: the seven fields status, issue, adw_id,
    workflow, message, reason, logs with status accepted; status ignored
    with a reason; status error with a message. An exception raised inside
    the [try] block never leaves the handler: it becomes the error body. *)
Theorem webhook_always_answers req w :
  (exists r w',
      github_webhook E req w = (inr r, w') /\
      response_shape r /\
      post_gh_webhook E req w = (Http 200 r, w')) /\
  (forall e w1,
      github_webhook_try E req w = (inl e, w1) ->
      github_webhook E req w = (inr error_response, w1)).
Proof.
  split.
  - unfold post_gh_webhook. rewrite github_webhook_unfold.
    destruct (github_webhook_try E req w) as [[e|r] w'] eqn:Htry.
    + exists error_response, w'. repeat split. by eapply shape_error.
    + exists r, w'. repeat split.
      rewrite github_webhook_try_unfold in Htry.
      destruct (resolve_request E req w) as [[e|l] w1]; [discriminate|].
      destruct (py_truthy (l_workflow l)) eqn:Hwf.
      * apply dispatch_launch in Htry as [(e & He & _) | [Hr _]];
          [discriminate| |exact Hwf].
        inversion Hr. by apply shape_accepted.
      * rewrite dispatch_no_workflow in Htry by exact Hwf.
        inversion Htry. by eapply shape_ignored.
  - intros e w1 Htry. by rewrite github_webhook_unfold, Htry.
Qed.

(** An accepted answer comes from the dispatch of a resolved workflow. *)
Lemma accepted_inv req w r w' :
  github_webhook E req w = (inr r, w') ->
  is_accepted r = true ->
  exists l w1,
    resolve_request E req w = (inr l, w1) /\
    py_truthy (l_workflow l) = true /\
    dispatch E l w1 = (inr r, w').
Proof.
  rewrite github_webhook_unfold, github_webhook_try_unfold.
  destruct (resolve_request E req w) as [[e|l] w1].
  { intros [= <- <-]. discriminate. }
  destruct (py_truthy (l_workflow l)) eqn:Hwf.
  - destruct (dispatch E l w1) as [[e|r0] w0] eqn:Hd.
    + intros [= <- <-]. discriminate.
    + intros [= <- <-] _. eauto.
  - rewrite dispatch_no_workflow by exact Hwf. intros [= <- <-]. discriminate.
Qed.

(** C10. When the request resolves without a provided or recovered
    identifier, the handler writes no state: the persisted states and the
    saves of the trace are as before, and an accepted answer carries a
    freshly drawn identifier. The persisted states change only on the path
    of a workflow with a provided or recovered identifier. *)
Theorem fresh_id_writes_no_state req w r w' :
  github_webhook E req w = (r, w') ->
  (forall l w1,
      resolve_request E req w = (inr l, w1) ->
      py_truthy (l_provided_adw_id l) = false ->
      store w' = store w /\
      saves (trace w') = saves (trace w) /\
      (forall body, r = inr body -> is_accepted body = true ->
                    resp_get "adw_id" body = Some (JStr (env_make_adw_id E (drawn w1))))) /\
  ((store w' = store w /\ saves (trace w') = saves (trace w)) \/
   (exists l w1,
       resolve_request E req w = (inr l, w1) /\
       py_truthy (l_workflow l) = true /\
       py_truthy (l_provided_adw_id l) = true)).
Proof.
  intros Hrun. pose proof Hrun as Hrun0.
  rewrite github_webhook_unfold, github_webhook_try_unfold in Hrun.
  destruct (resolve_request E req w) as [[e|l] w1] eqn:Hres;
    destruct (resolve_request_frame _ _ _ _ _ Hres) as (Hs1 & _ & Hv1).
  { inversion Hrun; subst. split; [intros ? ? [=]|]. left. auto. }
  destruct (dispatch E l w1) as [rd wd] eqn:Hd.
  assert (Hw' : w' = wd) by (destruct rd; by inversion Hrun). subst wd.
  pose proof (dispatch_store _ _ _ _ _ Hd) as Hst.
  split.
  - intros l0 w0 [= <- <-] Hpid. rewrite Hpid, andb_false_r in Hst.
    destruct Hst as [-> ->]. repeat split; [exact Hs1|exact Hv1|].
    intros body -> Hacc.
    destruct (accepted_inv _ _ _ _ Hrun0 Hacc) as (l2 & w2 & Hres2 & Hwf & Hd2).
    rewrite Hres in Hres2. inversion Hres2; subst l2 w2.
    apply dispatch_launch in Hd2 as [(e & He & _) | [Hr _]];
      [discriminate| |exact Hwf].
    inversion Hr. unfold dispatch_adw_id. rewrite Hpid. reflexivity.
  - destruct (py_truthy (l_workflow l) && py_truthy (l_provided_adw_id l)) eqn:Hb.
    + apply andb_true_iff in Hb as [? ?]. right. eauto.
    + destruct Hst as [-> ->]. left. auto.
Qed.

(** An event of another type or action, or one whose body is a text without
    the trigger substring (in any case), is answered with the ignored dict,
    and the world is as before. *)
Lemma event_without_trigger_is_ignored req w p :
  json req = inr p ->
  triggering_pair (default "" (x_github_event req)) (default "" (p_action p)) = false \/
  (exists body, event_body req p = Some body /\
                str_in "adw_" (str_lower body) = false) ->
  github_webhook E req w
  = (inr (ignored_response (default "" (x_github_event req))
            (default "" (p_action p))), w).
Proof.
  intros Hjs Hcond.
  assert (Hc : exists l, classify_event E req w = (inr l, w) /\
                         l_workflow l = None /\
                         l_event_type l = default "" (x_github_event req) /\
                         l_action l = default "" (p_action p)).
  { unfold classify_event. rewrite Hjs. unfold_monad.
    unfold triggering_pair, event_body in Hcond.
    destruct (String.eqb (default "" (x_github_event req)) "issues") eqn:He1;
      destruct (String.eqb (default "" (p_action p)) "opened") eqn:Ha1;
      destruct (String.eqb (default "" (x_github_event req)) "issue_comment") eqn:He2;
      destruct (String.eqb (default "" (p_action p)) "created") eqn:Ha2;
      cbn [andb orb] in *;
      try (apply String.eqb_eq in He1; apply String.eqb_eq in He2; congruence);
      cbn zeta;
      destruct Hcond as [? | (body & Hbody & Hb)]; try discriminate;
      rewrite ?Hbody, ?Hb; repeat case_goal; eauto. }
  destruct Hc as (l & Hc & Hwf & Het & Hac).
  rewrite github_webhook_unfold, github_webhook_try_unfold,
    resolve_request_unfold, Hc.
  rewrite resolve_adw_id_no_workflow, dispatch_no_workflow by (by rewrite Hwf).
  by rewrite Het, Hac.
Qed.

(** C6 (the failing input). An issue opened without a description has a
    [null] body: it has no trigger substring, and the handler answers with
    the error dict, not with the ignored one. Nothing is launched. *)
Theorem null_issue_body_answers_error w :
  github_webhook E (issue_opened Null) w = (inr error_response, w).
Proof. reflexivity. Qed.

(** A process is launched only by a request that is accepted: with any
    other answer the launches of the trace are as before. *)
Lemma launch_only_when_accepted req w r w' :
  github_webhook E req w = (inr r, w') ->
  is_accepted r = false ->
  launched (trace w') = launched (trace w).
Proof.
  rewrite github_webhook_unfold, github_webhook_try_unfold.
  destruct (resolve_request E req w) as [[e|l] w1] eqn:Hres;
    destruct (resolve_request_frame _ _ _ _ _ Hres) as (_ & Hl & _).
  { by intros [= <- <-]. }
  destruct (py_truthy (l_workflow l)) eqn:Hwf.
  - destruct (dispatch E l w1) as [rd wd] eqn:Hd.
    apply dispatch_launch in Hd as [(e & -> & Hla) | [-> _]]; [| |exact Hwf].
    + intros [= <- <-] _. by rewrite Hla.
    + intros [= <- <-]. discriminate.
  - rewrite dispatch_no_workflow by exact Hwf. by intros [= <- <-].
Qed.

End Answers.

(* ===================================================================== *)
(** ** The theorems at concrete requests *)
(* ===================================================================== *)


(** A bare [adw_build] comment on an issue whose comments carry no full
    identifier is ignored. *)
Lemma build_without_id_witness :
  exists w',
    github_webhook example_env_no_id (comment_created (Val "adw_build")) empty_world
    = (inr (ignored_response "issue_comment" "created"), w') /\
    launched (trace w') = [].
Proof.
  edestruct (build_without_id_is_ignored example_env_no_id
               (comment_created (Val "adw_build")) empty_world)
    as (w' & Hrun & _ & Hl & _);
    [ vm_compute; reflexivity | reflexivity | reflexivity
    | apply find_latest_run | vm_compute; reflexivity | ].
  exists w'. split; [exact Hrun | exact Hl].
Defined.

Lemma example_comment_no_match :
  no_match {[ "body" := "looks good, adw_id: 75de9bea" ]}.
Proof.
  intros p [<- | [<- | [<- | []]]]; vm_compute; reflexivity.
Qed.

(** In the example comments the newest one matches nothing; the next one
    matches the explicit mention (of [uuid_a]) and the prefix (of
    [uuid_b]), and the explicit mention comes first. *)
Lemma newest_match_witness :
  exists id,
    group1 (Match (Some uuid_a)) = Some id /\
    find_latest_adw_id_in_issue example_env (Some 7%Z) empty_world
    = (inr (Some id), empty_world).
Proof.
  destruct (newest_match_is_returned example_env (Some 7%Z) empty_world
              "owner/repo" example_comments eq_refl eq_refl eq_refl)
    as (_ & Hfound & _); [discriminate|].
  eapply (Hfound [ {[ "body" := "looks good, adw_id: 75de9bea" ]} ] _ _
            [ json_pattern ] explicit_pattern [ prefix_pattern ]).
  - reflexivity.
  - constructor; [exact example_comment_no_match | constructor].
  - reflexivity.
  - constructor; [vm_compute; reflexivity | constructor].
  - vm_compute. reflexivity.
Defined.

(** A comment of the bot that names a workflow is ignored. *)
Lemma bot_comment_witness :
  exists r w',
    github_webhook example_env
      (comment_created (Val "[ADW-BOT] please run adw_plan_build for this"))
      empty_world = (inr r, w') /\
    r = ignored_response "issue_comment" "created" /\
    is_accepted r = false /\
    launched (trace w') = launched (trace empty_world) /\
    w' = empty_world.
Proof.
  eapply (bot_comment_never_dispatches example_env
            (comment_created (Val "[ADW-BOT] please run adw_plan_build for this"))
            empty_world); reflexivity.
Defined.

(** A request whose body is not JSON gets the error body. *)
Lemma webhook_answers_witness :
  github_webhook example_env broken_request empty_world
  = (inr error_response, empty_world).
Proof.
  apply (proj2 (webhook_always_answers example_env broken_request empty_world)
           (Raised "JSONDecodeError") empty_world).
  reflexivity.
Defined.

(** A fetch that raises gives no identifier. *)
Lemma recovery_failure_witness :
  find_latest_adw_id_in_issue example_env_fetch_fails (Some 7%Z) empty_world
  = (inr None, empty_world).
Proof.
  apply (proj2 (recovery_failure_is_none example_env_fetch_fails (Some 7%Z)
                  empty_world)).
  apply (fetch_raises _ _ "owner/repo" (Raised "RuntimeError")); reflexivity.
Defined.

(** The identifier recovered from the example comments is a full one. *)
Lemma recovered_id_witness :
  is_uuid uuid_a = true /\ String.length uuid_a = 36.
Proof.
  destruct (recovered_id_is_uuid example_env (Some 7%Z) empty_world empty_world
              uuid_a) as (Hu & Hl & _).
  - rewrite find_latest_run. vm_compute. reflexivity.
  - split; [exact Hu | exact Hl].
Defined.

(** The second example of the spec: an issue opened with a plan+build
    request and no identifier runs under a fresh identifier and writes no
    state. *)
Lemma fresh_id_witness :
  store (github_webhook example_env
           (issue_opened (Val "please run adw_plan_build for this"))
           empty_world).2 = store empty_world /\
  saves (trace (github_webhook example_env
                  (issue_opened (Val "please run adw_plan_build for this"))
                  empty_world).2) = saves (trace empty_world).
Proof.
  edestruct (proj1 (fresh_id_writes_no_state example_env
                      (issue_opened (Val "please run adw_plan_build for this"))
                      empty_world _ _ (surjective_pairing _)))
    as (Hs & Hv & _); [ reflexivity | reflexivity | ].
  split; [exact Hs | exact Hv].
Defined.

(** A push event is ignored. *)
Lemma event_without_trigger_witness :
  github_webhook example_env push_event empty_world
  = (inr (ignored_response "push" ""), empty_world).
Proof.
  apply (event_without_trigger_is_ignored example_env push_event empty_world
           (Payload None None None) eq_refl).
  left. reflexivity.
Defined.

(** A build comment whose launch raises is answered with the error body,
    and no launch is on the trace. *)
Lemma launch_only_when_accepted_witness :
  launched (trace (github_webhook example_env_popen_fails
                     (build_comment 7 (Val "Add login")) empty_world).2)
  = launched (trace empty_world).
Proof.
  eapply (launch_only_when_accepted example_env_popen_fails
            (build_comment 7 (Val "Add login")) empty_world).
  - vm_compute. reflexivity.
  - reflexivity.
Defined.

(* ===================================================================== *)
(** ** Beyond the claims: the handler's own comments *)
(* ===================================================================== *)

Lemma comments_posted_app tr1 tr2 :
  comments_posted (tr1 ++ tr2) = comments_posted tr1 ++ comments_posted tr2.
Proof. apply omap_app. Qed.

Lemma prefix_append (p s : string) : String.prefix p (p +:+ s) = true.
Proof.
  induction p as [|c p IH]; simpl; [by destruct s|].
  destruct (ascii_dec c c); [exact IH|done].
Qed.

Lemma str_in_prefix p s : String.prefix p s = true -> str_in p s = true.
Proof. destruct s; simpl; intros ->; reflexivity. Qed.

Lemma auto_detected_text_marked i : String.prefix ADW_BOT_IDENTIFIER (auto_detected_text i) = true.
Proof. apply prefix_append. Qed.

Lemma missing_id_text_marked : String.prefix ADW_BOT_IDENTIFIER missing_id_text = true.
Proof. apply prefix_append. Qed.

Lemma detected_text_marked wf i rs : String.prefix ADW_BOT_IDENTIFIER (detected_text wf i rs) = true.
Proof. apply prefix_append. Qed.

Ltac comments_simpl :=
  cbn [store trace drawn fst snd] in *;
  rewrite ?comments_posted_app, ?app_nil_r in *;
  cbn [comments_posted omap list_omap app] in *;
  rewrite ?app_nil_r in *.

Section OwnComments.
Variable E : env.

Lemma resolve_adw_id_comments l w r w' :
  resolve_adw_id E l w = (r, w') ->
  exists new, comments_posted (trace w') = comments_posted (trace w) ++ new /\
              Forall (own_comment (l_issue_number l)) new /\ length new <= 1.
Proof.
  unfold resolve_adw_id.
  destruct (py_eq (l_workflow l) "adw_build" && negb (py_truthy (l_provided_adw_id l))).
  - unfold mbind, M_bind, bind. rewrite find_latest_run.
    match goal with |- context [py_truthy ?x] => destruct (py_truthy x) end;
      rewrite try_issue_comment_run; unfold mret, M_ret, ret;
      intros [= <- <-]; destruct (env_make_issue_comment E _ _); comments_simpl;
      try (exists []; rewrite app_nil_r; repeat split; [constructor|simpl; lia]);
      eexists [_]; (split; [reflexivity|]); (split; [|simpl; lia]);
      repeat constructor; cbn [fst snd];
      auto using auto_detected_text_marked, missing_id_text_marked.
  - intros [= <- <-]. exists []. rewrite app_nil_r. repeat split; [constructor|simpl; lia].
Qed.

Lemma dispatch_comments l w r w' :
  dispatch E l w = (r, w') ->
  exists new, comments_posted (trace w') = comments_posted (trace w) ++ new /\
              Forall (own_comment (l_issue_number l)) new /\ length new <= 1.
Proof.
  unfold dispatch, init_state, ADWState, state_save, make_adw_id, setup_logger,
    subprocess_Popen, try_issue_comment, make_issue_comment.
  unfold_monad. intros H.
  repeat case_hyp H; inversion H; subst; comments_simpl;
    try (exists []; rewrite app_nil_r; repeat split; [constructor|simpl; lia]);
    eexists [_]; (split; [reflexivity|]); (split; [|simpl; lia]);
    repeat constructor; cbn [fst snd]; apply detected_text_marked.
Qed.

(** A created comment whose text starts with the bot marker is answered
    with the ignored dict, and the world is as before. *)
Lemma marked_comment_is_ignored req text w :
  is_created_comment req text ->
  String.prefix ADW_BOT_IDENTIFIER text = true ->
  github_webhook E req w
  = (inr (ignored_response "issue_comment" "created"), w).
Proof.
  intros (Hev & p & c & Hjs & Hact & Hcm & Hbody) Hpre.
  apply str_in_prefix in Hpre.
  assert (Hc : exists l, classify_event E req w = (inr l, w) /\
                         l_workflow l = None /\
                         l_event_type l = "issue_comment" /\
                         l_action l = "created").
  { unfold classify_event. rewrite Hev, Hjs. unfold_monad.
    rewrite Hact, Hcm. cbn [default from_option id String.eqb Ascii.eqb Bool.eqb andb].
    destruct (py_truthy_int _).
    - rewrite Hbody. cbn [get_default]. rewrite Hpre. eauto.
    - eauto. }
  destruct Hc as (l & Hc & Hwf & Het & Hac).
  rewrite github_webhook_unfold, github_webhook_try_unfold,
    resolve_request_unfold, Hc.
  rewrite resolve_adw_id_no_workflow, dispatch_no_workflow by (by rewrite Hwf).
  by rewrite Het, Hac.
Qed.

(** The handler posts at most two comments per request; each starts with
    the bot marker, so that the event GitHub sends back for it, in any
    world, is answered with the ignored dict and changes nothing: the
    handler never reacts to a comment of its own. *)
Theorem own_comments_are_ignored req w r w' :
  github_webhook E req w = (r, w') ->
  exists new,
    comments_posted (trace w') = comments_posted (trace w) ++ new /\
    length new <= 2 /\
    Forall (fun c =>
              String.prefix ADW_BOT_IDENTIFIER c.2 = true /\
              forall back w2,
                is_created_comment back c.2 ->
                github_webhook E back w2
                = (inr (ignored_response "issue_comment" "created"), w2))
           new.
Proof.
  rewrite github_webhook_unfold, github_webhook_try_unfold, resolve_request_unfold.
  intros H.
  assert (Hgen : forall n c, own_comment n c ->
            String.prefix ADW_BOT_IDENTIFIER c.2 = true /\
            forall back w2,
              is_created_comment back c.2 ->
              github_webhook E back w2
              = (inr (ignored_response "issue_comment" "created"), w2)).
  { intros n c [_ Hm]. split; [exact Hm|].
    intros back w2 Hb. exact (marked_comment_is_ignored back c.2 w2 Hb Hm). }
  destruct (classify_event E req w) as [[e|l] w0] eqn:Hc;
    apply classify_event_frame in Hc as [_ Ht].
  { inversion H; subst. exists []. rewrite app_nil_r, Ht.
    repeat split; [simpl; lia|constructor]. }
  destruct (resolve_adw_id E l w0) as [[e|l'] w1] eqn:Hr.
  { destruct (resolve_adw_id_frame E l w0) as (? & ? & Hr' & _). congruence. }
  destruct (resolve_adw_id_frame E l w0) as (l2 & w2 & Hr' & _ & _ & _ & _ & _ & Hn).
  rewrite Hr in Hr'. inversion Hr'; subst l2 w2. clear Hr'.
  apply resolve_adw_id_comments in Hr as (new1 & Hc1 & Hf1 & Hl1).
  destruct (dispatch E l' w1) as [rd wd] eqn:Hd.
  assert (w' = wd) by (destruct rd; by inversion H). subst wd.
  apply dispatch_comments in Hd as (new2 & Hc2 & Hf2 & Hl2).
  exists (new1 ++ new2). rewrite Hc2, Hc1, Ht, app_assoc.
  split; [reflexivity|]. split; [rewrite length_app; lia|].
  apply Forall_app. split; eapply Forall_impl; eauto.
Qed.

End OwnComments.

(** The detection comment of the example build request, delivered back as
    a created comment, is ignored. *)
Lemma own_comments_witness :
  exists new,
    comments_posted (trace (github_webhook example_env
                              (build_comment 7 (Val "Add login")) empty_world).2)
    = comments_posted (trace empty_world) ++ new /\
    length new <= 2.
Proof.
  destruct (own_comments_are_ignored example_env
              (build_comment 7 (Val "Add login")) empty_world _ _
              (surjective_pairing _)) as (new & Hc & Hl & _).
  exists new. split; [exact Hc | exact Hl].
Defined.

(* ===================================================================== *)
(** ** Beyond the claims: what an acceptance presupposes *)
(* ===================================================================== *)

Section Acceptance.
Variable E : env.

(** A workflow comes out of the classification only for a triggering event
    on a numbered issue whose body has the trigger substring (and, for a
    comment, not the bot marker), with the classifier's answer on that
    body. *)
Lemma classify_event_workflow_inv req w l w' :
  classify_event E req w = (inr l, w') ->
  py_truthy (l_workflow l) = true ->
  exists p body,
    json req = inr p /\
    triggering_pair (default "" (x_github_event req)) (default "" (p_action p)) = true /\
    py_truthy_int (i_number (default (Issue None Absent) (p_issue p))) = true /\
    l_issue_number l = i_number (default (Issue None Absent) (p_issue p)) /\
    event_body req p = Some body /\
    str_in "adw_" (str_lower body) = true /\
    (x_github_event req = Some "issue_comment" ->
     str_in ADW_BOT_IDENTIFIER body = false) /\
    env_extract_adw_info E body (env_make_adw_id E (drawn w))
    = inr (l_workflow l, l_provided_adw_id l).
Proof.
  unfold classify_event, make_adw_id, extract_adw_info, triggering_pair, event_body.
  unfold_monad. destruct (json req) as [e|p]; [discriminate|].
  cbn zeta. intros H Hwf. exists p.
  destruct (String.eqb (default "" (x_github_event req)) "issues") eqn:He1.
  - destruct (String.eqb (default "" (p_action p)) "opened") eqn:Ha1;
      cbn [andb orb] in *.
    + destruct (py_truthy_int _) eqn:Hn.
      * destruct (get_default _ "") as [body|] eqn:Hb; [|discriminate].
        destruct (str_in "adw_" (str_lower body)) eqn:Ht;
          [|inversion H; subst; discriminate].
        destruct (env_extract_adw_info E body _) as [e|[wf pid]] eqn:Hx;
          [discriminate|].
        inversion H; subst. exists body. repeat split; auto.
        intros Hev. rewrite Hev in He1. discriminate.
      * apply String.eqb_eq in He1. rewrite He1 in H. cbn in H.
        inversion H; subst. discriminate.
    + apply String.eqb_eq in He1. rewrite He1 in H. cbn in H.
      inversion H; subst. discriminate.
  - cbn [andb orb] in *.
    destruct (String.eqb (default "" (x_github_event req)) "issue_comment"
              && String.eqb (default "" (p_action p)) "created") eqn:Hpair;
      cbn [andb] in *; [|inversion H; subst; discriminate].
    destruct (py_truthy_int _) eqn:Hn; [|inversion H; subst; discriminate].
    destruct (get_default _ "") as [body|] eqn:Hb; [|discriminate].
    destruct (str_in ADW_BOT_IDENTIFIER body) eqn:Hm;
      [inversion H; subst; discriminate|].
    destruct (str_in "adw_" (str_lower body)) eqn:Ht;
      [|inversion H; subst; discriminate].
    destruct (env_extract_adw_info E body _) as [e|[wf pid]] eqn:Hx;
      [discriminate|].
    inversion H; subst. exists body. repeat split; auto.
Qed.

(** The handler accepts only a triggering event: an opened issue or a
    created comment, on an issue with a non-zero number, whose body is a
    text with the trigger substring (in any case) and, for a comment,
    without the bot marker, and on which the classifier names a workflow:
    the workflow of the answer. *)
Theorem accepted_only_if_triggered req w r w' :
  github_webhook E req w = (inr r, w') ->
  is_accepted r = true ->
  exists p body workflow provided,
    json req = inr p /\
    triggering_pair (default "" (x_github_event req)) (default "" (p_action p)) = true /\
    py_truthy_int (i_number (default (Issue None Absent) (p_issue p))) = true /\
    event_body req p = Some body /\
    str_in "adw_" (str_lower body) = true /\
    (x_github_event req = Some "issue_comment" ->
     str_in ADW_BOT_IDENTIFIER body = false) /\
    env_extract_adw_info E body (env_make_adw_id E (drawn w))
    = inr (Some workflow, provided) /\
    resp_get "workflow" r = Some (JStr workflow) /\
    resp_get "issue" r = Some (jint (i_number (default (Issue None Absent) (p_issue p)))).
Proof.
  intros Hrun Hacc.
  destruct (accepted_inv _ _ _ _ _ Hrun Hacc) as (l & w1 & Hres & Hwf & Hd).
  apply dispatch_launch in Hd as [(e & He & _) | [Hr _]];
    [discriminate| |exact Hwf].
  inversion Hr; subst r. clear Hr.
  rewrite resolve_request_unfold in Hres.
  destruct (classify_event E req w) as [[e|l0] w0] eqn:Hc; [discriminate|].
  destruct (resolve_adw_id_workflow _ _ _ _ _ Hres Hwf) as [Hw0 _].
  destruct (resolve_adw_id_frame E l0 w0) as (l2 & w2 & Hr' & _ & _ & _ & _ & _ & Hn).
  rewrite Hres in Hr'. inversion Hr'; subst l2 w2. clear Hr'.
  rewrite Hw0 in Hwf.
  destruct (classify_event_workflow_inv _ _ _ _ Hc Hwf)
    as (p & body & Hjs & Hpair & Hnum & Hnum' & Hbody & Htrig & Hmark & Hx).
  destruct (l_workflow l0) as [wf|] eqn:Hwf0; [|discriminate].
  exists p, body, wf, (l_provided_adw_id l0).
  repeat split; auto.
  - rewrite Hw0. reflexivity.
  - rewrite Hn, Hnum'. reflexivity.
Qed.

(** When [adw_build] comes without an identifier and recovery finds one in
    the comments, an accepted answer runs under the recovered identifier:
    it has the full shape, the answer carries it, and the launched command
    has it as its last argument. *)
Theorem recovered_id_is_dispatched req w l w1 id w2 r w' :
  classify_event E req w = (inr l, w1) ->
  l_workflow l = Some "adw_build" ->
  py_truthy (l_provided_adw_id l) = false ->
  find_latest_adw_id_in_issue E (l_issue_number l) w1 = (inr (Some id), w2) ->
  github_webhook E req w = (inr r, w') ->
  is_accepted r = true ->
  is_uuid id = true /\
  r = accepted_response (l_issue_number l) id "adw_build" (l_trigger_reason l) /\
  launched (trace w') =
    launched (trace w) ++
    [ (workflow_cmd E "adw_build" (l_issue_number l) id, repo_root E) ].
Proof.
  intros Hc Hwf Hpid Hfind Hrun Hacc.
  assert (Hu : is_uuid id = true).
  { rewrite find_latest_run in Hfind. inversion Hfind as [[Hs Hw]].
    destruct (env_extract_repo_path E) as [e|[[|a path]|]]; try discriminate.
    destruct (env_fetch_issue_comments E _ _) as [e|cs]; [discriminate|].
    eapply scan_comments_uuid; eauto. }
  split; [exact Hu|].
  assert (Hid : py_truthy (Some id) = true).
  { apply is_uuid_length in Hu. destruct id; [discriminate|reflexivity]. }
  destruct (accepted_inv _ _ _ _ _ Hrun Hacc) as (l' & w3 & Hres & Hwf' & Hd).
  destruct (resolve_request_frame _ _ _ _ _ Hres) as (_ & Hl & _).
  assert (Hl' : l' = Locals (l_event_type l) (l_action l) (l_issue_number l)
                     (Some "adw_build") (Some id) (l_trigger_reason l)
                     (l_content_to_check l)).
  { revert Hres. rewrite resolve_request_unfold, Hc. unfold resolve_adw_id.
    rewrite Hwf, Hpid. cbn [py_eq String.eqb Ascii.eqb Bool.eqb andb negb].
    unfold mbind, M_bind, bind. rewrite Hfind, Hid, try_issue_comment_run.
    unfold mret, M_ret, ret. by intros [= <- _]. }
  subst l'.
  apply dispatch_launch in Hd as [(e & He & _) | [Hr Hla]];
    [discriminate| |reflexivity].
  inversion Hr; subst r. rewrite Hl in Hla.
  unfold dispatch_adw_id in *. cbn [l_provided_adw_id l_workflow l_issue_number
    l_trigger_reason py_format] in *. rewrite Hid in *. auto.
Qed.

End Acceptance.

(* ===================================================================== *)
(** ** The launch of an accepted request *)
(* ===================================================================== *)

Section Launch.
Variable E : env.

(** The example comment resolves to what the classifier says of its
    body. *)
Lemma build_comment_resolves n issue_body w :
  n <> 0%Z ->
  env_extract_adw_info E "adw_build 75de9bea" (env_make_adw_id E (drawn w))
  = inr (Some "adw_build", Some "75de9bea") ->
  resolve_request E (build_comment n issue_body) w
  = (inr (Locals "issue_comment" "created" (Some n) (Some "adw_build")
            (Some "75de9bea") "Comment with adw_build workflow"
            "adw_build 75de9bea"),
     World (store w) (trace w) (S (drawn w))).
Proof.
  intros Hn Hcls.
  unfold resolve_request, build_comment, classify_event, make_adw_id,
    extract_adw_info. unfold_monad.
  cbn [x_github_event json default from_option id p_action p_issue
         p_comment i_number c_body get_default].
  assert (Ht : py_truthy_int (Some n) = true).
  { cbn. by destruct (Z.eqb_spec n 0). }
  rewrite Ht.
  replace (str_in ADW_BOT_IDENTIFIER "adw_build 75de9bea") with false
    by (vm_compute; reflexivity).
  replace (str_in "adw_" (str_lower "adw_build 75de9bea")) with true
    by (vm_compute; reflexivity).
  cbn [String.eqb Ascii.eqb Bool.eqb andb]. rewrite Hcls. reflexivity.
Qed.

(** C7. An accepted request has launched exactly one process: [uv run] of
    the script [<workflow>.py] of the [adws] directory with the issue
    number and the run identifier as its two arguments, from the
    repository root. The workflow is the one the request resolved to,
    which is the classifier's answer on the body of the event; the issue
    number is the payload's; the identifier is the resolved one when
    there is one and a fresh draw otherwise. The answer has the seven
    fields, and carries this workflow, this identifier, the issue number
    and the reason (new issue, or comment, with this workflow). In
    particular, in an environment whose classifier reads ["adw_build
    75de9bea"] as the build workflow with identifier [75de9bea], as the
    example of the spec has it, and whose state, logger and process calls
    for this run do not raise, a created comment with this body on a
    numbered issue is accepted and launches [adw_build.py] with the issue
    number and [75de9bea]. *)
Theorem accepted_launches_workflow_script :
  (forall req w l w1 r w',
      resolve_request E req w = (inr l, w1) ->
      github_webhook E req w = (inr r, w') ->
      is_accepted r = true ->
      exists p body provided workflow adw_id,
        json req = inr p /\
        event_body req p = Some body /\
        env_extract_adw_info E body (env_make_adw_id E (drawn w))
        = inr (Some workflow, provided) /\
        l_workflow l = Some workflow /\
        l_issue_number l = i_number (default (Issue None Absent) (p_issue p)) /\
        match l_provided_adw_id l with
        | Some (String _ _ as id) => adw_id = id
        | _ => adw_id = env_make_adw_id E (drawn w1)
        end /\
        launched (trace w') =
          launched (trace w) ++
          [ ([ "uv"; "run"; path_join (adws_dir E) (workflow +:+ ".py");
               py_str_int (l_issue_number l); adw_id ], repo_root E) ] /\
        keys r = [ "status"; "issue"; "adw_id"; "workflow"; "message";
                   "reason"; "logs" ] /\
        resp_get "issue" r = Some (jint (l_issue_number l)) /\
        resp_get "adw_id" r = Some (JStr adw_id) /\
        resp_get "workflow" r = Some (JStr workflow) /\
        resp_get "reason" r = Some (JStr (l_trigger_reason l)) /\
        (l_trigger_reason l = "New issue with " +:+ workflow +:+ " workflow" \/
         l_trigger_reason l = "Comment with " +:+ workflow +:+ " workflow")) /\
  (forall n issue_body w,
      n <> 0%Z ->
      reads_example_as_build E (env_make_adw_id E (drawn w)) ->
      env_state_read E "75de9bea" = inr tt ->
      env_state_write E "75de9bea" = inr tt ->
      env_setup_logger E "75de9bea" "webhook_trigger" = inr tt ->
      env_popen E [ "uv"; "run"; path_join (adws_dir E) "adw_build.py";
                    pretty n; "75de9bea" ] (repo_root E) = inr tt ->
      exists r w',
        github_webhook E (build_comment n issue_body) w = (inr r, w') /\
        is_accepted r = true /\
        resp_get "issue" r = Some (JInt n) /\
        resp_get "adw_id" r = Some (JStr "75de9bea") /\
        resp_get "workflow" r = Some (JStr "adw_build") /\
        resp_get "reason" r = Some (JStr "Comment with adw_build workflow") /\
        launched (trace w') =
          launched (trace w) ++
          [ ([ "uv"; "run"; path_join (adws_dir E) "adw_build.py";
               pretty n; "75de9bea" ], repo_root E) ]).
Proof.
  split.
  - intros req w l w1 r w' Hres Hrun Hacc.
    destruct (accepted_inv _ _ _ _ _ Hrun Hacc) as (l' & w1' & Hres' & Hwf & Hd).
    rewrite Hres in Hres'. injection Hres' as <- <-.
    destruct (resolve_request_frame _ _ _ _ _ Hres) as (_ & Hl & _).
    apply dispatch_launch in Hd as [(e & He & _) | [Hr Hla]];
      [discriminate| |exact Hwf].
    injection Hr as ->. rewrite Hl in Hla.
    rewrite resolve_request_unfold in Hres.
    destruct (classify_event E req w) as [[e|l0] w0] eqn:Hc; [discriminate|].
    destruct (resolve_adw_id_workflow _ _ _ _ _ Hres Hwf) as [Hw0 Hr0].
    destruct (resolve_adw_id_frame E l0 w0)
      as (l2 & w2 & Hr' & _ & _ & _ & _ & _ & Hn).
    rewrite Hres in Hr'. injection Hr' as <- <-.
    assert (Hwf0 : py_truthy (l_workflow l0) = true) by (by rewrite <- Hw0).
    destruct (classify_event_workflow_inv _ _ _ _ _ Hc Hwf0)
      as (p & body & Hjs & _ & _ & Hnum & Hbody & _ & _ & Hx).
    pose proof (classify_event_reason _ _ _ _ _ Hc Hwf0) as Hreason.
    destruct (l_workflow l0) as [wf|] eqn:Hwf1; [|discriminate].
    rewrite Hw0 in Hla |- *. cbn [py_format] in *.
    exists p, body, (l_provided_adw_id l0), wf, (dispatch_adw_id E l w1).
    split; [exact Hjs|]. split; [exact Hbody|]. split; [exact Hx|].
    split; [reflexivity|]. split; [by rewrite Hn|].
    split.
    { unfold dispatch_adw_id. by destruct (l_provided_adw_id l) as [[|a id]|]. }
    split; [exact Hla|].
    repeat (split; [reflexivity|]).
    rewrite Hr0. exact Hreason.
  - intros n issue_body w Hn Hcls Hread Hwrite Hlog Hpopen.
    rewrite github_webhook_unfold, github_webhook_try_unfold.
    rewrite (build_comment_resolves _ _ _ Hn Hcls).
    unfold dispatch. cbn [l_workflow l_provided_adw_id l_issue_number
      l_trigger_reason py_truthy py_format py_str_int].
    unfold mbind, M_bind, bind. unfold mret at 1, M_ret, ret.
    rewrite init_state_run, Hread. cbn zeta.
    unfold setup_logger, subprocess_Popen, workflow_cmd.
    cbn [py_str_int].
    replace ("adw_build" +:+ ".py") with "adw_build.py" by reflexivity.
    destruct (py_truthy (data_get _ "branch_name")); [|rewrite Hwrite];
      unfold_monad; rewrite Hlog, try_issue_comment_run, Hpopen;
      eexists _, _; (split; [reflexivity|]);
      destruct (env_make_issue_comment E _ _); trace_simpl;
      repeat (split; [reflexivity|]); reflexivity.
Qed.

End Launch.

(** The example of the spec: the comment ["adw_build 75de9bea"] on issue 7
    is accepted and launches [adw_build.py] with [7] and [75de9bea]. *)
Lemma accepted_launch_witness :
  exists r w',
    github_webhook example_env (build_comment 7 (Val "Add login")) empty_world
    = (inr r, w') /\
    is_accepted r = true /\
    resp_get "adw_id" r = Some (JStr "75de9bea") /\
    resp_get "workflow" r = Some (JStr "adw_build") /\
    launched (trace w')
    = [ ([ "uv"; "run"; "/srv/app/adws/adw_build.py"; "7"; "75de9bea" ],
         "/srv/app") ].
Proof.
  destruct (proj2 (accepted_launches_workflow_script example_env)
              7%Z (Val "Add login") empty_world)
    as (r & w' & Hrun & Hacc & _ & Hid & Hwf & _ & Hl);
    [ discriminate | reflexivity | reflexivity | reflexivity | reflexivity
    | reflexivity | ].
  exists r, w'. repeat (split; [assumption|]). exact Hl.
Defined.

(** The example build comment is accepted: it is a created comment on issue
    7 with the trigger substring and no marker. *)
Lemma accepted_only_if_triggered_witness :
  exists body,
    event_body (build_comment 7 (Val "Add login"))
      (Payload (Some "created") (Some (Issue (Some 7%Z) (Val "Add login")))
         (Some (Comment (Val "adw_build 75de9bea")))) = Some body /\
    str_in "adw_" (str_lower body) = true.
Proof.
  edestruct (accepted_only_if_triggered example_env
               (build_comment 7 (Val "Add login")) empty_world)
    as (p & body & wf & pid & Hjs & _ & _ & Hb & Ht & _);
    [ vm_compute; reflexivity | reflexivity | ].
  inversion Hjs; subst p. exists body. split; [exact Hb | exact Ht].
Defined.

(** A bare [adw_build] comment on the issue of the example comments runs
    under the identifier recovered from them. *)
Lemma recovered_id_is_dispatched_witness :
  is_uuid uuid_a = true /\
  launched (trace (github_webhook example_env
                     (comment_created (Val "adw_build")) empty_world).2)
  = [ ([ "uv"; "run"; "/srv/app/adws/adw_build.py"; "7"; uuid_a ], "/srv/app") ].
Proof.
  edestruct (recovered_id_is_dispatched example_env
               (comment_created (Val "adw_build")) empty_world)
    as (Hu & _ & Hl);
    [ vm_compute; reflexivity | reflexivity | reflexivity
    | rewrite find_latest_run; vm_compute; reflexivity
    | vm_compute; reflexivity | reflexivity | ].
  split; [exact Hu|].
  etransitivity; [|exact Hl]. vm_compute. reflexivity.
Defined.

(* ===================================================================== *)
(** ** Beyond the claims: the matcher against the declarative semantics *)
(* ===================================================================== *)

Section MatcherCompleteness.
Context {R : Type}.

Lemma exec_spaces_fallback (k : list ascii -> option R) s :
  is_Some (k s) -> is_Some (exec_spaces k s).
Proof.
  intros Hk. rewrite exec_spaces_eq.
  destruct (space_width s); [exact Hk|]. by destruct (exec_spaces k _).
Qed.

Lemma exec_spaces_complete (k : list ascii -> option R) u s' :
  all_space u = true ->
  is_Some (k s') -> is_Some (exec_spaces k (u ++ s')).
Proof.
  intros Hu Hk. induction u as [u H0|u Hn IH] using spaces_ind;
    rewrite all_space_eq in Hu.
  - rewrite H0 in Hu. destruct u; [|discriminate].
    by apply exec_spaces_fallback.
  - pose proof (space_width_le u) as Hle.
    rewrite exec_spaces_eq, space_width_app by exact Hn.
    destruct (space_width u) as [|n] eqn:Hw; [done|].
    rewrite drop_app_le by lia.
    destruct (IH Hu) as [x ->]. eauto.
Qed.

(** A word of the expression is found by the matcher, whenever the
    continuation accepts what follows the word. *)
Lemma exec_complete r :
  forall u s' g (k : list ascii -> option (list ascii) -> option R),
    matches r u ->
    (forall g', is_Some (k s' g')) ->
    is_Some (exec r (u ++ s') g k).
Proof.
  induction r as [ | c | p | r1 IH1 r2 IH2 | r1 IH1 r2 IH2 | | r1 IH1 ];
    simpl; intros u s' g k Hm Hk.
  - subst u. apply Hk.
  - subst u. simpl. rewrite (proj2 (Ascii.eqb_eq c c) eq_refl). apply Hk.
  - destruct Hm as (c & -> & Hp). simpl. rewrite Hp. apply Hk.
  - destruct Hm as (u1 & u2 & -> & Hm1 & Hm2). rewrite <- app_assoc.
    apply IH1; [exact Hm1|]. intros g'. by apply IH2.
  - destruct Hm as [Hm|Hm].
    + destruct (IH1 u s' g k Hm Hk) as [x ->]. eauto.
    + destruct (exec r1 (u ++ s') g k); [eauto|]. by apply IH2.
  - apply exec_spaces_complete; [exact Hm|apply Hk].
  - apply IH1; [exact Hm|]. intros g'. apply Hk.
Qed.

End MatcherCompleteness.

Lemma groups_in_trivial r : groups_in (fun _ => True) r.
Proof. induction r; simpl; auto. Qed.

(** [re.search] finds a match exactly when some part of the text is a word
    of the expression. *)
Lemma re_search_from_spec r s :
  is_Some (re_search_from r s) <->
  exists a u b, s = a ++ u ++ b /\ matches r u.
Proof.
  split.
  - induction s as [|c s IH]; simpl.
    + destruct (re_match_at r []) as [m|] eqn:Hm; [|by intros [? ?]].
      intros _. unfold re_match_at in Hm.
      eapply exec_sound in Hm as (u & s' & g' & Hs & Hu & _);
        [|apply groups_in_trivial|exact I].
      exists [], u, s'. auto.
    + destruct (re_match_at r (c :: s)) as [m|] eqn:Hm.
      * intros _. unfold re_match_at in Hm.
        eapply exec_sound in Hm as (u & s' & g' & Hs & Hu & _);
          [|apply groups_in_trivial|exact I].
        exists [], u, s'. auto.
      * intros H. destruct (IH H) as (a & u & b & -> & Hu).
        exists (c :: a), u, b. auto.
  - intros (a & u & b & -> & Hu). induction a as [|c a IH].
    + assert (Hm : is_Some (re_match_at r (u ++ b))).
      { unfold re_match_at. apply exec_complete; [exact Hu|]. intros g'. eauto. }
      destruct Hm as [m Hm]. destruct u, b; simpl in *; rewrite Hm; eauto.
    + simpl. destruct (re_match_at r (c :: a ++ u ++ b)); [eauto|exact IH].
Qed.

Lemma first_pattern_match_is_none ps s :
  first_pattern_match ps s = None -> Forall (fun p => re_search p s = None) ps.
Proof.
  induction ps as [|p ps IH]; simpl; [constructor|].
  destruct (re_search p s) eqn:Hp; [discriminate|]. auto.
Qed.

Lemma matches_cat_app r1 r2 u1 u2 :
  matches r1 u1 -> matches r2 u2 -> matches (Cat r1 r2) (u1 ++ u2).
Proof. simpl. eauto. Qed.

Lemma matches_lit s : matches (lit s) (list_ascii_of_string s).
Proof.
  induction s as [|c s IH]; simpl; [done|]. exists [c], (list_ascii_of_string s). auto.
Qed.

Lemma matches_rep_cls p n u :
  length u = n -> forallb p u = true -> matches (rep n (Cls p)) u.
Proof.
  revert u. induction n as [|n IH]; intros [|c u] Hl Hu; simpl in *; try discriminate.
  - reflexivity.
  - apply andb_true_iff in Hu as [Hc Hu]. exists [c], u. split; [done|].
    split; [eauto|]. apply IH; [lia|exact Hu].
Qed.


Lemma list_ascii_app (s1 s2 : string) :
  list_ascii_of_string (s1 +:+ s2) = list_ascii_of_string s1 ++ list_ascii_of_string s2.
Proof.
  induction s1 as [|c s1 IH]; [reflexivity|].
  change (c :: list_ascii_of_string (s1 +:+ s2)
          = c :: (list_ascii_of_string s1 ++ list_ascii_of_string s2)).
  by rewrite IH.
Qed.

Lemma matches_cat_split n r1 r2 (u : list ascii) :
  matches r1 (take n u) -> matches r2 (drop n u) -> matches (Cat r1 r2) u.
Proof.
  intros H1 H2. rewrite <- (take_drop n u). by apply matches_cat_app.
Qed.

(** The words of the identifier expression are exactly the texts of the
    8-4-4-4-12 shape. *)
Lemma uuid_shape_matches u : uuid_from 0 u = true -> matches uuid_re u.
Proof.
  intros H. pose proof (uuid_from_length _ _ H) as Hl. simpl in Hl.
  do 36 (destruct u as [|? u]; [simpl in Hl; lia|]).
  destruct u; [|simpl in Hl; lia]. clear Hl.
  cbn [uuid_from Nat.eqb orb] in H.
  repeat (apply andb_true_iff in H as [? H]).
  repeat match goal with
         | H : Ascii.eqb _ _ = true |- _ => apply Ascii.eqb_eq in H; subst
         end.
  assert (Hhex : forall n l, length l = n -> forallb is_hex_lower l = true ->
                             matches (rep n (Cls is_hex_lower)) l)
    by (intros; by apply matches_rep_cls).
  unfold uuid_re, re_seq. cbn [fold_right].
  apply (matches_cat_split 8); cbn [take drop].
  { apply Hhex; [reflexivity|]. cbn [forallb].
    repeat match goal with H : is_hex_lower _ = true |- _ => rewrite H; clear H end.
    reflexivity. }
  apply (matches_cat_split 15); cbn [take drop].
  { set (X := Cat (Chr "-") (rep 4 (Cls is_hex_lower))).
    change (rep 3 X) with (Cat X (Cat X (Cat X Eps))). subst X.
    repeat (apply (matches_cat_split 5); cbn [take drop];
            [ apply (matches_cat_split 1); cbn [take drop];
              [ exact eq_refl
              | apply Hhex; [reflexivity|]; cbn [forallb];
                repeat match goal with
                       | H : is_hex_lower _ = true |- _ => rewrite H; clear H
                       end; reflexivity ]
            | ]).
    exact eq_refl. }
  apply (matches_cat_split 1); cbn [take drop]; [exact eq_refl|].
  apply (matches_cat_split 12); cbn [take drop]; [|exact eq_refl].
  apply Hhex; [reflexivity|]. cbn [forallb].
  repeat match goal with H : is_hex_lower _ = true |- _ => rewrite H; clear H end.
  reflexivity.
Qed.

Lemma matches_re_seq rs us :
  Forall2 matches rs us -> matches (re_seq rs) (concat us).
Proof.
  induction 1 as [|r u rs us Hr _ IH]; simpl; [done|]. eauto.
Qed.

Lemma forallb_space_many ws :
  forallb is_space (list_ascii_of_string ws) = true ->
  matches Spaces (list_ascii_of_string ws).
Proof. apply forallb_all_space. Qed.

Lemma agent_name_matches agent :
  In agent agent_names ->
  matches (re_alt (lit "ops")
             [ lit "sdlc_planner"; lit "sdlc_implementor"; lit "adw_classifier" ])
    (list_ascii_of_string agent).
Proof.
  unfold agent_names. simpl.
  intros [<- | [<- | [<- | [<- | []]]]].
  - left. apply (matches_lit "ops").
  - right. left. apply (matches_lit "sdlc_planner").
  - right. right. left. apply (matches_lit "sdlc_implementor").
  - right. right. right. apply (matches_lit "adw_classifier").
Qed.

(** A mention of a full identifier is a word of one of the patterns. *)
Ltac solve_piece :=
  first [ assumption
        | apply matches_lit
        | by apply forallb_space_many
        | by apply agent_name_matches
        | exact eq_refl ].

Lemma mention_matches id u :
  is_uuid id = true -> mention id u ->
  exists p, In p patterns /\ matches p (list_ascii_of_string u).
Proof.
  intros Hid Hm. apply uuid_shape_matches in Hid.
  destruct Hm as [ws Hws | ws Hws | agent Hag].
  - exists json_pattern. split; [simpl; auto|]. unfold json_pattern.
    replace (list_ascii_of_string _)
      with (concat [ [dquote]; list_ascii_of_string "adw_id"; [dquote]; [":"%char];
                     list_ascii_of_string ws; [dquote];
                     list_ascii_of_string id; [dquote] ])
      by (rewrite !list_ascii_app; reflexivity).
    apply matches_re_seq.
    repeat match goal with |- Forall2 _ _ _ => constructor end; solve_piece.
  - exists explicit_pattern. split; [simpl; auto|]. unfold explicit_pattern.
    replace (list_ascii_of_string _)
      with (concat [ list_ascii_of_string "adw_id:"; list_ascii_of_string ws;
                     list_ascii_of_string id ])
      by (cbn [concat]; rewrite app_nil_r, !list_ascii_app; reflexivity).
    apply matches_re_seq.
    repeat match goal with |- Forall2 _ _ _ => constructor end; solve_piece.
  - exists prefix_pattern. split; [simpl; auto|]. unfold prefix_pattern.
    replace (list_ascii_of_string _)
      with (concat [ list_ascii_of_string id; ["_"%char];
                     list_ascii_of_string agent; [":"%char] ])
      by (rewrite !list_ascii_app; reflexivity).
    apply matches_re_seq.
    repeat match goal with |- Forall2 _ _ _ => constructor end; solve_piece.
Qed.

Lemma scan_comments_complete comments c p :
  In c comments -> In p patterns ->
  is_Some (re_search p (default "" (c !! "body"))) ->
  exists id, scan_comments comments = Some id /\ is_uuid id = true.
Proof.
  intros Hc Hp Hs. induction comments as [|c0 cs IH]; [destruct Hc|].
  rewrite scan_comments_cons.
  destruct (first_pattern_match patterns (default "" (c0 !! "body"))) as [m|] eqn:Hm.
  - apply first_pattern_match_in in Hm as (p0 & Hp0 & Hs0).
    destruct (re_search_group _ _ _ Hp0 Hs0) as [id Hid].
    exists id. split; [exact Hid|]. eapply re_search_uuid; eauto.
  - destruct Hc as [-> | Hc]; [|auto].
    apply first_pattern_match_is_none in Hm.
    rewrite Forall_forall in Hm. apply list_elem_of_In in Hp.
    rewrite (Hm _ Hp) in Hs. by destruct Hs.
Qed.

Section RecoveryCompleteness.
Variable E : env.

(** Recovery finds what is there: when some comment of the issue mentions
    a full-shape identifier in one of the three ways, anywhere in its
    body, recovery returns an identifier, and one of the full shape. *)
Theorem mentioned_id_is_recovered issue_number w path comments c id u a b :
  env_extract_repo_path E = inr (Some path) ->
  py_truthy (Some path) = true ->
  env_fetch_issue_comments E path issue_number = inr comments ->
  In c comments ->
  is_uuid id = true ->
  mention id u ->
  default "" (c !! "body") = a +:+ u +:+ b ->
  exists id',
    find_latest_adw_id_in_issue E issue_number w = (inr (Some id'), w) /\
    is_uuid id' = true.
Proof.
  intros Hrepo Hpath Hfetch Hc Hid Hm Hbody.
  destruct (mention_matches _ _ Hid Hm) as (p & Hp & Hmat).
  assert (Hs : is_Some (re_search p (default "" (c !! "body")))).
  { unfold re_search. apply re_search_from_spec. rewrite Hbody, !list_ascii_app.
    eauto. }
  destruct (scan_comments_complete _ _ _ Hc Hp Hs) as (id' & Hscan & Hu).
  exists id'. split; [|exact Hu].
  rewrite find_latest_run, Hrepo. destruct path; [discriminate|].
  by rewrite Hfetch, Hscan.
Qed.

End RecoveryCompleteness.

(** The planner comment of the example issue mentions [uuid_b] as prefix. *)
Lemma mentioned_id_witness :
  exists id',
    find_latest_adw_id_in_issue example_env (Some 7%Z) empty_world
    = (inr (Some id'), empty_world) /\
    is_uuid id' = true.
Proof.
  eapply (mentioned_id_is_recovered example_env (Some 7%Z) empty_world
            "owner/repo" example_comments
            {[ "body" := uuid_b +:+ "_sdlc_planner: plan ready, adw_id: " +:+ uuid_a ]}
            uuid_b (uuid_b +:+ "_" +:+ "sdlc_planner" +:+ ":")
            "" (" plan ready, adw_id: " +:+ uuid_a)).
  - reflexivity.
  - reflexivity.
  - reflexivity.
  - right. left. reflexivity.
  - vm_compute. reflexivity.
  - apply mention_prefix. right. left. reflexivity.
  - vm_compute. reflexivity.
Defined.

(* ===================================================================== *)
(** ** Beyond the claims: where a recovered identifier comes from *)
(* ===================================================================== *)

(** What the matcher captures is a part of the text it runs on. *)
Lemma exec_capture_infix {R : Type} r :
  forall s g (k : list ascii -> option (list ascii) -> option R) x,
    exec r s g k = Some x ->
    exists s' g',
      k s' g' = Some x /\
      (exists u, s = u ++ s') /\
      (g' = g \/ exists a u b, g' = Some u /\ s = a ++ u ++ b).
Proof.
  induction r as [ | c | p | r1 IH1 r2 IH2 | r1 IH1 r2 IH2 | | r1 IH1 ];
    simpl; intros s g k x H.
  - exists s, g. repeat split; auto. by exists [].
  - destruct s as [|c' s]; [done|]. destruct (Ascii.eqb c c'); [|done].
    exists s, g. repeat split; auto. by exists [c'].
  - destruct s as [|c' s]; [done|]. destruct (p c'); [|done].
    exists s, g. repeat split; auto. by exists [c'].
  - apply IH1 in H as (s1 & g1 & H & [u1 ->] & Hg1).
    apply IH2 in H as (s2 & g2 & H & [u2 ->] & Hg2).
    exists s2, g2. split; [exact H|]. split.
    + exists (u1 ++ u2). by rewrite app_assoc.
    + destruct Hg2 as [-> | (a & u & b & -> & Hs)]; [exact Hg1|].
      right. exists (u1 ++ a), u, b. split; [done|].
      by rewrite Hs, <- !app_assoc.
  - destruct (exec r1 s g k) as [y|] eqn:H1.
    + inversion H; subst y. by apply IH1.
    + by apply IH2.
  - apply exec_spaces_sound in H as (u & s' & -> & _ & H).
    exists s', g. repeat split; eauto.
  - apply IH1 in H as (s' & g' & H & [u ->] & _).
    rewrite length_app, Nat.add_sub, take_app_length in H.
    exists s', (Some u). repeat split; eauto.
    right. by exists [], u, s'.
Qed.

Lemma re_search_from_infix r s m id :
  re_search_from r s = Some m -> group1 m = Some id ->
  exists a b, s = a ++ list_ascii_of_string id ++ b.
Proof.
  assert (Hat : forall l, re_match_at r l = Some m -> group1 m = Some id ->
                          exists a b, l = a ++ list_ascii_of_string id ++ b).
  { intros l H Hid. unfold re_match_at in H.
    apply exec_capture_infix in H as (s' & g' & H & _ & Hg).
    inversion H; subst m. simpl in Hid.
    destruct Hg as [-> | (a & u & b & -> & ->)]; [discriminate|].
    inversion Hid. rewrite list_ascii_of_string_of_list_ascii. eauto. }
  induction s as [|c s IH]; simpl; intros H Hid.
  - destruct (re_match_at r []) eqn:Hm; [|done]. inversion H; subst. eauto.
  - destruct (re_match_at r (c :: s)) eqn:Hm.
    + inversion H; subst. eauto.
    + destruct (IH H Hid) as (a & b & ->). by exists (c :: a), b.
Qed.

Lemma string_of_list_app (l1 l2 : list ascii) :
  string_of_list_ascii (l1 ++ l2)
  = string_of_list_ascii l1 +:+ string_of_list_ascii l2.
Proof.
  induction l1 as [|c l1 IH]; [reflexivity|].
  change (String c (string_of_list_ascii (l1 ++ l2))
          = String c (string_of_list_ascii l1 +:+ string_of_list_ascii l2)).
  by rewrite IH.
Qed.

(** [needle in hay] holds when the characters of [needle] stand somewhere
    in [hay]. *)
Lemma str_in_infix needle hay a b :
  list_ascii_of_string hay = a ++ list_ascii_of_string needle ++ b ->
  str_in needle hay = true.
Proof.
  intros H. rewrite <- (string_of_list_ascii_of_string hay), H. clear H.
  induction a as [|c a IH].
  - cbn [app]. rewrite string_of_list_app, string_of_list_ascii_of_string.
    apply str_in_prefix, prefix_append.
  - change (str_in needle (String c (string_of_list_ascii
                                      (a ++ list_ascii_of_string needle ++ b))) = true).
    cbn [str_in]. rewrite IH. apply orb_true_r.
Qed.

Lemma scan_comments_source comments id :
  scan_comments comments = Some id ->
  exists c, In c comments /\ str_in id (default "" (c !! "body")) = true.
Proof.
  induction comments as [|c cs IH]; [done|]. rewrite scan_comments_cons.
  destruct (first_pattern_match patterns (default "" (c !! "body"))) as [m|] eqn:Hm.
  - intros Hid. apply first_pattern_match_in in Hm as (p & _ & Hs).
    unfold re_search in Hs.
    destruct (re_search_from_infix _ _ _ _ Hs Hid) as (a & b & Hab).
    exists c. split; [by left|]. eapply str_in_infix; eauto.
  - intros H. destruct (IH H) as (c' & ? & ?). exists c'. split; [by right|done].
Qed.

Section RecoverySource.
Variable E : env.

(** Recovery invents nothing: an identifier it returns stands, character
    for character, in the body of one of the fetched comments. *)
Theorem recovered_id_is_read_from_comment issue_number w w' id :
  find_latest_adw_id_in_issue E issue_number w = (inr (Some id), w') ->
  exists path comments c,
    env_extract_repo_path E = inr (Some path) /\
    env_fetch_issue_comments E path issue_number = inr comments /\
    In c comments /\
    str_in id (default "" (c !! "body")) = true.
Proof.
  rewrite find_latest_run. intros H.
  destruct (env_extract_repo_path E) as [e|[[|a path]|]]; try discriminate.
  destruct (env_fetch_issue_comments E _ issue_number) as [e|cs] eqn:Hf;
    [discriminate|].
  inversion H as [[Hs Hw]].
  destruct (scan_comments_source _ _ Hs) as (c & Hc & Hin).
  exists (String a path), cs, c. auto.
Qed.

End RecoverySource.

(** The identifier recovered from the example comments stands in one of
    them. *)
Lemma recovered_id_source_witness :
  exists c, In c example_comments /\ str_in uuid_a (default "" (c !! "body")) = true.
Proof.
  destruct (recovered_id_is_read_from_comment example_env (Some 7%Z)
              empty_world empty_world uuid_a)
    as (path & comments & c & _ & Hf & Hc & Hin).
  - rewrite find_latest_run. vm_compute. reflexivity.
  - inversion Hf; subst comments. exists c. split; [exact Hc | exact Hin].
Defined.

(* ===================================================================== *)
(** ** Beyond the claims: the health endpoint *)
(* ===================================================================== *)

Lemma plain_line_inv line :
  plain_line line = true ->
  str_in WARNINGS_HEADING line = false /\
  str_in ERRORS_HEADING line = false /\
  str_in NEXT_STEPS_HEADING line = false.
Proof.
  unfold plain_line. intros H.
  apply andb_true_iff in H as [H H3]. apply andb_true_iff in H as [H1 H2].
  by rewrite (negb_true_iff _), (negb_true_iff _), (negb_true_iff _) in *.
Qed.

(** One step of the loop on a line that is no heading. *)
Lemma scan_health_lines_plain line rest cw ce ws es :
  plain_line line = true ->
  scan_health_lines (line :: rest) cw ce ws es =
  scan_health_lines rest cw ce
    (ws ++ (if cw then items_of [line] else []))
    (es ++ (if ce && negb cw then items_of [line] else [])).
Proof.
  intros H. destruct (plain_line_inv _ H) as (H1 & H2 & H3).
  cbn [scan_health_lines]. rewrite H1, H2, H3.
  unfold items_of, item_of. cbn [List.filter]. fold (is_dash_line line).
  destruct cw, ce, (is_dash_line line); cbn [andb negb map]; rewrite ?app_nil_r;
    reflexivity.
Qed.

Lemma items_of_app ls1 ls2 : items_of (ls1 ++ ls2) = items_of ls1 ++ items_of ls2.
Proof. unfold items_of. by rewrite List.filter_app, map_app. Qed.

(** The loop over lines that are no headings: the dash lines are collected
    into the list of the section being captured, the other lines are
    skipped. *)
Lemma scan_health_lines_plain_app ls rest cw ce ws es :
  Forall (fun l => plain_line l = true) ls ->
  scan_health_lines (ls ++ rest) cw ce ws es =
  scan_health_lines rest cw ce
    (ws ++ (if cw then items_of ls else []))
    (es ++ (if ce && negb cw then items_of ls else [])).
Proof.
  intros H. revert ws es. induction H as [|l ls Hl _ IH]; intros ws es.
  - cbn [app]. unfold items_of. cbn. by destruct cw, ce; rewrite !app_nil_r.
  - cbn [app]. rewrite scan_health_lines_plain by exact Hl. rewrite IH.
    change (l :: ls) with ([l] ++ ls). rewrite items_of_app.
    destruct cw, ce; cbn [andb negb]; by rewrite <- ?app_assoc, ?app_nil_r.
Qed.

(** The loop ends at the next-steps line: what follows it is not read. *)
Theorem health_scan_stops_at_next_steps ls line rest cw ce ws es :
  str_in NEXT_STEPS_HEADING line = true ->
  str_in WARNINGS_HEADING line = false ->
  str_in ERRORS_HEADING line = false ->
  scan_health_lines (ls ++ line :: rest) cw ce ws es
  = scan_health_lines (ls ++ [line]) cw ce ws es.
Proof.
  intros H3 H1 H2. revert cw ce ws es.
  induction ls as [|l ls IH]; intros cw ce ws es.
  - cbn [app scan_health_lines]. by rewrite H1, H2, H3.
  - cbn [app scan_health_lines].
    repeat match goal with |- context [if ?b then _ else _] =>
      destruct b; try reflexivity; try apply IH end.
Qed.

(** Nothing is collected outside a section: an output without a warnings
    or errors heading gives no warning and no error, whatever dash lines
    it has. *)
Theorem health_needs_a_heading stdout :
  Forall (fun l => str_in WARNINGS_HEADING l = false /\
                   str_in ERRORS_HEADING l = false)
         (py_split_nl (py_strip stdout)) ->
  parse_health_output stdout = ([], []).
Proof.
  unfold parse_health_output. generalize (py_split_nl (py_strip stdout)).
  intros ls H. induction H as [|l ls [H1 H2] _ IH]; [reflexivity|].
  cbn [scan_health_lines andb]. rewrite H1, H2.
  destruct (str_in NEXT_STEPS_HEADING l); [reflexivity|exact IH].
Qed.

(** The two sections of a report: with the lines of the stripped output
    being a preamble, the warnings heading, lines, the errors heading,
    lines, the next-steps heading and anything after it, the warnings are
    the items of the dash lines of the first section and the errors those
    of the second, in order; the preamble, the lines without a dash and
    what follows the next-steps heading contribute nothing. *)
Theorem health_sections stdout pre hw wl he el hn rest :
  py_split_nl (py_strip stdout) = pre ++ hw :: wl ++ he :: el ++ hn :: rest ->
  Forall (fun l => plain_line l = true) pre ->
  str_in WARNINGS_HEADING hw = true ->
  Forall (fun l => plain_line l = true) wl ->
  str_in WARNINGS_HEADING he = false ->
  str_in ERRORS_HEADING he = true ->
  Forall (fun l => plain_line l = true) el ->
  plain_line hn = false ->
  str_in WARNINGS_HEADING hn = false ->
  str_in ERRORS_HEADING hn = false ->
  parse_health_output stdout = (items_of wl, items_of el).
Proof.
  intros Hsplit Hpre Hhw Hwl Hhe1 Hhe2 Hel Hhn Hhn1 Hhn2.
  unfold parse_health_output. rewrite Hsplit.
  rewrite scan_health_lines_plain_app by exact Hpre.
  cbn [andb app scan_health_lines]. rewrite Hhw.
  rewrite scan_health_lines_plain_app by exact Hwl.
  cbn [andb negb app scan_health_lines]. rewrite Hhe1, Hhe2.
  rewrite scan_health_lines_plain_app by exact Hel.
  cbn [andb negb app scan_health_lines]. rewrite Hhn1, Hhn2.
  unfold plain_line in Hhn. rewrite Hhn1, Hhn2 in Hhn. cbn [negb andb] in Hhn.
  apply negb_false_iff in Hhn. rewrite Hhn. by rewrite !app_nil_r.
Qed.

Lemma scan_health_lines_bound ls cw ce ws es :
  let out := scan_health_lines ls cw ce ws es in
  length out.1 + length out.2
  <= length ws + length es + length (List.filter is_dash_line ls) /\
  (exists ws', out.1 = ws ++ ws') /\ (exists es', out.2 = es ++ es').
Proof.
  cbn zeta. revert cw ce ws es.
  induction ls as [|l ls IH]; intros cw ce ws es.
  - cbn. split; [lia|]. split; exists []; by rewrite app_nil_r.
  - cbn [scan_health_lines List.filter]. fold (is_dash_line l).
    destruct (str_in WARNINGS_HEADING l).
    { destruct (IH true false ws es) as (? & ? & ?).
      split; [destruct (is_dash_line l); simpl; lia|auto]. }
    destruct (str_in ERRORS_HEADING l).
    { destruct (IH false true ws es) as (? & ? & ?).
      split; [destruct (is_dash_line l); simpl; lia|auto]. }
    destruct (str_in NEXT_STEPS_HEADING l).
    { cbn. split; [lia|]. split; exists []; by rewrite app_nil_r. }
    destruct (is_dash_line l) eqn:Hd; rewrite ?andb_true_r, ?andb_false_r.
    + destruct cw; [|destruct ce].
      * destruct (IH true ce (ws ++ [py_drop 2 (py_strip l)]) es) as (Hb & [w' Hw] & He).
        rewrite length_app in Hb. cbn [length] in *.
        split; [lia|]. split; [|exact He]. exists ([py_drop 2 (py_strip l)] ++ w').
        by rewrite Hw, app_assoc.
      * destruct (IH false true ws (es ++ [py_drop 2 (py_strip l)])) as (Hb & Hw & [e' He]).
        rewrite length_app in Hb. cbn [length] in *.
        split; [lia|]. split; [exact Hw|]. exists ([py_drop 2 (py_strip l)] ++ e').
        by rewrite He, app_assoc.
      * destruct (IH false false ws es) as (? & ? & ?). cbn [length]. split; [lia|auto].
    + destruct (IH cw ce ws es) as (? & ? & ?). split; [lia|auto].
Qed.

(** A dash line is reported at most once: the warnings and the errors
    together are no more than the lines of the output that start, once
    stripped, with a dash. *)
Theorem health_reports_each_line_once stdout :
  length (parse_health_output stdout).1 + length (parse_health_output stdout).2
  <= length (List.filter is_dash_line (py_split_nl (py_strip stdout))).
Proof.
  unfold parse_health_output.
  destruct (scan_health_lines_bound (py_split_nl (py_strip stdout)) false false [] [])
    as [H _]. cbn zeta in H. cbn [length] in H. lia.
Qed.

(** Whitespace that is not ASCII is stripped too: a dash line indented
    with a no-break space, and one followed by it, are both reported,
    without it. *)
Example parse_health_nbsp :
  parse_health_output example_health_output_nbsp = ([ "first"; "plain" ], []).
Proof. vm_compute. reflexivity. Qed.

Section Health.
Variable run : list string -> string -> run_outcome.
Variable adws : string.

(** The answer says healthy exactly when the check ran to completion with
    return code 0, whatever warnings or errors its output lists; a timeout
    or any other exception gives an unhealthy answer with an error text
    and no health_check object. *)
Theorem health_status_follows_return_code :
  (hget "status" (health run adws) = Some (HStr "healthy") <->
   exists stdout stderr,
     run (health_check_cmd adws) adws = Completed stdout stderr 0) /\
  (hget "status" (health run adws) = Some (HStr "healthy") \/
   hget "status" (health run adws) = Some (HStr "unhealthy")) /\
  hget "service" (health run adws) = Some (HStr "adw-webhook-trigger") /\
  (forall stdout stderr returncode,
      run (health_check_cmd adws) adws = Completed stdout stderr returncode ->
      hget "error" (health run adws) = None /\
      hget "health_check" (health run adws)
      = Some (HObj [ ("success", HBool (returncode =? 0)%Z);
                     ("warnings", HList (parse_health_output stdout).1);
                     ("errors", HList (parse_health_output stdout).2);
                     ("details", HStr "Run health_check.py directly for full report") ])) /\
  (run (health_check_cmd adws) adws = TimeoutExpired ->
   hget "error" (health run adws) = Some (HStr "Health check timed out") /\
   hget "health_check" (health run adws) = None) /\
  (forall message,
      run (health_check_cmd adws) adws = RunFailed message ->
      hget "error" (health run adws)
      = Some (HStr ("Health check failed: " +:+ message)) /\
      hget "health_check" (health run adws) = None).
Proof.
  unfold health.
  destruct (run (health_check_cmd adws) adws) as [out err rc| |msg] eqn:Hrun.
  - destruct (parse_health_output out) as [ws es] eqn:Hp.
    split; [|split; [|split; [|split; [|split]]]].
    + destruct (Z.eqb_spec rc 0) as [->|Hrc]; cbn.
      * split; eauto.
      * split; [discriminate|]. intros (? & ? & [= _ _ ?]). done.
    + destruct (rc =? 0)%Z; cbn; auto.
    + reflexivity.
    + intros ? ? ? [= <- _ <-]. rewrite Hp. split; reflexivity.
    + discriminate.
    + discriminate.
  - split; [|split; [|split; [|split; [|split]]]]; cbn.
    + split; [discriminate|]. intros (? & ? & [=]).
    + auto.
    + reflexivity.
    + discriminate.
    + auto.
    + discriminate.
  - split; [|split; [|split; [|split; [|split]]]]; cbn.
    + split; [discriminate|]. intros (? & ? & [=]).
    + auto.
    + reflexivity.
    + discriminate.
    + discriminate.
    + intros ? [= <-]. auto.
Qed.

End Health.

(** The lines of the example output. *)
Lemma example_health_lines :
  py_split_nl (py_strip example_health_output)
  = [ "ADW health check"; "- not an item: no section yet" ]
    ++ WARNINGS_HEADING
    :: [ "   - GitHub token close to expiry  "; "   details follow" ]
    ++ ERRORS_HEADING
    :: [ "   - uv not found"; "   - gh not authenticated" ]
    ++ NEXT_STEPS_HEADING :: [ "   - install uv" ].
Proof. vm_compute. reflexivity. Qed.

Ltac all_lines :=
  repeat match goal with |- Forall _ _ => constructor end; vm_compute; reflexivity.

(** The example output has one warning and two errors; the dash line of
    the preamble and the one after the next-steps heading are not
    reported. *)
Lemma health_sections_witness :
  parse_health_output example_health_output
  = ([ "GitHub token close to expiry" ],
     [ "uv not found"; "gh not authenticated" ]).
Proof.
  rewrite (health_sections example_health_output _ _ _ _ _ _ _
             example_health_lines);
    [ vm_compute; reflexivity | all_lines | vm_compute; reflexivity | all_lines
    | vm_compute; reflexivity | vm_compute; reflexivity | all_lines
    | vm_compute; reflexivity | vm_compute; reflexivity | vm_compute; reflexivity ].
Defined.

(** Dash lines after the next-steps heading change nothing. *)
Lemma health_stop_witness :
  scan_health_lines
    ([ ERRORS_HEADING; "- uv not found" ]
       ++ NEXT_STEPS_HEADING :: [ "- install uv"; ERRORS_HEADING; "- late" ])
    false false [] []
  = scan_health_lines ([ ERRORS_HEADING; "- uv not found" ] ++ [ NEXT_STEPS_HEADING ])
      false false [] [].
Proof.
  apply health_scan_stops_at_next_steps; vm_compute; reflexivity.
Defined.

(** An output of dash lines without a heading reports nothing. *)
Lemma health_no_heading_witness :
  parse_health_output ("- uv not found" +:+ nl +:+ "- gh not authenticated")
  = ([], []).
Proof.
  apply health_needs_a_heading.
  replace (py_split_nl _) with [ "- uv not found"; "- gh not authenticated" ]
    by (vm_compute; reflexivity).
  repeat match goal with |- Forall _ _ => constructor end; vm_compute; auto.
Defined.

(** A check that exits with code 1 is unhealthy; one that times out is
    unhealthy with the timeout text. *)
Lemma health_status_witness :
  hget "error" (health (fun _ _ => TimeoutExpired) "/srv/app/adws")
  = Some (HStr "Health check timed out") /\
  hget "health_check" (health (fun _ _ => TimeoutExpired) "/srv/app/adws") = None.
Proof.
  apply (proj1 (proj2 (proj2 (proj2 (proj2
           (health_status_follows_return_code (fun _ _ => TimeoutExpired)
              "/srv/app/adws")))))).
  reflexivity.
Defined.

(* ===================================================================== *)
(** ** The tester of [test_workflow_integration.py] *)
(* ===================================================================== *)

Ltac unfold_tm :=
  unfold mbind, mret, TM_bind, TM_ret, tm_bind, tm_ret, tm_try, tm_call,
    tm_call_result, tm_raise, record_result, get_results, log_summary in *.

Ltac solve_records :=
  intros st; unfold_tm; repeat case_match; simplify_eq/=;
  eexists _, _; (split; [reflexivity|]); simpl; split; auto.

Section TesterFacts.
Variable T : tester_env.

Lemma generate_test_report_run st :
  generate_test_report T st
  = (match te_getcwd T (S (clock st)) with
     | inr cwd => inr (Report (te_strftime T (clock st)) (test_results st)
                         (te_sys_version T) cwd (te_project_root T)
                         (summary_of (test_results st)))
     | inl e => inl e
     end,
     Tester (test_results st) (logged_summary st) (S (S (clock st)))).
Proof.
  unfold generate_test_report. unfold_tm. simpl.
  destruct (te_getcwd T (S (clock st))); reflexivity.
Qed.

Lemma environment_setup_records :
  records_under "environment_setup" (test_environment_setup T).
Proof. unfold test_environment_setup. solve_records. Qed.

Lemma core_workflow_components_records :
  records_under "core_workflow_components" (test_core_workflow_components T).
Proof. unfold test_core_workflow_components. solve_records. Qed.

Lemma working_directory_fix_records :
  records_under "working_directory_fix" (test_working_directory_fix T).
Proof. unfold test_working_directory_fix. solve_records. Qed.

Lemma pipeline_functionality_records :
  records_under "pipeline_functionality" (test_pipeline_functionality T).
Proof. unfold test_pipeline_functionality. solve_records. Qed.

Lemma adw_plan_build_script_records :
  records_under "adw_plan_build_script" (test_adw_plan_build_script T).
Proof. unfold test_adw_plan_build_script. solve_records. Qed.

Lemma documentation_and_reporting_records :
  records_under "documentation_and_reporting"
                (test_documentation_and_reporting T).
Proof.
  unfold test_documentation_and_reporting. intros st. unfold_tm.
  repeat case_match;
  repeat match goal with
         | H : generate_test_report _ _ = _ |- _ =>
             rewrite generate_test_report_run in H
         end;
  simplify_eq/=;
  eexists _, _; (split; [reflexivity|]); simpl; split; auto.
Qed.

End TesterFacts.

(** X13. Each of the six tests returns from any state, without raising,
    and changes the results at most under its own key, where it stores
    what it returned; a test that returned [False] may have stored
    nothing. *)
Theorem tests_record_what_they_return (T : tester_env) :
  Forall2 records_under test_keys (test_methods T).*2.
Proof.
  unfold test_keys, test_methods. cbn [fmap list_fmap snd].
  repeat (apply List.Forall2_cons);
    auto using environment_setup_records, core_workflow_components_records,
      working_directory_fix_records, pipeline_functionality_records,
      adw_plan_build_script_records, documentation_and_reporting_records.
Qed.

(** *** The counts of a summary *)

Lemma filter_all_length {A : Type} (f : A -> bool) (l : list A) :
  length (List.filter f l) = length l -> Forall (fun x => f x = true) l.
Proof.
  induction l as [|x l IH]; simpl; [constructor|].
  destruct (f x) eqn:Hx; simpl; intros Hlen.
  - constructor; [exact Hx|]. apply IH. lia.
  - pose proof (List.filter_length_le f l). lia.
Qed.

Lemma filter_split_length {A : Type} (f : A -> bool) (l : list A) :
  length (List.filter f l) + length (List.filter (fun x => negb (f x)) l)
  = length l.
Proof.
  induction l as [|x l IH]; simpl; [reflexivity|].
  destruct (f x); simpl; lia.
Qed.

Lemma summary_total (m : gmap string bool) :
  total_tests (summary_of m) = size m.
Proof.
  unfold summary_of. cbn [total_tests].
  rewrite length_fmap. apply length_map_to_list.
Qed.

Lemma summary_sum (m : gmap string bool) :
  passed_tests (summary_of m) + failed_tests (summary_of m)
  = total_tests (summary_of m).
Proof.
  unfold summary_of. cbn [total_tests passed_tests failed_tests].
  apply (filter_split_length (fun r : bool => r)).
Qed.

Lemma summary_rate (m : gmap string bool) :
  success_rate (summary_of m)
  = success_rate_of (passed_tests (summary_of m)) (total_tests (summary_of m)).
Proof. reflexivity. Qed.

Section Bounded.
Variable keys : list string.
Variable m : gmap string bool.
Hypothesis keys_nodup : NoDup keys.
Hypothesis only_keys : forall k, k ∉ keys -> m !! k = None.

Lemma recorded_keys : (map_to_list m).*1 ⊆+ keys.
Proof.
  apply NoDup_submseteq; [apply NoDup_fst_map_to_list|].
  intros k Hk. apply list_elem_of_fmap in Hk as [[k' v] [-> Hkv]].
  apply elem_of_map_to_list in Hkv. simpl in *.
  destruct (decide (k' ∈ keys)) as [Hin|Hout]; [exact Hin|].
  rewrite (only_keys _ Hout) in Hkv. discriminate.
Qed.

Lemma size_bound : size m <= length keys.
Proof.
  rewrite <- length_map_to_list, <- (length_fmap fst).
  apply submseteq_length, recorded_keys.
Qed.

Lemma passed_full :
  passed_tests (summary_of m) = length keys ->
  forall k, k ∈ keys -> m !! k = Some true.
Proof.
  intros Hp k Hk.
  pose proof size_bound as Hsize.
  pose proof (summary_sum m) as Hsum.
  pose proof (summary_total m) as Htot.
  assert (Hlen : length (map_to_list m).*1 = length keys).
  { rewrite length_fmap, length_map_to_list. lia. }
  assert (Hperm : (map_to_list m).*1 ≡ₚ keys).
  { apply submseteq_length_Permutation; [apply recorded_keys|]. lia. }
  assert (Hin : k ∈ (map_to_list m).*1) by (rewrite Hperm; exact Hk).
  apply list_elem_of_fmap in Hin as [[k' v] [-> Hkv]]. simpl.
  assert (Hall : Forall (fun r : bool => r = true) (map_to_list m).*2).
  { apply (filter_all_length (fun r : bool => r)).
    unfold summary_of in Hp, Htot. cbn [passed_tests total_tests] in Hp, Htot.
    pose proof (List.filter_length_le (fun r : bool => r) (map_to_list m).*2).
    lia. }
  assert (Hv : v ∈ (map_to_list m).*2).
  { apply list_elem_of_fmap. exists (k', v). split; [reflexivity|exact Hkv]. }
  rewrite Forall_forall in Hall. rewrite (Hall v Hv) in Hkv.
  apply elem_of_map_to_list in Hkv. exact Hkv.
Qed.

Lemma all_true_map :
  (forall k, k ∈ keys -> m !! k = Some true) ->
  m = list_to_map ((fun k => (k, true)) <$> keys).
Proof.
  intros Hall. apply map_eq. intros k.
  destruct (decide (k ∈ keys)) as [Hin|Hout].
  - rewrite (Hall _ Hin). symmetry.
    apply elem_of_list_to_map_1.
    + rewrite <- list_fmap_compose. simpl.
      rewrite list_fmap_id. exact keys_nodup.
    + apply list_elem_of_fmap. exists k. split; [reflexivity|exact Hin].
  - rewrite (only_keys _ Hout). symmetry.
    apply not_elem_of_list_to_map_1.
    rewrite <- list_fmap_compose. simpl. rewrite list_fmap_id. exact Hout.
Qed.

End Bounded.

(** The rate of at most six tests is [100.0%] exactly when all of them,
    and at least one, passed. *)
Lemma full_rate (p t : nat) :
  p <= t -> t <= 6 ->
  (success_rate_of p t = "100.0%" <-> p = t /\ 0 < t).
Proof.
  intros Hpt Ht.
  assert (Hcases : forall n, n <= 6 ->
            n = 0 \/ n = 1 \/ n = 2 \/ n = 3 \/ n = 4 \/ n = 5 \/ n = 6)
    by (intros; lia).
  destruct (Hcases t Ht) as [->|[->|[->|[->|[->|[->| ->]]]]]];
  (destruct (Hcases p ltac:(lia)) as [->|[->|[->|[->|[->|[->| ->]]]]]];
   try lia;
   (split; [intros H; vm_compute in H; first [discriminate H | lia]
           | intros [H1 H2]; first [lia | vm_compute; reflexivity]])).
Qed.

(** *** The loop of [run_all_tests] *)

Lemma run_tests_cons name test_method rest all_passed st :
  run_tests ((name, test_method) :: rest) all_passed st
  = match test_method st with
    | (inr passed, st') =>
        run_tests rest (if passed : bool then all_passed else false) st'
    | (inl _, st') => run_tests rest false st'
    end.
Proof.
  cbn [run_tests]. unfold_tm.
  destruct (test_method st) as [[e|[|]] st']; reflexivity.
Qed.

Lemma run_tests_spec (keys : list string) (ms : list (string * TM bool)) :
  Forall2 records_under keys ms.*2 ->
  NoDup keys ->
  forall all_passed st,
    (forall k, k ∈ keys -> test_results st !! k <> Some true) ->
    exists b st',
      run_tests ms all_passed st = (inr b, st')
      /\ logged_summary st' = logged_summary st
      /\ (forall k, k ∉ keys -> test_results st' !! k = test_results st !! k)
      /\ b = all_passed
             && forallb (fun k => bool_decide (test_results st' !! k = Some true))
                        keys.
Proof.
  revert keys.
  induction ms as [|[name test_method] rest IH]; intros keys Hrec Hnd acc st Hst.
  - apply Forall2_nil_inv_r in Hrec as ->.
    exists acc, st. cbn [run_tests forallb]. rewrite andb_true_r.
    repeat split; reflexivity.
  - cbn [fmap list_fmap snd] in Hrec.
    apply Forall2_cons_inv_r in Hrec as (key & keys' & Hm & Hrest & ->).
    apply NoDup_cons in Hnd as [Hfresh Hnd].
    destruct (Hm st) as (b1 & st1 & Hrun & Hlog1 & Hres1).
    assert (Hother : forall k, k <> key ->
              test_results st1 !! k = test_results st !! k).
    { intros k Hk. destruct Hres1 as [->|[_ ->]]; [|reflexivity].
      apply lookup_insert_ne. congruence. }
    assert (Hkey : bool_decide (test_results st1 !! key = Some true) = b1).
    { destruct Hres1 as [->|[-> ->]].
      - rewrite lookup_insert_eq. destruct b1.
        + apply bool_decide_eq_true_2. reflexivity.
        + apply bool_decide_eq_false_2. discriminate.
      - apply bool_decide_eq_false_2. apply Hst. left. }
    destruct (IH keys' Hrest Hnd (if b1 then acc else false) st1)
      as (b & st' & Hloop & Hlog & Hkeep & Hb).
    { intros k Hk. rewrite Hother; [apply Hst; right; exact Hk|].
      intros ->. exact (Hfresh Hk). }
    exists b, st'. rewrite run_tests_cons, Hrun.
    split; [exact Hloop|]. split; [congruence|]. split.
    + intros k Hk. apply not_elem_of_cons in Hk as [Hne Hk].
      rewrite Hkeep by exact Hk. apply Hother, Hne.
    + cbn [forallb]. rewrite (Hkeep key Hfresh), Hkey, Hb.
      destruct b1, acc; reflexivity.
Qed.

Lemma test_keys_nodup : NoDup test_keys.
Proof. apply (bool_decide_unpack _). vm_compute. exact I. Qed.

Lemma tests_keys_tail (T : tester_env) :
  Forall2 records_under (tail test_keys) (tail (test_methods T)).*2.
Proof.
  unfold test_keys, test_methods. cbn [tail fmap list_fmap snd].
  repeat (apply List.Forall2_cons);
    auto using core_workflow_components_records,
      working_directory_fix_records, pipeline_functionality_records,
      adw_plan_build_script_records, documentation_and_reporting_records.
Qed.

Section RunAllTests.
Variable T : tester_env.

(** What [run_all_tests] does after the loop. *)
Lemma run_all_tests_after st b st1 :
  run_tests (test_methods T) true st = (inr b, st1) ->
  run_all_tests T st
  = match te_getcwd T (S (clock st1)) with
    | inr _ => (inr b, Tester (test_results st1)
                         (Some (summary_of (test_results st1)))
                         (S (S (S (clock st1)))))
    | inl e => (inl e, Tester (test_results st1) (logged_summary st1)
                         (S (S (clock st1))))
    end.
Proof.
  intros Hloop. unfold run_all_tests.
  change (run_tests (test_methods T) true ≫= ?f)
    with (tm_bind (run_tests (test_methods T) true) f).
  unfold tm_bind at 1. rewrite Hloop.
  change (generate_test_report T ≫= ?f) with (tm_bind (generate_test_report T) f).
  unfold tm_bind at 1. rewrite generate_test_report_run.
  destruct (te_getcwd T (S (clock st1))) as [e|cwd]; [reflexivity|].
  unfold_tm. cbn.
  destruct (te_write_report T _ _); reflexivity.
Qed.

(** The state of a run from a tester without results. *)
Lemma run_all_tests_spec st r st' :
  test_results st = ∅ ->
  run_all_tests T st = (r, st') ->
  (forall k, k ∉ test_keys -> test_results st' !! k = None)
  /\ match r with
     | inr b =>
         logged_summary st' = Some (summary_of (test_results st'))
         /\ b = forallb (fun k => bool_decide (test_results st' !! k = Some true))
                        test_keys
     | inl e => exists n, te_getcwd T n = inl e
     end.
Proof.
  intros Hempty Hrun.
  destruct (run_tests_spec test_keys (test_methods T)) with (all_passed := true) (st := st)
    as (b & st1 & Hloop & _ & Hkeep & Hb).
  { unfold test_keys, test_methods. cbn [fmap list_fmap snd].
    repeat (apply List.Forall2_cons);
      auto using environment_setup_records, core_workflow_components_records,
        working_directory_fix_records, pipeline_functionality_records,
        adw_plan_build_script_records, documentation_and_reporting_records. }
  { exact test_keys_nodup. }
  { intros k _. rewrite Hempty, lookup_empty. discriminate. }
  rewrite (run_all_tests_after _ _ _ Hloop) in Hrun.
  assert (Hnone : forall k, k ∉ test_keys -> test_results st1 !! k = None).
  { intros k Hk. rewrite (Hkeep k Hk), Hempty. apply lookup_empty. }
  destruct (te_getcwd T (S (clock st1))) as [e|cwd] eqn:Hcwd;
    injection Hrun as <- <-; cbn [test_results logged_summary].
  - split; [exact Hnone|]. exists (S (clock st1)). exact Hcwd.
  - split; [exact Hnone|]. split; [reflexivity|]. exact Hb.
Qed.

End RunAllTests.

(** X14. A report counts every recorded result once: the total is the
    number of recorded results and the sum of the passed and of the failed
    ones; the report carries the results as they are, and making it
    changes neither the results nor the summary logged. Only [os.getcwd()]
    can make it raise. *)
Theorem report_counts_add_up (T : tester_env) (st st' : tester)
    (r : result report) :
  generate_test_report T st = (r, st') ->
  test_results st' = test_results st
  /\ logged_summary st' = logged_summary st
  /\ match r with
     | inr rep =>
         report_results rep = test_results st
         /\ total_tests (report_summary rep) = size (test_results st)
         /\ passed_tests (report_summary rep) + failed_tests (report_summary rep)
            = total_tests (report_summary rep)
     | inl e => exists n, te_getcwd T n = inl e
     end.
Proof.
  rewrite generate_test_report_run. intros Hrun.
  destruct (te_getcwd T (S (clock st))) as [e|cwd] eqn:Hcwd;
    injection Hrun as <- <-; cbn [test_results logged_summary report_results
                                  report_summary].
  - split; [reflexivity|]. split; [reflexivity|].
    exists (S (clock st)). exact Hcwd.
  - split; [reflexivity|]. split; [reflexivity|].
    split; [reflexivity|]. split; [apply summary_total | apply summary_sum].
Qed.

(** X15. From a tester without results, [run_all_tests] raises only
    what [os.getcwd()] raised for the final report; when it returns, it
    has logged the summary of the results, it returns [True] exactly when
    each of the six keys holds [True], which is exactly when the summary
    logged counts six passed tests. *)
Theorem run_all_tests_verdict (T : tester_env) (st st' : tester)
    (r : result bool) :
  test_results st = ∅ ->
  run_all_tests T st = (r, st') ->
  match r with
  | inr b =>
      logged_summary st' = Some (summary_of (test_results st'))
      /\ (b = true <-> forall k, k ∈ test_keys -> test_results st' !! k = Some true)
      /\ (b = true <-> passed_tests (summary_of (test_results st')) = 6)
  | inl e => exists n, te_getcwd T n = inl e
  end.
Proof.
  intros Hempty Hrun.
  destruct (run_all_tests_spec T st r st' Hempty Hrun) as [Hnone Hr].
  destruct r as [e|b]; [exact Hr|].
  destruct Hr as [Hlog Hb].
  assert (Hall : b = true <->
            forall k, k ∈ test_keys -> test_results st' !! k = Some true).
  { rewrite Hb, forallb_forall. split.
    - intros H k Hk.
      apply (proj1 (bool_decide_eq_true _)), H, list_elem_of_In, Hk.
    - intros H k Hk.
      apply (proj2 (bool_decide_eq_true _)), H, list_elem_of_In, Hk. }
  split; [exact Hlog|]. split; [exact Hall|].
  rewrite Hall. split.
  - intros H.
    rewrite (all_true_map test_keys _ test_keys_nodup Hnone H).
    vm_compute. reflexivity.
  - apply (passed_full test_keys _ Hnone).
Qed.

(** X16. The success rate that [run_all_tests] logs, from a tester
    without results, is [100.0%] exactly when no failure was recorded and
    some result was. *)
Theorem full_rate_iff_no_recorded_failure (T : tester_env) (st st' : tester)
    (b : bool) :
  test_results st = ∅ ->
  run_all_tests T st = (inr b, st') ->
  exists s,
    logged_summary st' = Some s
    /\ total_tests s <= 6
    /\ (success_rate s = "100.0%" <-> failed_tests s = 0 /\ 0 < total_tests s).
Proof.
  intros Hempty Hrun.
  destruct (run_all_tests_spec T st _ st' Hempty Hrun) as [Hnone [Hlog _]].
  exists (summary_of (test_results st')). split; [exact Hlog|].
  pose proof (size_bound test_keys _ Hnone) as Hsize.
  pose proof (summary_total (test_results st')) as Htot.
  pose proof (summary_sum (test_results st')) as Hsum.
  change (length test_keys) with 6 in Hsize.
  split; [lia|].
  rewrite summary_rate, full_rate by lia. lia.
Qed.

(** X17. When [gh] is not authenticated, the first test returns without
    recording anything: the run from a fresh tester returns [False], the
    key [environment_setup] is absent from the results, and the summary
    counts at most five tests; if the five other tests pass, it logs five
    tests, five passed, none failed and a rate of [100.0%]. *)
Theorem unauthenticated_run_is_not_counted (T : tester_env) (rc : Z)
    (b : bool) (st' : tester) :
  te_gh_auth_status T 0 = inr rc ->
  rc <> 0%Z ->
  run_all_tests T fresh_tester = (inr b, st') ->
  b = false
  /\ test_results st' !! "environment_setup" = None
  /\ total_tests (summary_of (test_results st')) <= 5
  /\ ((forall k, k ∈ tail test_keys -> test_results st' !! k = Some true) ->
      logged_summary st' = Some (Summary 5 5 0 "100.0%")).
Proof.
  intros Hgh Hrc Hrun.
  destruct (run_all_tests_spec T fresh_tester _ st' eq_refl Hrun)
    as [Hnone [Hlog Hb]].
  assert (Hfirst : test_environment_setup T fresh_tester
                   = (inr false, Tester ∅ None 1)).
  { unfold test_environment_setup. unfold_tm. cbn. rewrite Hgh.
    destruct (rc =? 0)%Z eqn:Hz; [apply Z.eqb_eq in Hz; contradiction|].
    reflexivity. }
  pose proof (tests_keys_tail T) as Hrec.
  destruct (run_tests_spec (tail test_keys) (tail (test_methods T)) Hrec)
    with (all_passed := false) (st := Tester ∅ None 1)
    as (b1 & st1 & Hloop & _ & Hkeep & Hb1).
  { apply (bool_decide_unpack _). vm_compute. exact I. }
  { intros k _. cbn. rewrite lookup_empty. discriminate. }
  assert (Hloop0 : run_tests (test_methods T) true fresh_tester = (inr b1, st1)).
  { unfold test_methods at 1. rewrite run_tests_cons, Hfirst. exact Hloop. }
  rewrite (run_all_tests_after T _ _ _ Hloop0) in Hrun.
  assert (Hres : test_results st' = test_results st1).
  { destruct (te_getcwd T (S (clock st1))); inversion Hrun; reflexivity. }
  assert (Hnone5 : forall k, k ∉ tail test_keys -> test_results st' !! k = None).
  { intros k Hk. rewrite Hres, (Hkeep k Hk). apply lookup_empty. }
  assert (Hnd5 : NoDup (tail test_keys))
    by (apply (bool_decide_unpack _); vm_compute; exact I).
  assert (Henv : test_results st' !! "environment_setup" = None).
  { apply Hnone5. apply (bool_decide_unpack _). vm_compute. exact I. }
  split.
  { rewrite Hb. cbn [test_keys forallb]. rewrite Henv. reflexivity. }
  split; [exact Henv|]. split.
  { rewrite summary_total.
    exact (size_bound (tail test_keys) _ Hnone5). }
  intros Hall. rewrite Hlog.
  rewrite (all_true_map (tail test_keys) _ Hnd5 Hnone5 Hall).
  vm_compute. reflexivity.
Qed.


(** *** Witnesses *)

(** One passed and one failed test give a report of two tests. *)
Lemma report_counts_witness :
  (generate_test_report example_tester_env example_tester).1
  = inr (Report "2025-01-01 00:00:00" (test_results example_tester) "3.12.0"
           "/srv/app/adws" "/srv/app" (Summary 2 1 1 "50.0%"))
  /\ test_results (generate_test_report example_tester_env example_tester).2
     = test_results example_tester.
Proof.
  split; [vm_compute; reflexivity|].
  exact (proj1 (report_counts_add_up example_tester_env example_tester
                  (generate_test_report example_tester_env example_tester).2
                  (generate_test_report example_tester_env example_tester).1
                  (surjective_pairing _))).
Defined.

(** Where every check succeeds, the run returns [True] and logs six
    passed tests. *)
Lemma run_all_tests_witness :
  (run_all_tests example_tester_env fresh_tester).1 = inr true
  /\ logged_summary (run_all_tests example_tester_env fresh_tester).2
     = Some (summary_of
               (test_results (run_all_tests example_tester_env fresh_tester).2))
  /\ passed_tests
       (summary_of
          (test_results (run_all_tests example_tester_env fresh_tester).2))
     = 6.
Proof.
  pose proof (run_all_tests_verdict example_tester_env fresh_tester
                (run_all_tests example_tester_env fresh_tester).2
                (inr true) eq_refl ltac:(vm_compute; reflexivity))
    as (Hlog & _ & Hpassed).
  split; [vm_compute; reflexivity|].
  split; [exact Hlog|]. apply Hpassed. reflexivity.
Defined.

(** Where every check succeeds, the rate logged is [100.0%]. *)
Lemma full_rate_witness :
  (run_all_tests example_tester_env fresh_tester).1 = inr true
  /\ exists s,
       logged_summary (run_all_tests example_tester_env fresh_tester).2 = Some s
       /\ total_tests s <= 6
       /\ (success_rate s = "100.0%" <-> failed_tests s = 0 /\ 0 < total_tests s).
Proof.
  split; [vm_compute; reflexivity|].
  apply (full_rate_iff_no_recorded_failure example_tester_env fresh_tester
           (run_all_tests example_tester_env fresh_tester).2 true eq_refl).
  vm_compute. reflexivity.
Defined.

(** With [gh] not authenticated and every other check succeeding, the run
    returns [False] and logs five tests, all passed. *)
Lemma unauthenticated_run_witness :
  (run_all_tests example_tester_env_no_gh fresh_tester).1 = inr false
  /\ test_results (run_all_tests example_tester_env_no_gh fresh_tester).2
       !! "environment_setup" = None
  /\ logged_summary (run_all_tests example_tester_env_no_gh fresh_tester).2
     = Some (Summary 5 5 0 "100.0%").
Proof.
  pose proof (unauthenticated_run_is_not_counted example_tester_env_no_gh 1
                false (run_all_tests example_tester_env_no_gh fresh_tester).2
                eq_refl ltac:(discriminate) ltac:(vm_compute; reflexivity))
    as (_ & Henv & _ & Hlog).
  split; [vm_compute; reflexivity|]. split; [exact Henv|].
  apply Hlog. apply Forall_forall.
  repeat constructor; vm_compute; reflexivity.
Defined.
